(** * clidecode: the BIRD control-socket client, embedded in Rocq

    A shallow embedding of the session reader [querySocket] (socket.go) and of
    the response decoders of [BirdClient], with the properties of the
    specification stated over them.

    Go strings are byte sequences: they are modelled as [string], one [ascii]
    per byte.  The pieces of Go's [strings], [strconv] and [regexp] packages
    the code calls are modelled in the modules [strings], [strconv] and
    [regexp] below. *)

From Stdlib Require Import ZArith Ascii String List Bool Lia DecimalString DecimalPos DecimalN.
From stdpp Require Import base list strings gmap.

Local Open Scope Z_scope.

(** ** Bytes *)

Definition byte_le (a b : ascii) : bool := (nat_of_ascii a <=? nat_of_ascii b)%nat.

(** [c >= '0' && c <= '9'] *)
Definition isDigit (c : ascii) : bool := byte_le "0" c && byte_le c "9".

(** ** The functions of Go's [strings] package used by the client *)

Module strings.

(** [len(s)] *)
Definition len (s : string) : nat := String.length s.

(** [s[i:]] for [i <= len(s)] *)
Fixpoint from (i : nat) (s : string) : string :=
  match i, s with
  | O, _ => s
  | S i', String _ s' => from i' s'
  | S _, EmptyString => EmptyString
  end.

(** [s[:i]] for [i <= len(s)] *)
Fixpoint upto (i : nat) (s : string) : string :=
  match i, s with
  | O, _ => EmptyString
  | S i', String c s' => String c (upto i' s')
  | S _, EmptyString => EmptyString
  end.

(** [s[i]], for [i < len(s)] *)
Definition at_ (s : string) (i : nat) : option ascii := String.get i s.

(** [strings.HasPrefix(s, prefix)] *)
Fixpoint HasPrefix (s prefix : string) {struct prefix} : bool :=
  match prefix, s with
  | EmptyString, _ => true
  | String p prefix', String c s' => Ascii.eqb p c && HasPrefix s' prefix'
  | String _ _, EmptyString => false
  end.

(** [strings.Contains(s, substr)] *)
Fixpoint Contains (s substr : string) : bool :=
  HasPrefix s substr ||
  match s with
  | EmptyString => false
  | String _ s' => Contains s' substr
  end.

(** [strings.ContainsAny(s, chars)], for ASCII [chars] *)
Fixpoint ContainsAny (s chars : string) : bool :=
  match s with
  | EmptyString => false
  | String c s' => Contains chars (String c EmptyString) || ContainsAny s' chars
  end.

(** [strings.Index(s, substr)]: the offset of the first occurrence, [None]
    for Go's [-1]. *)
Fixpoint Index (s substr : string) : option nat :=
  if HasPrefix s substr then Some O
  else match s with
       | EmptyString => None
       | String _ s' => option_map S (Index s' substr)
       end.

(** [strings.Replace(s, old, new, 1)] for a non-empty [old]: the first
    occurrence of [old] is replaced. *)
Fixpoint Replace1 (s old new : string) : string :=
  if HasPrefix s old then new +:+ from (len old) s
  else match s with
       | EmptyString => EmptyString
       | String c s' => String c (Replace1 s' old new)
       end.

(** [strings.Split(s, sep)] for a one-byte separator: always at least one
    piece. *)
Fixpoint Split (s : string) (sep : ascii) : list string :=
  match s with
  | EmptyString => [EmptyString]
  | String c s' =>
      if Ascii.eqb c sep then EmptyString :: Split s' sep
      else match Split s' sep with
           | p :: ps => String c p :: ps
           | [] => [String c EmptyString]
           end
  end.

(** [strings.TrimRight(s, cutset)] for an ASCII [cutset]. *)
Fixpoint TrimRight (s cutset : string) : string :=
  match s with
  | EmptyString => EmptyString
  | String c s' =>
      match TrimRight s' cutset with
      | EmptyString =>
          if Contains cutset (String c EmptyString) then EmptyString
          else String c EmptyString
      | t => String c t
      end
  end.

(** White space, as [unicode.IsSpace] sees it through UTF-8 decoding.  The
    result is the number of bytes of the white-space rune at the head of
    [s], [0] when [s] does not start with one.  The one-byte runes are
    Go's [asciiSpace] table; the others are the UTF-8 encodings of U+0085,
    U+00A0, U+1680, U+2000..U+200A, U+2028, U+2029, U+202F, U+205F and
    U+3000.  No encoding starts with a continuation byte, so scanning
    byte by byte meets exactly the runes Go's decoder meets. *)
Definition asciiSpace (c : ascii) : bool :=
  match c with
  | "009" | "010" | "011" | "012" | "013" | " " => true
  | _ => false
  end%char.

(** [c d] encodes U+0085 or U+00A0. *)
Definition space2 (c d : ascii) : bool :=
  Ascii.eqb c "194" && (Ascii.eqb d "133" || Ascii.eqb d "160").

(** [c d e] encodes U+1680, U+2000..U+200A, U+2028, U+2029, U+202F,
    U+205F or U+3000. *)
Definition space3 (c d e : ascii) : bool :=
  (Ascii.eqb c "225" && Ascii.eqb d "154" && Ascii.eqb e "128")
  || (Ascii.eqb c "226" && Ascii.eqb d "128"
      && ((byte_le "128" e && byte_le e "138")
          || Ascii.eqb e "168" || Ascii.eqb e "169" || Ascii.eqb e "175"))
  || (Ascii.eqb c "226" && Ascii.eqb d "129" && Ascii.eqb e "159")
  || (Ascii.eqb c "227" && Ascii.eqb d "128" && Ascii.eqb e "128").

Definition spaceWidth (s : string) : nat :=
  match s with
  | EmptyString => 0
  | String c s1 =>
      if asciiSpace c then 1
      else match s1 with
           | String d s2 =>
               if space2 c d then 2
               else match s2 with
                    | String e _ => if space3 c d e then 3 else 0
                    | EmptyString => 0
                    end
           | EmptyString => 0
           end
  end%nat.

(** The same test from the end of the string, as
    [utf8.DecodeLastRuneInString] followed by [unicode.IsSpace]: [r] is
    the string reversed. *)
Definition spaceWidthRev (r : string) : nat :=
  match r with
  | EmptyString => 0
  | String c r1 =>
      if asciiSpace c then 1
      else match r1 with
           | String d r2 =>
               if space2 d c then 2
               else match r2 with
                    | String e _ => if space3 e d c then 3 else 0
                    | EmptyString => 0
                    end
           | EmptyString => 0
           end
  end%nat.

(** Strip white-space runes from the front; [skip] counts the bytes still
    to drop of the rune being removed. *)
Fixpoint trimLeftSpace (skip : nat) (s : string) : string :=
  match s with
  | EmptyString => EmptyString
  | String _ s' =>
      match skip with
      | S k => trimLeftSpace k s'
      | O => match spaceWidth s with
             | O => s
             | S w => trimLeftSpace w s'
             end
      end
  end.

Fixpoint trimLeftSpaceRev (skip : nat) (r : string) : string :=
  match r with
  | EmptyString => EmptyString
  | String _ r' =>
      match skip with
      | S k => trimLeftSpaceRev k r'
      | O => match spaceWidthRev r with
             | O => r
             | S w => trimLeftSpaceRev w r'
             end
      end
  end.

(** [strings.TrimSpace(s)] *)
Definition TrimSpace (s : string) : string :=
  String.rev (trimLeftSpaceRev 0 (String.rev (trimLeftSpace 0 s))).

(** [strings.Fields(s)]: the maximal runs of bytes between white-space
    runes.  [cur] is the field being read, [skip] the bytes still to drop
    of the current white-space rune. *)
Definition flush (cur : string) : list string :=
  match cur with
  | EmptyString => []
  | _ => [cur]
  end.

Fixpoint fieldsFrom (skip : nat) (cur : string) (s : string) : list string :=
  match s with
  | EmptyString => flush cur
  | String c s' =>
      match skip with
      | S k => fieldsFrom k cur s'
      | O => match spaceWidth s with
             | O => fieldsFrom O (cur +:+ String c EmptyString) s'
             | S w => flush cur ++ fieldsFrom w EmptyString s'
             end
      end
  end.

Definition Fields (s : string) : list string := fieldsFrom 0 EmptyString s.

End strings.

(** ** [strconv] *)

Module strconv.

(** The value of a run of decimal digits, [None] when a byte is not a
    digit.  [acc] is the value read so far. *)
Fixpoint digits (acc : Z) (s : string) : option Z :=
  match s with
  | EmptyString => Some acc
  | String c s' =>
      if isDigit c
      then digits (10 * acc + (Z.of_nat (nat_of_ascii c) - 48)) s'
      else None
  end.

(** [strconv.ParseUint(s, 10, 32)]: [None] stands for a non-nil error
    (syntax error on the empty string, on a sign and on any other
    non-digit; range error above [2^32 - 1]). *)
Definition ParseUint32 (s : string) : option Z :=
  match s with
  | EmptyString => None
  | _ => match digits 0 s with
         | Some v => if v <=? 4294967295 then Some v else None
         | None => None
         end
  end.

(** [strconv.Atoi(s)] on a 64-bit platform: an optional sign, then
    digits; [None] stands for a non-nil error. *)
Definition Atoi (s : string) : option Z :=
  let '(neg, body) :=
    match s with
    | String "-" s' => (true, s')
    | String "+" s' => (false, s')
    | _ => (false, s)
    end in
  match body with
  | EmptyString => None
  | _ => match digits 0 body with
         | Some v =>
             let v := if neg then - v else v in
             if (- 9223372036854775808 <=? v) && (v <=? 9223372036854775807)
             then Some v else None
         | None => None
         end
  end.

End strconv.

Definition nl : ascii := "010".
Definition cr : ascii := "013".
Definition LF : string := String nl EmptyString.
Definition CRLF : string := String cr (String nl EmptyString).

(** [uint32(n)] for a non-negative [n] *)
Definition uint32 (n : Z) : Z := n mod 4294967296.

(** [+] on [uint32] *)
Definition add32 (a b : Z) : Z := uint32 (a + b).

(** [stringToUint32] (part_002, l. 682) *)
Definition stringToUint32 (s : string) : Z :=
  let s := strings.TrimSpace s in
  match s with
  | EmptyString => 0
  | _ => match strconv.ParseUint32 s with
         | None => 0
         | Some val => uint32 val
         end
  end.

(** ** The session transport (socket.go) *)

(** The errors [querySocket] builds with [fmt.Errorf]; [cause] is the text
    of the wrapped operating-system error. *)
Inductive error : Type :=
| ErrConnect (socketPath cause : string)
| ErrReadGreeting (cause : string)
| ErrGreeting (greeting : string)
| ErrSend (cause : string)
| ErrRead (cause : string)
| ErrBird (line : string)
| ErrParseCIDR (text : string)       (* the error of [net.ParseCIDR(text)] *)
| ErrAtoi (num : string).            (* the error of [strconv.Atoi(num)] *)

(** [err.Error()].  The message of a [strconv] error quotes its operand
    with [strconv.Quote], which is not modelled: it has no text here. *)
Definition Error (e : error) : option string :=
  match e with
  | ErrConnect p c => Some ("failed to connect to socket " +:+ p +:+ ": " +:+ c)
  | ErrReadGreeting c => Some ("failed to read greeting: " +:+ c)
  | ErrGreeting g => Some ("unexpected greeting: " +:+ g)
  | ErrSend c => Some ("failed to send command: " +:+ c)
  | ErrRead c => Some ("failed to read response: " +:+ c)
  | ErrBird l => Some ("BIRD error: " +:+ l)
  | ErrParseCIDR t => Some ("invalid CIDR address: " +:+ t)
  | ErrAtoi _ => None
  end.

(** What one connection to the daemon does: the bytes it sends on connect,
    the bytes it sends once it has received what the client wrote, whether
    the write fails, and the error the reader reports when the bytes run out
    before a line is complete (end of file, or the 10 s deadline). *)
Record Session : Type := {
  banner : string;
  reply : string -> string;
  write_err : option string;
  read_err : string
}.

Inductive Endpoint : Type :=
| Refuse (cause : string)
| Accept (s : Session).

(** The daemon side of the world: what the [n]-th [net.Dial] of the run
    meets at a socket path, and the number of dials made so far.  Every
    query is a fresh connection, so the daemon may answer two queries of one
    decoder from different states. *)
Record World : Type := {
  endpoints : string -> nat -> Endpoint;
  dials : nat
}.

(** [reader.ReadString('\n')]: the bytes up to and including the first
    line feed and the bytes left in the stream; [None] when the stream ends
    first. *)
Fixpoint ReadString (s : string) : option (string * string) :=
  match s with
  | EmptyString => None
  | String c s' =>
      if Ascii.eqb c nl then Some (String c EmptyString, s')
      else match ReadString s' with
           | Some (l, r) => Some (String c l, r)
           | None => None
           end
  end.

(** The lines the successive calls of [ReadString] return on a stream,
    until the call that fails.  [cur] is the line being read. *)
Fixpoint readLines (cur : string) (s : string) : list string :=
  match s with
  | EmptyString => []
  | String c s' =>
      if Ascii.eqb c nl then (cur +:+ LF) :: readLines EmptyString s'
      else readLines (cur +:+ String c EmptyString) s'
  end.

(** [for _, c := range code { if c < '0' || c > '9' { isNumeric = false } }] *)
Fixpoint isNumeric (code : string) : bool :=
  match code with
  | EmptyString => true
  | String c code' => if negb (isDigit c) then false else isNumeric code'
  end.

(** [line[i] == c], false out of range *)
Definition byteIs (line : string) (i : nat) (c : ascii) : bool :=
  match strings.at_ line i with
  | Some d => Ascii.eqb d c
  | None => false
  end.

(** The outcome of the loop body on one line. *)
Inductive step : Type :=
| Next (output : string)       (* [continue], or fall to the next iteration *)
| Break (output : string)      (* [break] *)
| Return (e : error).          (* [return "", err] *)

(** The body of the response loop of [querySocket] (socket.go, l. 63-122),
    on a line as [ReadString] returned it. *)
Definition lineStep (raw : string) (output : string) : step :=
  let line := strings.TrimRight raw LF in
  if (0 <? strings.len line)%nat && byteIs line 0 " " then
    Next (output +:+ strings.from 1 line +:+ LF)
  else if (4 <=? strings.len line)%nat then
    let code := strings.upto 4 line in
    if isNumeric code then
      if byteIs code 0 "0" then
        if (5 <? strings.len line)%nat && (byteIs line 4 " " || byteIs line 4 "-")
        then Break (output +:+ strings.from 5 line +:+ LF)
        else Break output
      else if byteIs code 0 "8" || byteIs code 0 "9" then
        Return (ErrBird line)
      else if
        match strings.at_ code 0 with
        | Some c => byte_le "1" c && byte_le c "9"
        | None => false
        end
      then
        if (5 <? strings.len line)%nat then
          if byteIs line 4 "-" || byteIs line 4 " "
          then Next (output +:+ strings.from 5 line +:+ LF)
          else Next output
        else Next output
      else Next output
    else Next (output +:+ line +:+ LF)
  else if (0 <? strings.len line)%nat then
    Next (output +:+ line +:+ LF)
  else Next output.

(** The response loop: [lines] are the lines still to come; when they run
    out before a final status line, [ReadString] fails with [cause]. *)
Fixpoint readResponse (cause : string) (lines : list string) (output : string)
  : string * option error :=
  match lines with
  | [] => (EmptyString, Some (ErrRead cause))
  | raw :: rest =>
      match lineStep raw output with
      | Next output' => readResponse cause rest output'
      | Break output' => (strings.TrimSpace output', None)
      | Return e => (EmptyString, Some e)
      end
  end.

(** [querySocket] (socket.go, l. 24) *)
Definition querySocket (socketPath command : string) (w : World)
  : (string * option error) * World :=
  let w' := {| endpoints := endpoints w; dials := S (dials w) |} in
  match endpoints w socketPath (dials w) with
  | Refuse cause => ((EmptyString, Some (ErrConnect socketPath cause)), w')
  | Accept conn =>
      match ReadString (banner conn) with
      | None => ((EmptyString, Some (ErrReadGreeting (read_err conn))), w')
      | Some (greeting, buffered) =>
          if negb (strings.HasPrefix greeting "0001") then
            ((EmptyString, Some (ErrGreeting greeting)), w')
          else
            match write_err conn with
            | Some cause => ((EmptyString, Some (ErrSend cause)), w')
            | None =>
                let stream := buffered +:+ reply conn (command +:+ CRLF) in
                (readResponse (read_err conn) (readLines EmptyString stream)
                   EmptyString, w')
            end
      end
  end.

(** A daemon that greets and answers every command with the same bytes. *)
Definition fixedSession (response : string) : Session :=
  {| banner := "0001 BIRD 2.0.8 ready." +:+ LF;
     reply := fun _ => response;
     write_err := None;
     read_err := "EOF" |}.

Definition fixedWorld (response : string) : World :=
  {| endpoints := fun _ _ => Accept (fixedSession response); dials := 0 |}.

(** A daemon that answers each command of a script with the bytes the
    script gives, and any other command with a parse error. *)
Fixpoint answer (script : list (string * string)) (written : string) : string :=
  match script with
  | [] => "9001 syntax error" +:+ LF
  | (command, response) :: script' =>
      if String.eqb written (command +:+ CRLF) then response
      else answer script' written
  end.

Definition scriptedWorld (script : list (string * string)) : World :=
  {| endpoints := fun _ _ =>
       Accept {| banner := "0001 BIRD 2.0.8 ready." +:+ LF;
                 reply := answer script;
                 write_err := None;
                 read_err := "EOF" |};
     dials := 0 |}.

(** ** The regular expressions of the decoders

    Go's [regexp] finds the leftmost match and, among the matches starting
    there, the one a backtracking matcher with greedy operators finds first.
    The patterns of this package use byte classes of ASCII only, so matching
    byte by byte is matching rune by rune. *)

Module regexp.

Inductive re : Type :=
| Eps                           (* the empty pattern *)
| Byte (p : ascii -> bool)      (* one byte of a class *)
| Cat (r1 r2 : re)              (* [r1 r2] *)
| Plus (p : ascii -> bool)      (* [c+] on a class, greedy *)
| Opt (r : re)                  (* [r?], greedy *)
| Group (r : re).               (* [(r)] *)

(** The text [s] lost to become [rest]. *)
Definition consumed (s rest : string) : string :=
  strings.upto (strings.len s - strings.len rest) s.

(** Backtracking match of [r] at the head of [s]; [k] is what remains to
    be matched, [caps] the groups closed so far. *)
Fixpoint run {A : Type} (r : re) (s : string) (caps : list string)
    (k : string -> list string -> option A) : option A :=
  match r with
  | Eps => k s caps
  | Byte p =>
      match s with
      | String c s' => if p c then k s' caps else None
      | EmptyString => None
      end
  | Cat r1 r2 => run r1 s caps (fun s1 caps1 => run r2 s1 caps1 k)
  | Plus p =>
      (fix many (s : string) : option A :=
         match s with
         | String c s' =>
             if p c then
               match many s' with
               | Some x => Some x
               | None => k s' caps
               end
             else None
         | EmptyString => None
         end) s
  | Opt r1 =>
      match run r1 s caps k with
      | Some x => Some x
      | None => k s caps
      end
  | Group r1 => run r1 s caps (fun s1 caps1 => k s1 (caps1 ++ [consumed s s1]))
  end.

(** [re.FindStringSubmatch(s)]: the match and its groups, [[]] for Go's
    [nil] when nothing matches. *)
Fixpoint FindStringSubmatch (r : re) (s : string) : list string :=
  match run r s [] (fun rest caps => Some (consumed s rest :: caps)) with
  | Some m => m
  | None =>
      match s with
      | EmptyString => []
      | String _ s' => FindStringSubmatch r s'
      end
  end.

(** [re.FindString(s)] *)
Definition FindString (r : re) (s : string) : string :=
  match FindStringSubmatch r s with
  | m :: _ => m
  | [] => EmptyString
  end.

(** A literal text. *)
Fixpoint lit (s : string) : re :=
  match s with
  | EmptyString => Eps
  | String c s' => Cat (Byte (Ascii.eqb c)) (lit s')
  end.

Fixpoint seq (rs : list re) : re :=
  match rs with
  | [] => Eps
  | r :: rs' => Cat r (seq rs')
  end.

(** [\d] *)
Definition d : ascii -> bool := isDigit.

(** [\s], which is [[\t\n\f\r ]] *)
Definition s (c : ascii) : bool :=
  match c with
  | "009" | "010" | "012" | "013" | " " => true
  | _ => false
  end%char.

End regexp.

(** [matches[i]] *)
Definition index (l : list string) (i : nat) : string := nth i l EmptyString.

(** ** The result types (part_000) *)

Record Totals : Type := { V4Rib : Z; V4Fib : Z; V6Rib : Z; V6Fib : Z }.

Record ASNs : Type := {
  As4 : Z; As6 : Z; As10 : Z;
  As4Only : Z; As6Only : Z;
  AsBoth : Z
}.

Record Roas : Type := {
  V4v : Z; V4i : Z; V4u : Z;
  V6v : Z; V6i : Z; V6u : Z
}.

Record ASPath : Type := { Path : list Z; Set_ : list Z }.

(** ** The decoders (part_001, part_002) *)

Record BirdClient : Type := { SocketPath : string }.

(** [b.query(command)] *)
Definition query (b : BirdClient) (command : string) (w : World)
  : (string * option error) * World :=
  querySocket (SocketPath b) command w.

(** [(\d+)\s+of\s+\d+\s+routes\s+for\s+(\d+)\s+networks] *)
Definition totalsRe : regexp.re :=
  regexp.seq
    [regexp.Group (regexp.Plus regexp.d); regexp.Plus regexp.s;
     regexp.lit "of"; regexp.Plus regexp.s; regexp.Plus regexp.d;
     regexp.Plus regexp.s; regexp.lit "routes"; regexp.Plus regexp.s;
     regexp.lit "for"; regexp.Plus regexp.s;
     regexp.Group (regexp.Plus regexp.d); regexp.Plus regexp.s;
     regexp.lit "networks"].

(** The body of the loop over the lines of [GetBGPTotal]. *)
Definition totalsLine (t : Totals) (line : string) : Totals :=
  let matches := regexp.FindStringSubmatch totalsRe line in
  if (3 <=? length matches)%nat then
    if strings.Contains line "master4" then
      {| V4Rib := stringToUint32 (index matches 1);
         V4Fib := stringToUint32 (index matches 2);
         V6Rib := V6Rib t; V6Fib := V6Fib t |}
    else if strings.Contains line "master6" then
      {| V4Rib := V4Rib t; V4Fib := V4Fib t;
         V6Rib := stringToUint32 (index matches 1);
         V6Fib := stringToUint32 (index matches 2) |}
    else t
  else t.

(** [GetBGPTotal] (part_002, l. 44) *)
Definition GetBGPTotal (b : BirdClient) (w : World)
  : (Totals * option error) * World :=
  let t := {| V4Rib := 0; V4Fib := 0; V6Rib := 0; V6Fib := 0 |} in
  let '((out, err), w) := query b "show route count" w in
  match err with
  | Some e => ((t, Some e), w)
  | None =>
      let lines := strings.Split out nl in
      ((fold_left totalsLine lines t, None), w)
  end.

(** [map[string]bool]: [m[k] = true], and [m[k]] with Go's zero value for
    a missing key. *)
Definition setTrue (m : gmap string bool) (k : string) : gmap string bool :=
  <[k := true]> m.

Definition lookupBool (m : gmap string bool) (k : string) : bool :=
  default false (m !! k).

(** [for k := range m { keys = append(keys, k) }].  Go leaves the order of
    the iteration open; the keys come here in the order of the map's
    representation, and nothing below depends on it. *)
Definition rangeKeys (m : gmap string bool) : list string :=
  (map_to_list m).*1.

(** [\[AS(\d+)[ie]?\]] *)
Definition sourceASNRe : regexp.re :=
  regexp.seq
    [regexp.lit "[AS"; regexp.Group (regexp.Plus regexp.d);
     regexp.Opt (regexp.Byte (fun c => Ascii.eqb c "i" || Ascii.eqb c "e"));
     regexp.lit "]"].

(** [extractSourceASNs] (part_002, l. 178) *)
Definition extractSourceASNs (output : string) : list string :=
  let lines := strings.Split output nl in
  let asnMap :=
    fold_left
      (fun (asnMap : gmap string bool) line =>
         let matches := regexp.FindStringSubmatch sourceASNRe line in
         if (2 <=? length matches)%nat then setTrue asnMap (index matches 1)
         else asnMap)
      lines (∅ : gmap string bool) in
  rangeKeys asnMap.

(** [stringSliceToSet] (part_002, l. 636) *)
Definition stringSliceToSet (slice : list string) : list string :=
  rangeKeys (fold_left setTrue slice (∅ : gmap string bool)).

(** [stringSliceDifference] (part_002, l. 650) *)
Definition stringSliceDifference (first second : list string) : list string :=
  let secondSet := fold_left setTrue second (∅ : gmap string bool) in
  List.filter (fun s => negb (lookupBool secondSet s)) first.

(** [stringSliceIntersection] (part_002, l. 666) *)
Definition stringSliceIntersection (first second : list string) : list string :=
  let secondSet := fold_left setTrue second (∅ : gmap string bool) in
  List.filter (fun s => lookupBool secondSet s) first.

(** [uint32(len(slice))] *)
Definition len32 {A : Type} (slice : list A) : Z := uint32 (Z.of_nat (length slice)).

(** The statistics [GetTotalSourceASNs] computes from the two listings. *)
Definition sourceASNStats (out4 out6 : string) : ASNs :=
  let as4Set := extractSourceASNs out4 in
  let as6Set := extractSourceASNs out6 in
  let as10 := as4Set ++ as6Set in
  let as10Set := stringSliceToSet as10 in
  let as4Only := stringSliceDifference as4Set as6Set in
  let as6Only := stringSliceDifference as6Set as4Set in
  let asBoth := stringSliceIntersection as4Set as6Set in
  {| As4 := len32 as4Set; As6 := len32 as6Set; As10 := len32 as10Set;
     As4Only := len32 as4Only; As6Only := len32 as6Only;
     AsBoth := len32 asBoth |}.

(** [GetTotalSourceASNs] (part_002, l. 137) *)
Definition GetTotalSourceASNs (b : BirdClient) (w : World)
  : (ASNs * option error) * World :=
  let s := {| As4 := 0; As6 := 0; As10 := 0;
              As4Only := 0; As6Only := 0; AsBoth := 0 |} in
  let '((out4, err), w) := query b "show route primary table master4" w in
  match err with
  | Some e => ((s, Some e), w)
  | None =>
      let '((out6, err), w) := query b "show route primary table master6" w in
      match err with
      | Some e => ((s, Some e), w)
      | None => ((sourceASNStats out4 out6, None), w)
      end
  end.

(** [extractRouteCount] (part_002, l. 246) *)
Definition extractRouteCount (output : string) : Z :=
  let fields := strings.Fields output in
  match fields with
  | f :: _ => stringToUint32 f
  | [] => 0
  end.

(** [GetROAs] (part_002, l. 201) *)
Definition GetROAs (b : BirdClient) (w : World) : (Roas * option error) * World :=
  let r := {| V4v := 0; V4i := 0; V4u := 0; V6v := 0; V6i := 0; V6u := 0 |} in
  let '((v4Valid, err), w) := 
    query b "show route primary table master4 where roa_check(roa_v4) = ROA_VALID count" w in
  match err with Some e => ((r, Some e), w) | None =>
  let r := {| V4v := extractRouteCount v4Valid; V4i := V4i r; V4u := V4u r;
              V6v := V6v r; V6i := V6i r; V6u := V6u r |} in
  let '((v4Invalid, err), w) := 
    query b "show route primary table master4 where roa_check(roa_v4) = ROA_INVALID count" w in
  match err with Some e => ((r, Some e), w) | None =>
  let r := {| V4v := V4v r; V4i := extractRouteCount v4Invalid; V4u := V4u r;
              V6v := V6v r; V6i := V6i r; V6u := V6u r |} in
  let '((v4Unknown, err), w) := 
    query b "show route primary table master4 where roa_check(roa_v4) = ROA_UNKNOWN count" w in
  match err with Some e => ((r, Some e), w) | None =>
  let r := {| V4v := V4v r; V4i := V4i r; V4u := extractRouteCount v4Unknown;
              V6v := V6v r; V6i := V6i r; V6u := V6u r |} in
  let '((v6Valid, err), w) := 
    query b "show route primary table master6 where roa_check(roa_v6) = ROA_VALID count" w in
  match err with Some e => ((r, Some e), w) | None =>
  let r := {| V4v := V4v r; V4i := V4i r; V4u := V4u r;
              V6v := extractRouteCount v6Valid; V6i := V6i r; V6u := V6u r |} in
  let '((v6Invalid, err), w) := 
    query b "show route primary table master6 where roa_check(roa_v6) = ROA_INVALID count" w in
  match err with Some e => ((r, Some e), w) | None =>
  let r := {| V4v := V4v r; V4i := V4i r; V4u := V4u r;
              V6v := V6v r; V6i := extractRouteCount v6Invalid; V6u := V6u r |} in
  let '((v6Unknown, err), w) := 
    query b "show route primary table master6 where roa_check(roa_v6) = ROA_UNKNOWN count" w in
  match err with Some e => ((r, Some e), w) | None =>
  let r := {| V4v := V4v r; V4i := V4i r; V4u := V4u r;
              V6v := V6v r; V6i := V6i r; V6u := extractRouteCount v6Unknown |} in
  ((r, None), w)
  end end end end end end.

(** [[\d]+] *)
Definition numRe : regexp.re := regexp.Plus regexp.d.

(** [parseInvalidLine] (part_002, l. 290) *)
Definition parseInvalidLine (line : string) (numRe : regexp.re) : string * string :=
  let fields := strings.Fields line in
  if (length fields <? 2)%nat then (EmptyString, EmptyString)
  else
    let prefix := index fields 0 in
    match strings.Index line "[" with
    | None => (EmptyString, EmptyString)
    | Some idx =>
        let asnMatch := regexp.FindString numRe (strings.from idx line) in
        (prefix, asnMatch)
    end.

(** The body of the two loops of [GetInvalids]:
    [inv[asn] = append(inv[asn], prefix)] when [asn != ""]. *)
Definition invalidsLine (inv : gmap string (list string)) (line : string)
  : gmap string (list string) :=
  let '(prefix, asn) := parseInvalidLine line numRe in
  match asn with
  | EmptyString => inv
  | _ => <[asn := default [] (inv !! asn) ++ [prefix]]> inv
  end.

(** [GetInvalids] (part_002, l. 256) *)
Definition GetInvalids (b : BirdClient) (w : World)
  : (gmap string (list string) * option error) * World :=
  let inv : gmap string (list string) := ∅ in
  let '((out4, err), w) :=
    query b "show route primary table master4 where roa_check(roa_v4) = ROA_INVALID" w in
  match err with
  | Some e => ((inv, Some e), w)
  | None =>
      let inv := fold_left invalidsLine (strings.Split out4 nl) inv in
      let '((out6, err), w) :=
        query b "show route primary table master6 where roa_check(roa_v6) = ROA_INVALID" w in
      match err with
      | Some e => ((inv, Some e), w)
      | None =>
          let inv := fold_left invalidsLine (strings.Split out6 nl) inv in
          ((inv, None), w)
      end
  end.

(** The loop of [decodeASPaths] over the tokens: [isSet] is raised by the
    first token that holds a brace, and such tokens are skipped. *)
Fixpoint splitASPath (paths : list string) (isSet : bool) (path set : list Z)
  : list Z * list Z :=
  match paths with
  | [] => (path, set)
  | as_ :: rest =>
      if strings.ContainsAny as_ "{}" then splitASPath rest true path set
      else if isSet then splitASPath rest isSet path (set ++ [stringToUint32 as_])
      else splitASPath rest isSet (path ++ [stringToUint32 as_]) set
  end.

(** [decodeASPaths] (part_001, l. 32) *)
Definition decodeASPaths (in_ : string) : list Z * list Z :=
  let in_ :=
    if strings.ContainsAny in_ "{}" then
      strings.Replace1 (strings.Replace1 in_ "{" "{ ") "}" " }"
    else in_ in
  let paths := strings.Fields in_ in
  splitASPath paths false [] [].

(** [strings.SplitN(line, sep, 2)] for a non-empty [sep]: the text before
    the first [sep] and the text after it, or the line alone. *)
Definition SplitN2 (line sep : string) : list string :=
  match strings.Index line sep with
  | Some i => [strings.upto i line; strings.from (i + strings.len sep) line]
  | None => [line]
  end.

(** The loop of [GetASPathFromIP] over the lines of the output. *)
Fixpoint findASPath (lines : list string) : ASPath * bool :=
  match lines with
  | [] => ({| Path := []; Set_ := [] |}, false)
  | line :: rest =>
      if strings.Contains line "BGP.as_path:" then
        match SplitN2 line "BGP.as_path:" with
        | [_; after] =>
            let '(path, set) := decodeASPaths (strings.TrimSpace after) in
            ({| Path := path; Set_ := set |}, true)
        | _ => findASPath rest
        end
      else findASPath rest
  end.

(** [GetASPathFromIP] (part_002, l. 433); [ip] is the text [ip.String()]
    gives. *)
Definition GetASPathFromIP (b : BirdClient) (ip : string) (w : World)
  : (ASPath * bool * option error) * World :=
  let aspath := {| Path := []; Set_ := [] |} in
  let cmd := "show route primary all for " +:+ ip in
  let '((out, err), w) := query b cmd w in
  match err with
  | Some e => ((aspath, false, Some e), w)
  | None =>
      if String.eqb out EmptyString || negb (strings.Contains out "BGP.as_path:")
      then ((aspath, false, None), w)
      else
        let '(aspath, found) := findASPath (strings.Split out nl) in
        ((aspath, found, None), w)
  end.

(** [fmt.Sprintf("%d", asn)] for a [uint32] *)
Definition decimal (asn : Z) : string := NilZero.string_of_uint (N.to_uint (Z.to_N asn)).

Section VRPs.

(** [*net.IPNet] and [net.ParseCIDR], of Go's library: [None] stands for a
    non-nil error. *)
Variable IPNet : Type.
Variable ParseCIDR : string -> option IPNet.

Record VRP : Type := { Prefix : IPNet; Max : Z }.

(** [parseVRPs] (part_002, l. 605): [vrps] is the slice built so far. *)
Fixpoint parseVRPsFrom (lines : list string) (vrps : list VRP)
  : list VRP * option error :=
  match lines with
  | [] => (vrps, None)
  | line :: rest =>
      let fields := strings.Fields line in
      if (0 <? length fields)%nat && strings.Contains (index fields 0) "-" then
        let parts := strings.Split (index fields 0) "-" in
        if (length parts =? 2)%nat then
          match ParseCIDR (index parts 0) with
          | None => ([], Some (ErrParseCIDR (index parts 0)))
          | Some prefix =>
              match strconv.Atoi (index parts 1) with
              | None => ([], Some (ErrAtoi (index parts 1)))
              | Some max =>
                  parseVRPsFrom rest (vrps ++ [{| Prefix := prefix; Max := max |}])
              end
          end
        else parseVRPsFrom rest vrps
      else parseVRPsFrom rest vrps
  end.

Definition parseVRPs (output : string) : list VRP * option error :=
  parseVRPsFrom (strings.Split output nl) [].

(** [GetVRPs] (part_002, l. 568) *)
Definition GetVRPs (b : BirdClient) (asn : Z) (w : World)
  : (list VRP * option error) * World :=
  let VRPs : list VRP := [] in
  let cmd4 := "show route all table roa_v4 where net.asn=" +:+ decimal asn in
  let '((out4, err), w) := query b cmd4 w in
  match err with
  | Some e => ((VRPs, Some e), w)
  | None =>
      let r4 :=
        if negb (String.eqb out4 EmptyString) then
          match parseVRPs out4 with
          | (_, Some e) => inr e
          | (vrps, None) => inl (VRPs ++ vrps)
          end
        else inl VRPs in
      match r4 with
      | inr e => (([], Some e), w)
      | inl VRPs =>
          let cmd6 := "show route all table roa_v6 where net.asn=" +:+ decimal asn in
          let '((out6, err), w) := query b cmd6 w in
          match err with
          | Some e => ((VRPs, Some e), w)
          | None =>
              if negb (String.eqb out6 EmptyString) then
                match parseVRPs out6 with
                | (_, Some e) => (([], Some e), w)
                | (vrps, None) => ((VRPs ++ vrps, None), w)
                end
              else ((VRPs, None), w)
          end
      end
  end.

End VRPs.

Arguments Prefix {IPNet} _.
Arguments Max {IPNet} _.

(** * Properties *)

(** ** Strings *)

Lemma app_cons (c : ascii) (s t : string) : String c s +:+ t = String c (s +:+ t).
Proof. reflexivity. Qed.

Lemma app_empty_l (s : string) : EmptyString +:+ s = s.
Proof. reflexivity. Qed.

Lemma app_empty_r (s : string) : s +:+ EmptyString = s.
Proof. induction s as [|c s IH]; [reflexivity|]. now rewrite app_cons, IH. Qed.

Lemma app_assoc_s (s t u : string) : (s +:+ t) +:+ u = s +:+ (t +:+ u).
Proof. induction s as [|c s IH]; [reflexivity|]. now rewrite !app_cons, IH. Qed.

Lemma len_app (s t : string) :
  strings.len (s +:+ t) = (strings.len s + strings.len t)%nat.
Proof.
  unfold strings.len. induction s as [|c s IH]; [reflexivity|].
  rewrite app_cons. simpl. now rewrite IH.
Qed.

Lemma HasPrefix_app (s prefix t : string) :
  strings.HasPrefix s prefix = true -> strings.HasPrefix (s +:+ t) prefix = true.
Proof.
  revert s. induction prefix as [|p prefix IH]; intros s H.
  - now destruct (s +:+ t).
  - destruct s as [|c s]; simpl in H; [discriminate H|].
    rewrite app_cons. simpl. apply andb_prop in H as [-> H].
    now rewrite (IH _ H).
Qed.

(** A text with no line feed in it: the content of one line. *)
Fixpoint oneLine (s : string) : bool :=
  match s with
  | EmptyString => true
  | String c s' => negb (Ascii.eqb c nl) && oneLine s'
  end.

Lemma TrimRight_LF (line : string) :
  oneLine line = true -> strings.TrimRight (line +:+ LF) LF = line.
Proof.
  induction line as [|c l IH]; intros H; [reflexivity|].
  simpl in H. apply andb_prop in H as [Hc Hl].
  rewrite app_cons. simpl. rewrite (IH Hl).
  destruct l as [|d l'].
  - unfold LF. simpl.
    destruct (Ascii.eqb c nl); [discriminate Hc|reflexivity].
  - reflexivity.
Qed.

Lemma ReadString_line (line rest : string) :
  oneLine line = true -> ReadString (line +:+ LF +:+ rest) = Some (line +:+ LF, rest).
Proof.
  induction line as [|c l IH]; intros H; [reflexivity|].
  simpl in H. apply andb_prop in H as [Hc Hl].
  rewrite !app_cons. simpl. rewrite (IH Hl).
  now destruct (Ascii.eqb c nl).
Qed.

Lemma readLines_line (cur line rest : string) :
  oneLine line = true ->
  readLines cur (line +:+ LF +:+ rest)
  = (cur +:+ line +:+ LF) :: readLines EmptyString rest.
Proof.
  revert cur. induction line as [|c l IH]; intros cur H; [reflexivity|].
  simpl in H. apply andb_prop in H as [Hc Hl].
  rewrite !app_cons. simpl.
  destruct (Ascii.eqb c nl); [discriminate Hc|].
  rewrite (IH _ Hl). now rewrite app_assoc_s, app_cons.
Qed.

(** The bytes of a list of lines on the wire. *)
Fixpoint wire (lines : list string) : string :=
  match lines with
  | [] => EmptyString
  | l :: ls => l +:+ LF +:+ wire ls
  end.

Lemma readLines_wire (lines : list string) (rest : string) :
  Forall (fun l => oneLine l = true) lines ->
  readLines EmptyString (wire lines +:+ rest)
  = map (fun l => l +:+ LF) lines ++ readLines EmptyString rest.
Proof.
  induction 1 as [|l ls Hl _ IH]; [reflexivity|].
  simpl. rewrite !app_assoc_s, (readLines_line _ _ _ Hl), IH. reflexivity.
Qed.

(** ** The classes of response lines *)

(** A coded line: its first four bytes are ASCII digits. *)
Definition coded (line : string) : bool :=
  (4 <=? strings.len line)%nat && isNumeric (strings.upto 4 line).

(** A line that ends the exchange: a coded line led by [0], [8] or [9]. *)
Definition final (line : string) : bool :=
  coded line && (byteIs line 0 "0" || byteIs line 0 "8" || byteIs line 0 "9").

Lemma byteIs_upto4 (line : string) (c : ascii) :
  byteIs (strings.upto 4 line) 0 c = byteIs line 0 c.
Proof. now destruct line. Qed.

Lemma coded_no_space (line : string) :
  coded line = true -> byteIs line 0 " " = false.
Proof.
  unfold coded. destruct line as [|c l]; [discriminate|].
  intros H. apply andb_prop in H as [_ H]. simpl in H.
  unfold byteIs. simpl.
  destruct (Ascii.eqb_spec c " ") as [->|]; [discriminate H|reflexivity].
Qed.

Lemma lineStep_error (line output : string) :
  oneLine line = true -> coded line = true ->
  byteIs line 0 "8" || byteIs line 0 "9" = true ->
  lineStep (line +:+ LF) output = Return (ErrBird line).
Proof.
  intros Hl Hc H89. unfold lineStep. rewrite (TrimRight_LF _ Hl).
  rewrite (coded_no_space _ Hc), andb_false_r.
  unfold coded in Hc. apply andb_prop in Hc as [-> ->].
  rewrite !byteIs_upto4, H89.
  destruct line as [|c l]; [discriminate|].
  unfold byteIs in *. simpl in *.
  destruct (Ascii.eqb_spec c "0") as [->|]; [discriminate H89|reflexivity].
Qed.

Lemma lineStep_not_final (line output : string) :
  oneLine line = true -> final line = false ->
  exists output', lineStep (line +:+ LF) output = Next output'.
Proof.
  intros Hl Hf. unfold lineStep. rewrite (TrimRight_LF _ Hl).
  destruct ((0 <? strings.len line)%nat && byteIs line 0 " "); [eauto|].
  unfold final, coded in Hf.
  destruct (4 <=? strings.len line)%nat; [|destruct (0 <? _)%nat; eauto].
  destruct (isNumeric (strings.upto 4 line)); [|eauto].
  simpl in Hf. rewrite !byteIs_upto4.
  apply orb_false_elim in Hf as [Hf H9]. apply orb_false_elim in Hf as [H0 H8].
  rewrite H0, H8, H9. simpl.
  repeat match goal with |- context [if ?b then _ else _] => destruct b end; eauto.
Qed.

Lemma readResponse_skip (cause : string) (pre : list string) :
  Forall (fun l => oneLine l = true /\ final l = false) pre ->
  forall rest output, exists output',
    readResponse cause (map (fun l => l +:+ LF) pre ++ rest) output
    = readResponse cause rest output'.
Proof.
  induction 1 as [|l ls [Hl Hf] _ IH]; intros rest output; [now exists output|].
  simpl. destruct (lineStep_not_final l output Hl Hf) as [o' ->]. apply IH.
Qed.

(** [querySocket] once the handshake has gone through: the greeting is the
    only line of the banner and the write succeeds. *)
Lemma querySocket_handshake (socketPath command : string) (w : World)
    (conn : Session) (greeting : string) :
  endpoints w socketPath (dials w) = Accept conn ->
  banner conn = greeting +:+ LF ->
  oneLine greeting = true ->
  strings.HasPrefix greeting "0001" = true ->
  write_err conn = None ->
  fst (querySocket socketPath command w)
  = readResponse (read_err conn)
      (readLines EmptyString (reply conn (command +:+ CRLF))) EmptyString.
Proof.
  intros He Hb Hg Hp Hw. unfold querySocket. rewrite He, Hb.
  rewrite <- (app_empty_r (greeting +:+ LF)), app_assoc_s.
  rewrite (ReadString_line _ _ Hg).
  rewrite (HasPrefix_app _ _ LF Hp), Hw. reflexivity.
Qed.

(** ** C1: a response that is the single line [0000 ok] *)

(** C1, as the specification states it, fails: on a session whose handshake
    succeeds and whose whole response is the line [0000 ok], [querySocket]
    returns the payload [ok], not the empty payload. *)
Lemma C1_ok_payload_not_empty :
  fst (querySocket "/run/bird.ctl" "show status" (fixedWorld ("0000 ok" +:+ LF)))
  = ("ok", None)
  /\ fst (fst (querySocket "/run/bird.ctl" "show status"
                 (fixedWorld ("0000 ok" +:+ LF)))) <> EmptyString.
Proof. split; [reflexivity|discriminate]. Qed.

(** C1 (amended): when the handshake succeeds and the first line of the
    response is [0000 ok], [querySocket] stops reading there, whatever bytes
    [more] follow, and returns the payload [ok] with no error; the payload
    is empty when the final line carries no text ([0000] followed by a
    space). *)
Theorem C1_ok_terminates (socketPath command : string) (w : World)
    (conn : Session) (greeting more : string) :
  endpoints w socketPath (dials w) = Accept conn ->
  banner conn = greeting +:+ LF ->
  oneLine greeting = true ->
  strings.HasPrefix greeting "0001" = true ->
  write_err conn = None ->
  (reply conn (command +:+ CRLF) = "0000 ok" +:+ LF +:+ more ->
   fst (querySocket socketPath command w) = ("ok", None))
  /\ (reply conn (command +:+ CRLF) = "0000 " +:+ LF +:+ more ->
      fst (querySocket socketPath command w) = (EmptyString, None)).
Proof.
  intros He Hb Hg Hp Hw.
  split; intros Hr;
    rewrite (querySocket_handshake _ _ _ _ _ He Hb Hg Hp Hw), Hr;
    rewrite readLines_line by reflexivity; reflexivity.
Qed.

Lemma C1_ok_terminates_witness :
  fst (querySocket "/run/bird.ctl" "show status"
         (fixedWorld ("0000 ok" +:+ LF +:+ "1000-late" +:+ LF)))
  = ("ok", None).
Proof.
  refine (proj1 (C1_ok_terminates "/run/bird.ctl" "show status"
                   (fixedWorld ("0000 ok" +:+ LF +:+ "1000-late" +:+ LF))
                   (fixedSession ("0000 ok" +:+ LF +:+ "1000-late" +:+ LF))
                   "0001 BIRD 2.0.8 ready." ("1000-late" +:+ LF)
                   _ _ _ _ _) _); reflexivity.
Defined.

(** ** C2: error lines *)

(** C2: when the handshake succeeds and the response holds, after lines
    [pre] that do not end the exchange, a line whose first four bytes are
    digits with [8] or [9] in front, [querySocket] returns the empty payload
    and the daemon error built from that line; the message is the line
    behind the fixed text [BIRD error: ].  What [pre] had put in the buffer
    is lost and the bytes [post] after the line are not looked at. *)
Theorem C2_daemon_error (socketPath command : string) (w : World)
    (conn : Session) (greeting : string) (pre : list string) (line post : string) :
  endpoints w socketPath (dials w) = Accept conn ->
  banner conn = greeting +:+ LF ->
  oneLine greeting = true ->
  strings.HasPrefix greeting "0001" = true ->
  write_err conn = None ->
  reply conn (command +:+ CRLF) = wire pre +:+ line +:+ LF +:+ post ->
  Forall (fun l => oneLine l = true /\ final l = false) pre ->
  oneLine line = true ->
  coded line = true ->
  byteIs line 0 "8" || byteIs line 0 "9" = true ->
  fst (querySocket socketPath command w) = (EmptyString, Some (ErrBird line))
  /\ Error (ErrBird line) = Some ("BIRD error: " +:+ line).
Proof.
  intros He Hb Hg Hp Hw Hr Hpre Hl Hc H89. split; [|reflexivity].
  rewrite (querySocket_handshake _ _ _ _ _ He Hb Hg Hp Hw), Hr.
  rewrite readLines_wire
    by (eapply Forall_impl; [exact Hpre|]; simpl; intros ? [? _]; assumption).
  rewrite (readLines_line _ _ _ Hl).
  destruct (readResponse_skip (read_err conn) pre Hpre
              ((EmptyString +:+ line +:+ LF) :: readLines EmptyString post)
              EmptyString) as [o' ->].
  simpl. rewrite app_empty_l, (lineStep_error _ _ Hl Hc H89). reflexivity.
Qed.

Lemma C2_daemon_error_witness :
  fst (querySocket "/run/bird.ctl" "show route"
         (fixedWorld (wire ["1007-10.0.0.0/8 unicast"; " via 192.0.2.1"]
                      +:+ "8001 Route not found" +:+ LF +:+ "0000 " +:+ LF)))
  = (EmptyString, Some (ErrBird "8001 Route not found"))
  /\ Error (ErrBird "8001 Route not found")
     = Some ("BIRD error: " +:+ "8001 Route not found").
Proof.
  refine (C2_daemon_error "/run/bird.ctl" "show route"
            (fixedWorld (wire ["1007-10.0.0.0/8 unicast"; " via 192.0.2.1"]
                         +:+ "8001 Route not found" +:+ LF +:+ "0000 " +:+ LF))
            (fixedSession (wire ["1007-10.0.0.0/8 unicast"; " via 192.0.2.1"]
                           +:+ "8001 Route not found" +:+ LF +:+ "0000 " +:+ LF))
            "0001 BIRD 2.0.8 ready."
            ["1007-10.0.0.0/8 unicast"; " via 192.0.2.1"]
            "8001 Route not found" ("0000 " +:+ LF)
            _ _ _ _ _ _ _ _ _ _); try reflexivity.
  repeat constructor.
Defined.

(** ** C3: uncoded lines *)

(** C3, as the specification states it, fails on the empty line: it is
    uncoded and has no leading space, yet the loop writes nothing for it.
    A response with an empty line between [a] and [b] yields the two lines
    with no empty line between them. *)
Lemma C3_empty_line_dropped :
  coded EmptyString = false
  /\ byteIs EmptyString 0 " " = false
  /\ lineStep (EmptyString +:+ LF) "a" = Next "a"
  /\ lineStep (EmptyString +:+ LF) "a" <> Next ("a" +:+ EmptyString +:+ LF)
  /\ fst (querySocket "/run/bird.ctl" "show status"
            (fixedWorld (wire ["a"; EmptyString; "b"; "0000 "])))
     = ("a" +:+ LF +:+ "b", None).
Proof. repeat split; try reflexivity. discriminate. Qed.

(** C3 (amended): every uncoded line without a leading space that is not
    empty is appended as it is to the payload, followed by a line feed, and
    reading goes on with the lines that follow; an empty line leaves the
    payload as it was, and reading goes on too. *)
Theorem C3_uncoded_appended (line output : string) :
  oneLine line = true ->
  coded line = false ->
  byteIs line 0 " " = false ->
  line <> EmptyString ->
  lineStep (line +:+ LF) output = Next (output +:+ line +:+ LF)
  /\ (forall cause rest,
        readResponse cause ((line +:+ LF) :: rest) output
        = readResponse cause rest (output +:+ line +:+ LF))
  /\ (forall cause rest,
        readResponse cause (LF :: rest) output = readResponse cause rest output).
Proof.
  intros Hl Hc Hs Hne.
  assert (Hstep : lineStep (line +:+ LF) output = Next (output +:+ line +:+ LF)).
  { unfold lineStep. rewrite (TrimRight_LF _ Hl), Hs, andb_false_r.
    unfold coded in Hc.
    destruct (4 <=? strings.len line)%nat.
    - rewrite andb_true_l in Hc. now rewrite Hc.
    - destruct line; [contradiction|reflexivity]. }
  split; [exact Hstep|]. split; intros cause rest.
  - simpl. now rewrite Hstep.
  - reflexivity.
Qed.

Lemma C3_uncoded_appended_witness :
  lineStep ("8.8.8.0/24 unicast" +:+ LF) "BIRD" = Next ("BIRD" +:+ "8.8.8.0/24 unicast" +:+ LF).
Proof.
  refine (proj1 (C3_uncoded_appended "8.8.8.0/24 unicast" "BIRD" _ _ _ _));
    [reflexivity|reflexivity|reflexivity|discriminate].
Defined.

(** ** C4: the counts of source ASNs *)

Section SliceSets.

Implicit Types (first second slice : list string) (m : gmap string bool).

Lemma filter_length_split {A : Type} (f : A -> bool) (l : list A) :
  (length (List.filter f l) + length (List.filter (fun x => negb (f x)) l)
   = length l)%nat.
Proof.
  induction l as [|x l IH]; [reflexivity|].
  simpl. destruct (f x); simpl; lia.
Qed.

Lemma elem_of_List_filter {A : Type} (f : A -> bool) (l : list A) (x : A) :
  x ∈ List.filter f l <-> x ∈ l /\ f x = true.
Proof. rewrite !list_elem_of_In. apply filter_In. Qed.

Lemma NoDup_List_filter {A : Type} (f : A -> bool) (l : list A) :
  NoDup l -> NoDup (List.filter f l).
Proof. rewrite !NoDup_ListNoDup. apply List.NoDup_filter. Qed.

Lemma lookup_fold_setTrue slice m (k : string) :
  fold_left setTrue slice m !! k
  = if decide (k ∈ slice) then Some true else m !! k.
Proof.
  revert m. induction slice as [|x l IH]; intros m; simpl.
  - destruct (decide (k ∈ [])) as [H|_]; [|reflexivity]. inversion H.
  - rewrite IH. unfold setTrue.
    destruct (decide (k ∈ l)) as [Hl|Hl].
    + rewrite decide_True by (now right). reflexivity.
    + destruct (decide (x = k)) as [->|Hne].
      * rewrite lookup_insert_eq, decide_True by (now left). reflexivity.
      * rewrite lookup_insert_ne by assumption.
        rewrite decide_False; [reflexivity|].
        intros H. apply elem_of_cons in H as [->|H]; [now apply Hne|now apply Hl].
Qed.

Lemma lookupBool_fold_setTrue slice (k : string) :
  lookupBool (fold_left setTrue slice ∅) k = bool_decide (k ∈ slice).
Proof.
  unfold lookupBool. rewrite lookup_fold_setTrue.
  destruct (decide (k ∈ slice)) as [H|H].
  - now rewrite bool_decide_eq_true_2.
  - now rewrite lookup_empty, bool_decide_eq_false_2.
Qed.

Lemma NoDup_rangeKeys m : NoDup (rangeKeys m).
Proof. apply NoDup_fst_map_to_list. Qed.

Lemma elem_of_rangeKeys m (k : string) : k ∈ rangeKeys m <-> is_Some (m !! k).
Proof.
  unfold rangeKeys. rewrite list_elem_of_fmap. split.
  - intros [[k' v] [-> H]]. apply elem_of_map_to_list in H. simpl. eauto.
  - intros [v H]. exists (k, v). split; [reflexivity|].
    now apply elem_of_map_to_list.
Qed.

Lemma elem_of_stringSliceToSet slice (k : string) :
  k ∈ stringSliceToSet slice <-> k ∈ slice.
Proof.
  unfold stringSliceToSet. rewrite elem_of_rangeKeys, lookup_fold_setTrue.
  destruct (decide (k ∈ slice)) as [H|H]; split; intros H'; eauto.
  - rewrite lookup_empty in H'. now destruct H'.
  - contradiction.
Qed.

Lemma elem_of_difference first second (k : string) :
  k ∈ stringSliceDifference first second <-> k ∈ first /\ k ∉ second.
Proof.
  unfold stringSliceDifference. rewrite elem_of_List_filter.
  rewrite lookupBool_fold_setTrue, negb_true_iff, bool_decide_eq_false.
  reflexivity.
Qed.

(** Every element of [first] is in the difference or in the
    intersection, and in one of them only. *)
Lemma difference_intersection_length first second :
  (length (stringSliceDifference first second)
   + length (stringSliceIntersection first second) = length first)%nat.
Proof.
  unfold stringSliceDifference, stringSliceIntersection.
  rewrite Nat.add_comm. apply filter_length_split.
Qed.

Lemma elem_of_intersection first second (k : string) :
  k ∈ stringSliceIntersection first second <-> k ∈ first /\ k ∈ second.
Proof.
  unfold stringSliceIntersection. rewrite elem_of_List_filter.
  rewrite lookupBool_fold_setTrue, bool_decide_eq_true. reflexivity.
Qed.

(** Without repetitions, the intersection has the same size from either
    side. *)
Lemma intersection_length_comm first second :
  NoDup first -> NoDup second ->
  length (stringSliceIntersection first second)
  = length (stringSliceIntersection second first).
Proof.
  intros H1 H2. apply Permutation_length, NoDup_Permutation.
  - now apply NoDup_List_filter.
  - now apply NoDup_List_filter.
  - intros x. rewrite !elem_of_intersection. tauto.
Qed.

(** The union of two slices without repetition counts the elements of the
    first and those of the second that the first lacks. *)
Lemma union_length first second :
  NoDup first -> NoDup second ->
  length (stringSliceToSet (first ++ second))
  = (length first + length (stringSliceDifference second first))%nat.
Proof.
  intros H1 H2. rewrite <- length_app. apply Permutation_length.
  apply NoDup_Permutation.
  - apply NoDup_rangeKeys.
  - apply NoDup_app. split; [assumption|]. split.
    + intros x Hx Hd. apply elem_of_difference in Hd. tauto.
    + now apply NoDup_List_filter.
  - intros x. rewrite elem_of_stringSliceToSet, !elem_of_app, elem_of_difference.
    destruct (decide (x ∈ first)); tauto.
Qed.

End SliceSets.

Lemma NoDup_extractSourceASNs (output : string) : NoDup (extractSourceASNs output).
Proof. apply NoDup_rangeKeys. Qed.

Lemma add32_len32 {A B : Type} (l : list A) (k : list B) :
  add32 (len32 l) (len32 k) = uint32 (Z.of_nat (length l + length k)).
Proof.
  unfold add32, len32, uint32. rewrite <- Zplus_mod. f_equal. lia.
Qed.

Lemma sourceASNStats_lengths (out4 out6 : string) :
  let as4Set := extractSourceASNs out4 in
  let as6Set := extractSourceASNs out6 in
  (length (stringSliceDifference as4Set as6Set)
   + length (stringSliceIntersection as4Set as6Set) = length as4Set
   /\ length (stringSliceDifference as6Set as4Set)
      + length (stringSliceIntersection as4Set as6Set) = length as6Set
   /\ length (stringSliceToSet (as4Set ++ as6Set))
      = length (stringSliceDifference as4Set as6Set)
        + length (stringSliceDifference as6Set as4Set)
        + length (stringSliceIntersection as4Set as6Set))%nat.
Proof.
  intros as4Set as6Set.
  pose proof (difference_intersection_length as4Set as6Set) as H4.
  pose proof (difference_intersection_length as6Set as4Set) as H6.
  pose proof (union_length _ _ (NoDup_extractSourceASNs out4)
                (NoDup_extractSourceASNs out6)) as H10.
  pose proof (intersection_length_comm _ _ (NoDup_extractSourceASNs out4)
                (NoDup_extractSourceASNs out6)) as Hc.
  fold as4Set as6Set in H10, Hc. lia.
Qed.

Lemma sourceASNStats_sums (out4 out6 : string) :
  let s := sourceASNStats out4 out6 in
  add32 (As4Only s) (AsBoth s) = As4 s
  /\ add32 (As6Only s) (AsBoth s) = As6 s
  /\ As10 s = add32 (add32 (As4Only s) (As6Only s)) (AsBoth s).
Proof.
  destruct (sourceASNStats_lengths out4 out6) as (H4 & H6 & H10). simpl.
  split; [|split].
  - now rewrite add32_len32, H4.
  - now rewrite add32_len32, H6.
  - rewrite add32_len32. unfold len32. rewrite H10, !Nat2Z.inj_add.
    unfold add32, uint32. rewrite Zplus_mod_idemp_r, Zplus_mod_idemp_l.
    reflexivity.
Qed.

(** The sums without wrap-around, when the two families together list fewer
    than [2^32] source ASNs. *)
Lemma sourceASNStats_exact (out4 out6 : string) :
  Z.of_nat (length (extractSourceASNs out4))
  + Z.of_nat (length (extractSourceASNs out6)) < 4294967296 ->
  let s := sourceASNStats out4 out6 in
  As4Only s + AsBoth s = As4 s
  /\ As6Only s + AsBoth s = As6 s
  /\ As10 s = As4Only s + As6Only s + AsBoth s.
Proof.
  intros Hb. destruct (sourceASNStats_lengths out4 out6) as (H4 & H6 & H10).
  simpl. unfold len32, uint32.
  rewrite !Z.mod_small by lia. lia.
Qed.

(** C4: whatever the daemon answers to the two listings, the counts
    [GetTotalSourceASNs] returns satisfy, in the arithmetic of [uint32],
    [As4Only + AsBoth = As4], [As6Only + AsBoth = As6] and
    [As10 = As4Only + As6Only + AsBoth]; and when the two queries return
    the outputs [out4] and [out6] listing fewer than [2^32] source ASNs
    together, the three sums hold as sums of integers, with no wrap-around. *)
Theorem C4_asn_counts (b : BirdClient) (w : World) :
  let s := fst (fst (GetTotalSourceASNs b w)) in
  (add32 (As4Only s) (AsBoth s) = As4 s
   /\ add32 (As6Only s) (AsBoth s) = As6 s
   /\ As10 s = add32 (add32 (As4Only s) (As6Only s)) (AsBoth s))
  /\ (forall out4 out6 w1 w2,
        query b "show route primary table master4" w = ((out4, None), w1) ->
        query b "show route primary table master6" w1 = ((out6, None), w2) ->
        Z.of_nat (length (extractSourceASNs out4))
        + Z.of_nat (length (extractSourceASNs out6)) < 4294967296 ->
        As4Only s + AsBoth s = As4 s
        /\ As6Only s + AsBoth s = As6 s
        /\ As10 s = As4Only s + As6Only s + AsBoth s).
Proof.
  unfold GetTotalSourceASNs.
  destruct (query b "show route primary table master4" w)
    as [[out4 [e|]] w1] eqn:E4.
  { simpl. split; [repeat split|discriminate]. }
  destruct (query b "show route primary table master6" w1)
    as [[out6 [e|]] w2] eqn:E6.
  - simpl. split; [repeat split|].
    intros o4 o6 w1' w2' [= <- <-] H6. rewrite E6 in H6. discriminate H6.
  - cbv zeta. cbn [fst snd]. split; [apply sourceASNStats_sums|].
    intros o4 o6 w1' w2' [= <- <-] H6. rewrite E6 in H6.
    injection H6 as <- _. apply sourceASNStats_exact.
Qed.

Definition listings : list (string * string) :=
  [("show route primary table master4",
    wire ["1007-1.0.0.0/24 unicast [bgp1 10:00:00] * (100) [AS13335i]";
          " 1.0.4.0/22 unicast [bgp1 10:00:00] * (100) [AS38803i]";
          " 8.8.8.0/24 unicast [bgp1 10:00:00] * (100) [AS15169i]";
          " 8.8.4.0/24 unicast [bgp1 10:00:00] * (100) [AS15169i]";
          "0000 "]);
   ("show route primary table master6",
    wire ["1007-2001:4860::/32 unicast [bgp2 10:00:00] * (100) [AS15169i]";
          " 2400:cb00::/32 unicast [bgp2 10:00:00] * (100) [AS13335i]";
          " 2001:db8::/32 unicast [bgp2 10:00:00] * (100) [AS64496e]";
          "0000 "])].

Lemma C4_asn_counts_witness :
  fst (GetTotalSourceASNs {| SocketPath := "/run/bird.ctl" |} (scriptedWorld listings))
  = ({| As4 := 3; As6 := 3; As10 := 4; As4Only := 1; As6Only := 1; AsBoth := 2 |},
     None)
  /\ 1 + 2 = 3 /\ 1 + 2 = 3 /\ 4 = 1 + 1 + 2.
Proof.
  split; [vm_compute; reflexivity|].
  refine (proj2 (C4_asn_counts {| SocketPath := "/run/bird.ctl" |}
                   (scriptedWorld listings))
            _ _ _ _ eq_refl eq_refl _).
  vm_compute. reflexivity.
Defined.

(** ** C5, C6: AS paths *)

(** C5: the three paths of the specification decode as it says: a path
    without a block has an empty set, and a block at the end gives the set. *)
Theorem C5_decodeASPaths_examples :
  decodeASPaths "3356 12345" = ([3356; 12345], [])
  /\ decodeASPaths "3356 12345 9876 {1212}" = ([3356; 12345; 9876], [1212])
  /\ snd (decodeASPaths "3356 12345 9876 {1212 3434}") = [1212; 3434]
  /\ fst (decodeASPaths "3356 12345 9876 {1212 3434}") = [3356; 12345; 9876].
Proof. vm_compute. repeat split. Qed.

(** The specification's words for C6: the text holds exactly one bracketed
    block when it has one opening and one closing brace, in that order; the
    interior is the text between them, and what precedes is the text before
    the opening brace. *)
Fixpoint countByte (c : ascii) (s : string) : nat :=
  match s with
  | EmptyString => 0
  | String d s' => ((if Ascii.eqb d c then 1 else 0) + countByte c s')%nat
  end.

Definition oneBlock (in_ : string) : bool :=
  (countByte "{" in_ =? 1)%nat && (countByte "}" in_ =? 1)%nat
  && match strings.Index in_ "{", strings.Index in_ "}" with
     | Some i, Some j => (i <? j)%nat
     | _, _ => false
     end.

Definition blockInterior (in_ : string) : string :=
  match strings.Index in_ "{", strings.Index in_ "}" with
  | Some i, Some j => strings.upto (j - i - 1) (strings.from (i + 1) in_)
  | _, _ => EmptyString
  end.

Definition blockPreceding (in_ : string) : string :=
  match strings.Index in_ "{" with
  | Some i => strings.upto i in_
  | None => in_
  end.

(** C6, as the specification states it, fails.  With two blocks the set is
    not empty; with one block followed by more tokens the set holds more
    than the interior tokens; with one block glued to the token before it
    the path lacks that token. *)
Lemma C6_set_not_only_one_block :
  (oneBlock "1 {2} 3 {4}" = false
   /\ snd (decodeASPaths "1 {2} 3 {4}") = [2; 3])
  /\ (oneBlock "1 {2} 3" = true
      /\ map stringToUint32 (strings.Fields (blockInterior "1 {2} 3")) = [2]
      /\ snd (decodeASPaths "1 {2} 3") = [2; 3])
  /\ (oneBlock "1{2}" = true
      /\ map stringToUint32 (strings.Fields (blockPreceding "1{2}")) = [1]
      /\ fst (decodeASPaths "1{2}") = []).
Proof. vm_compute. repeat split. Qed.

Definition braceFree (s : string) : Prop := strings.ContainsAny s "{}" = false.

Fixpoint hasByte (c : ascii) (s : string) : bool :=
  match s with
  | EmptyString => false
  | String d s' => Ascii.eqb d c || hasByte c s'
  end.

Lemma ContainsAny_braces_cons (c : ascii) (s : string) :
  strings.ContainsAny (String c s) "{}"
  = Ascii.eqb c "{" || Ascii.eqb c "}" || strings.ContainsAny s "{}".
Proof. simpl. now rewrite !andb_true_r, !orb_false_r. Qed.

Lemma ContainsAny_app (s t chars : string) :
  strings.ContainsAny (s +:+ t) chars
  = strings.ContainsAny s chars || strings.ContainsAny t chars.
Proof.
  induction s as [|c s IH]; [reflexivity|].
  rewrite app_cons. simpl. now rewrite IH, orb_assoc.
Qed.

Lemma braceFree_hasByte (s : string) :
  braceFree s -> hasByte "{" s = false /\ hasByte "}" s = false.
Proof.
  unfold braceFree. induction s as [|c s IH]; [now split|].
  rewrite ContainsAny_braces_cons. intros H.
  apply orb_false_elim in H as [H Hs]. apply orb_false_elim in H as [Ho Hc].
  destruct (IH Hs) as [IH1 IH2]. simpl. now rewrite Ho, Hc, IH1, IH2.
Qed.

Lemma hasByte_app (c : ascii) (s t : string) :
  hasByte c (s +:+ t) = hasByte c s || hasByte c t.
Proof.
  induction s as [|d s IH]; [reflexivity|].
  rewrite app_cons. simpl. now rewrite IH, orb_assoc.
Qed.

(** [strings.Replace] with count 1 rewrites the first occurrence. *)
Lemma Replace1_first (c : ascii) (pre rest new : string) :
  hasByte c pre = false ->
  strings.Replace1 (pre +:+ String c rest) (String c EmptyString) new
  = pre +:+ new +:+ rest.
Proof.
  induction pre as [|d pre IH]; intros H.
  - rewrite !app_empty_l. simpl. now rewrite Ascii.eqb_refl.
  - simpl in H. apply orb_false_elim in H as [Hd Hp].
    rewrite !app_cons. simpl. rewrite (Ascii.eqb_sym c d), Hd. simpl.
    now rewrite (IH Hp).
Qed.

(** *** [strings.Fields] across a one-byte white space *)

Lemma asciiSpace_alone (c : ascii) :
  strings.asciiSpace c = true ->
  (forall x, strings.space2 x c = false)
  /\ (forall x e, strings.space3 x c e = false)
  /\ (forall x d, strings.space3 x d c = false).
Proof.
  intros H.
  destruct c as [[] [] [] [] [] [] [] []]; try discriminate H;
    (split; [|split]); intros; unfold strings.space2, strings.space3; simpl;
    rewrite ?andb_false_r; reflexivity.
Qed.

Lemma spaceWidth_app_space (x c : ascii) (a b : string) :
  strings.asciiSpace c = true ->
  strings.spaceWidth (String x a +:+ String c b) = strings.spaceWidth (String x a).
Proof.
  intros H. destruct (asciiSpace_alone c H) as (H2 & H3 & H3').
  destruct a as [|y [|z a]]; rewrite ?app_cons, ?app_empty_l; simpl.
  - rewrite H2. destruct b; [reflexivity|]. now rewrite H3.
  - now rewrite H3'.
  - reflexivity.
Qed.

Lemma spaceWidth_le (s : string) : (strings.spaceWidth s <= strings.len s)%nat.
Proof.
  destruct s as [|c [|d [|e s]]]; unfold strings.len; simpl;
    repeat match goal with |- context [if ?b then _ else _] => destruct b end;
    lia.
Qed.

Lemma fieldsFrom_app_space (c : ascii) (a b : string) :
  strings.asciiSpace c = true ->
  forall skip cur, (skip <= strings.len a)%nat ->
  strings.fieldsFrom skip cur (a +:+ String c b)
  = strings.fieldsFrom skip cur a ++ strings.Fields b.
Proof.
  intros Hc. induction a as [|x a IH]; intros skip cur Hk.
  - unfold strings.len in Hk. simpl in Hk.
    assert (skip = 0)%nat as -> by lia.
    rewrite app_empty_l. simpl. now rewrite Hc.
  - rewrite app_cons.
    change (strings.fieldsFrom skip cur (String x (a +:+ String c b)))
      with (match skip with
            | S k => strings.fieldsFrom k cur (a +:+ String c b)
            | O => match strings.spaceWidth (String x (a +:+ String c b)) with
                   | O => strings.fieldsFrom O (cur +:+ String x EmptyString)
                            (a +:+ String c b)
                   | S w => strings.flush cur
                            ++ strings.fieldsFrom w EmptyString (a +:+ String c b)
                   end
            end).
    change (strings.fieldsFrom skip cur (String x a))
      with (match skip with
            | S k => strings.fieldsFrom k cur a
            | O => match strings.spaceWidth (String x a) with
                   | O => strings.fieldsFrom O (cur +:+ String x EmptyString) a
                   | S w => strings.flush cur ++ strings.fieldsFrom w EmptyString a
                   end
            end).
    change (strings.len (String x a)) with (S (strings.len a)) in Hk.
    destruct skip as [|k].
    + rewrite <- app_cons, (spaceWidth_app_space _ _ _ _ Hc).
      pose proof (spaceWidth_le (String x a)) as Hw.
      change (strings.len (String x a)) with (S (strings.len a)) in Hw.
      destruct (strings.spaceWidth (String x a)) as [|w].
      * apply IH. apply Nat.le_0_l.
      * rewrite IH by lia. now rewrite app_assoc.
    + apply IH. lia.
Qed.

Lemma Fields_app_space (c : ascii) (a b : string) :
  strings.asciiSpace c = true ->
  strings.Fields (a +:+ String c b) = strings.Fields a ++ strings.Fields b.
Proof. intros Hc. apply (fieldsFrom_app_space c a b Hc). lia. Qed.

(** The fields of a text without braces have no brace. *)
Lemma fieldsFrom_braceFree (s : string) :
  braceFree s -> forall skip cur, braceFree cur ->
  Forall braceFree (strings.fieldsFrom skip cur s).
Proof.
  assert (Hflush : forall cur, braceFree cur -> Forall braceFree (strings.flush cur)).
  { intros [|c cur] H; simpl; [constructor|]. constructor; [exact H|constructor]. }
  induction s as [|x s IH]; intros Hs skip cur Hcur; [now apply Hflush|].
  unfold braceFree in Hs. rewrite ContainsAny_braces_cons in Hs.
  apply orb_false_elim in Hs as [Hx Hs].
  change (strings.fieldsFrom skip cur (String x s))
    with (match skip with
          | S k => strings.fieldsFrom k cur s
          | O => match strings.spaceWidth (String x s) with
                 | O => strings.fieldsFrom O (cur +:+ String x EmptyString) s
                 | S w => strings.flush cur ++ strings.fieldsFrom w EmptyString s
                 end
          end).
  destruct skip as [|k]; [|now apply IH].
  destruct (strings.spaceWidth (String x s)) as [|w].
  - apply IH; [exact Hs|]. unfold braceFree.
    rewrite ContainsAny_app, Hcur, ContainsAny_braces_cons, Hx. reflexivity.
  - apply Forall_app. split; [now apply Hflush|]. now apply IH.
Qed.

Lemma Fields_braceFree (s : string) :
  braceFree s -> Forall braceFree (strings.Fields s).
Proof. intros H. now apply fieldsFrom_braceFree. Qed.

(** The loop of [decodeASPaths] over tokens without braces. *)
Lemma splitASPath_free (toks rest : list string) (isSet : bool) (path set : list Z) :
  Forall braceFree toks ->
  splitASPath (toks ++ rest) isSet path set
  = if isSet
    then splitASPath rest isSet path (set ++ map stringToUint32 toks)
    else splitASPath rest isSet (path ++ map stringToUint32 toks) set.
Proof.
  intros H. revert path set.
  induction H as [|t toks Ht _ IH]; intros path set.
  - simpl. rewrite !app_nil_r. now destruct isSet.
  - simpl. rewrite Ht. destruct isSet; rewrite IH, <- app_assoc; reflexivity.
Qed.

(** A text before a block that leaves the brace on its own: it is empty or
    ends in a one-byte white space. *)
Definition blockStart (pre : string) : Prop :=
  pre = EmptyString
  \/ exists p c, pre = p +:+ String c EmptyString /\ strings.asciiSpace c = true.

Lemma Fields_block (pre mid : string) :
  blockStart pre ->
  strings.Fields (pre +:+ "{ " +:+ mid +:+ " }")
  = strings.Fields pre ++ "{" :: strings.Fields mid ++ ["}"].
Proof.
  assert (Hb : strings.Fields ("{ " +:+ mid +:+ " }")
               = "{" :: strings.Fields mid ++ ["}"]).
  { change ("{ " +:+ mid +:+ " }")
      with ("{" +:+ String " " (mid +:+ String " " "}")).
    rewrite !Fields_app_space by reflexivity. reflexivity. }
  intros [->|(p & c & -> & Hc)].
  - rewrite app_empty_l. exact Hb.
  - rewrite app_assoc_s, app_cons, app_empty_l.
    rewrite !(Fields_app_space c) by exact Hc.
    rewrite Hb. change (strings.Fields EmptyString) with (@nil string).
    now rewrite app_nil_r.
Qed.

Lemma decodeASPaths_plain (in_ : string) :
  braceFree in_ ->
  decodeASPaths in_ = (map stringToUint32 (strings.Fields in_), []).
Proof.
  intros H. unfold decodeASPaths. rewrite H.
  rewrite <- (app_nil_r (strings.Fields in_)) at 1.
  rewrite splitASPath_free by now apply Fields_braceFree.
  reflexivity.
Qed.

Lemma decodeASPaths_block (pre mid : string) :
  braceFree pre -> braceFree mid -> blockStart pre ->
  decodeASPaths (pre +:+ "{" +:+ mid +:+ "}")
  = (map stringToUint32 (strings.Fields pre),
     map stringToUint32 (strings.Fields mid)).
Proof.
  intros Hpre Hmid Hstart. unfold decodeASPaths.
  destruct (braceFree_hasByte _ Hpre) as [Hpo Hpc].
  destruct (braceFree_hasByte _ Hmid) as [Hmo Hmc].
  assert (Hany : strings.ContainsAny (pre +:+ "{" +:+ mid +:+ "}") "{}" = true).
  { rewrite ContainsAny_app. change ("{" +:+ mid +:+ "}") with (String "{" (mid +:+ "}")).
    rewrite ContainsAny_braces_cons. simpl. apply orb_true_r. }
  rewrite Hany.
  change ("{" +:+ mid +:+ "}") with (String "{" (mid +:+ "}")).
  rewrite (Replace1_first "{" pre (mid +:+ "}") "{ " Hpo).
  replace (pre +:+ "{ " +:+ mid +:+ "}")
    with ((pre +:+ "{ " +:+ mid) +:+ String "}" EmptyString)
    by now rewrite !app_assoc_s.
  rewrite (Replace1_first "}" _ EmptyString " }")
    by (rewrite !hasByte_app, Hpc, Hmc; reflexivity).
  replace ((pre +:+ "{ " +:+ mid) +:+ " }" +:+ EmptyString)
    with (pre +:+ "{ " +:+ mid +:+ " }")
    by now rewrite app_empty_r, !app_assoc_s.
  rewrite (Fields_block _ _ Hstart).
  rewrite splitASPath_free by now apply Fields_braceFree.
  cbn [splitASPath]. change (strings.ContainsAny "{" "{}") with true. cbv iota.
  rewrite splitASPath_free by now apply Fields_braceFree.
  reflexivity.
Qed.

(** C6 (amended): the set is empty when the text holds no brace, the path
    being all its tokens; and when the text is a brace-free part, empty or
    ending in a one-byte white space, followed by one block with a
    brace-free interior that ends the text, the set holds the tokens of the
    interior and the path the tokens before the block. *)
Theorem C6_set_of_trailing_block :
  (forall in_, braceFree in_ ->
     decodeASPaths in_ = (map stringToUint32 (strings.Fields in_), []))
  /\ (forall pre mid,
        braceFree pre -> braceFree mid -> blockStart pre ->
        decodeASPaths (pre +:+ "{" +:+ mid +:+ "}")
        = (map stringToUint32 (strings.Fields pre),
           map stringToUint32 (strings.Fields mid))).
Proof. split; [exact decodeASPaths_plain|exact decodeASPaths_block]. Qed.

Lemma C6_set_of_trailing_block_witness :
  decodeASPaths "3356 12345" = (map stringToUint32 (strings.Fields "3356 12345"), [])
  /\ decodeASPaths ("3356 12345 9876 " +:+ "{" +:+ "1212 3434" +:+ "}")
     = (map stringToUint32 (strings.Fields "3356 12345 9876 "),
        map stringToUint32 (strings.Fields "1212 3434")).
Proof.
  split.
  - refine (proj1 C6_set_of_trailing_block "3356 12345" _). reflexivity.
  - refine (proj2 C6_set_of_trailing_block "3356 12345 9876 " "1212 3434" _ _ _);
      try reflexivity.
    right. exists "3356 12345 9876", " "%char. split; reflexivity.
Defined.

(** ** The totals of [show route count] *)

Definition countLine4 : string :=
  "1007-2076414 of 2076414 routes for 1038207 networks in table master4".

(** The line of the second table comes as a continuation line or with a
    code of its own. *)
Definition countLine6 (coded6 : bool) : string :=
  (if coded6 then "1007-" else " ")
    +:+ "471160 of 471160 routes for 235580 networks in table master6".

(** What the loop of [GetBGPTotal] does with a line the pattern matches:
    the first number is the RIB size and the third the FIB size, of the
    family the line names. *)
Lemma totalsLine_match (t : Totals) (line whole rib fib : string) :
  regexp.FindStringSubmatch totalsRe line = [whole; rib; fib] ->
  totalsLine t line
  = if strings.Contains line "master4" then
      {| V4Rib := stringToUint32 rib; V4Fib := stringToUint32 fib;
         V6Rib := V6Rib t; V6Fib := V6Fib t |}
    else if strings.Contains line "master6" then
      {| V4Rib := V4Rib t; V4Fib := V4Fib t;
         V6Rib := stringToUint32 rib; V6Fib := stringToUint32 fib |}
    else t.
Proof. intros H. unfold totalsLine. rewrite H. reflexivity. Qed.

Definition routeCount : list (string * string) :=
  [("show route count",
    wire [countLine4; countLine6 false;
          " Total: 2547574 of 2547574 routes for 1273787 networks in 2 tables";
          "0000 "])].

(** The exchange of the package's test, with the line of the grand total
    between the table lines and the final status. *)
Lemma GetBGPTotal_test_exchange :
  fst (GetBGPTotal {| SocketPath := "/run/bird.ctl" |} (scriptedWorld routeCount))
  = ({| V4Rib := 2076414; V4Fib := 1038207; V6Rib := 471160; V6Fib := 235580 |},
     None).
Proof. vm_compute. reflexivity. Qed.

(** ** VRP lines *)

Lemma Split_none (c : ascii) (s : string) :
  hasByte c s = false -> strings.Split s c = [s].
Proof.
  induction s as [|d s IH]; intros H; [reflexivity|].
  simpl in H. apply orb_false_elim in H as [Hd Hs].
  simpl. now rewrite Hd, (IH Hs).
Qed.

Lemma Split_one (c : ascii) (a b : string) :
  hasByte c a = false -> hasByte c b = false ->
  strings.Split (a +:+ String c b) c = [a; b].
Proof.
  intros Ha Hb. induction a as [|d a IH].
  - rewrite app_empty_l. simpl. now rewrite Ascii.eqb_refl, (Split_none _ _ Hb).
  - simpl in Ha. apply orb_false_elim in Ha as [Hd Ha].
    rewrite app_cons. simpl. now rewrite Hd, (IH Ha).
Qed.

Lemma Contains_byte (c : ascii) (a b : string) :
  strings.Contains (a +:+ String c b) (String c EmptyString) = true.
Proof.
  induction a as [|d a IH].
  - rewrite app_empty_l. simpl. now rewrite Ascii.eqb_refl.
  - rewrite app_cons. simpl. rewrite IH. apply orb_true_r.
Qed.

Section VRPLines.

Variable IPNet : Type.
Variable ParseCIDR : string -> option IPNet.

(** A line whose first token has one hyphen, with a part before it that
    [net.ParseCIDR] rejects or a part after it that [strconv.Atoi]
    rejects. *)
Definition malformedVRP (line : string) : Prop :=
  exists pfx mx others,
    strings.Fields line = (pfx +:+ "-" +:+ mx) :: others
    /\ hasByte "-" pfx = false /\ hasByte "-" mx = false
    /\ (ParseCIDR pfx = None \/ strconv.Atoi mx = None).

Lemma parseVRPsFrom_malformed (lines : list string) :
  Exists malformedVRP lines ->
  forall vrps, exists e, parseVRPsFrom IPNet ParseCIDR lines vrps = ([], Some e).
Proof.
  induction 1 as [line rest (pfx & mx & others & Hf & Hp & Hm & Hbad)
                 |line rest _ IH]; intros vrps.
  - cbn [parseVRPsFrom]. rewrite Hf. cbn [length Nat.ltb Nat.leb andb index nth].
    change (pfx +:+ "-" +:+ mx) with (pfx +:+ String "-" mx).
    rewrite Contains_byte, (Split_one _ _ _ Hp Hm).
    cbn [length Nat.eqb index nth].
    destruct (ParseCIDR pfx) as [prefix|]; [|eauto].
    destruct Hbad as [Hbad| ->]; [discriminate Hbad|eauto].
  - cbn [parseVRPsFrom].
    destruct ((0 <? length (strings.Fields line))%nat
              && strings.Contains (index (strings.Fields line) 0) "-"); [|apply IH].
    destruct (length (strings.Split (index (strings.Fields line) 0) "-") =? 2)%nat;
      [|apply IH].
    destruct (ParseCIDR _); [|eauto].
    destruct (strconv.Atoi _); [apply IH|eauto].
Qed.

Lemma malformed_not_empty (output : string) :
  Exists malformedVRP (strings.Split output nl) -> output <> EmptyString.
Proof.
  intros H ->. simpl in H. apply Exists_cons in H as [H|H].
  - destruct H as (pfx & mx & others & Hf & _). discriminate Hf.
  - inversion H.
Qed.

(** A first token that the hyphens cut in other than two parts is passed
    over, with no error. *)
Lemma parseVRPsFrom_skip (line tok : string) (others rest : list string)
    (vrps : list (VRP IPNet)) :
  strings.Fields line = tok :: others ->
  length (strings.Split tok "-") <> 2%nat ->
  parseVRPsFrom IPNet ParseCIDR (line :: rest) vrps
  = parseVRPsFrom IPNet ParseCIDR rest vrps.
Proof.
  intros Hf Hn. cbn [parseVRPsFrom]. rewrite Hf. cbn [index nth].
  destruct (_ && _); [|reflexivity].
  apply Nat.eqb_neq in Hn. now rewrite Hn.
Qed.

(** X1: in the output of either query of [GetVRPs], a line whose
    first token holds exactly one hyphen is split there into a prefix and a
    maximum length; when [net.ParseCIDR] rejects the prefix or
    [strconv.Atoi] the length, the whole call returns an error and the empty
    list, also when the first query had given VRPs.  A first token cut by
    its hyphens in other than two parts is passed over. *)
Theorem GetVRPs_parse_error_aborts (b : BirdClient) (asn : Z) (w : World) :
  (forall out4 w1,
     query b ("show route all table roa_v4 where net.asn=" +:+ decimal asn) w
     = ((out4, None), w1) ->
     Exists malformedVRP (strings.Split out4 nl) ->
     exists e, GetVRPs IPNet ParseCIDR b asn w = (([], Some e), w1))
  /\ (forall out4 w1 vrps4 out6 w2,
        query b ("show route all table roa_v4 where net.asn=" +:+ decimal asn) w
        = ((out4, None), w1) ->
        parseVRPs IPNet ParseCIDR out4 = (vrps4, None) ->
        query b ("show route all table roa_v6 where net.asn=" +:+ decimal asn) w1
        = ((out6, None), w2) ->
        Exists malformedVRP (strings.Split out6 nl) ->
        exists e, GetVRPs IPNet ParseCIDR b asn w = (([], Some e), w2))
  /\ (forall line tok others rest vrps,
        strings.Fields line = tok :: others ->
        length (strings.Split tok "-") <> 2%nat ->
        parseVRPsFrom IPNet ParseCIDR (line :: rest) vrps
        = parseVRPsFrom IPNet ParseCIDR rest vrps).
Proof.
  split; [|split].
  - intros out4 w1 Hq Hbad. unfold GetVRPs. rewrite Hq.
    pose proof (malformed_not_empty _ Hbad) as Hne.
    apply String.eqb_neq in Hne. rewrite Hne. cbn [negb].
    destruct (parseVRPsFrom_malformed _ Hbad []) as [e He].
    unfold parseVRPs. rewrite He. eauto.
  - intros out4 w1 vrps4 out6 w2 Hq4 Hp4 Hq6 Hbad. unfold GetVRPs. rewrite Hq4.
    pose proof (malformed_not_empty _ Hbad) as Hne.
    apply String.eqb_neq in Hne.
    destruct (parseVRPsFrom_malformed _ Hbad []) as [e He].
    destruct (negb (out4 =? EmptyString)%string); rewrite ?Hp4, Hq6, Hne;
      cbn [negb]; unfold parseVRPs; rewrite He; eauto.
  - intros line tok others rest vrps. apply parseVRPsFrom_skip.
Qed.

End VRPLines.

(** A stand-in for [net.ParseCIDR] to run the examples: it takes any text
    of the shape [address/length] with a decimal length.  The theorems above
    hold for every parser. *)
Definition slashCIDR (s : string) : option (string * Z) :=
  match strings.Split s "/" with
  | [address; length] =>
      match strconv.ParseUint32 length with
      | Some n => Some (address, n)
      | None => None
      end
  | _ => None
  end.

Definition vrpsTwoHyphens : list (string * string) :=
  [("show route all table roa_v4 where net.asn=64496",
    wire ["1007-Table roa_v4:";
          " 192.0.2.0/24-24-32 AS64496  [rpki1 2025-11-19] * (100)";
          "0000 "]);
   ("show route all table roa_v6 where net.asn=64496", wire ["0000 "])].

Definition vrpsBadLength : list (string * string) :=
  [("show route all table roa_v4 where net.asn=64496",
    wire ["1007-Table roa_v4:";
          " 192.0.2.0/24-24 AS64496  [rpki1 2025-11-19] * (100)";
          " 198.51.100.0/24-x AS64496  [rpki1 2025-11-19] * (100)";
          "0000 "]);
   ("show route all table roa_v6 where net.asn=64496", wire ["0000 "])].

(** The first token of the line below holds two hyphens, and neither cut
    of it gives a prefix and an integer that parse, yet [GetVRPs] returns no
    error: the line is passed over. *)
Lemma GetVRPs_two_hyphens_no_error :
  strings.Contains "192.0.2.0/24-24-32" "-" = true
  /\ strconv.Atoi "24-32" = None
  /\ slashCIDR "192.0.2.0/24-24" = None
  /\ fst (GetVRPs (string * Z) slashCIDR {| SocketPath := "/run/bird.ctl" |} 64496
            (scriptedWorld vrpsTwoHyphens))
     = ([], None).
Proof. vm_compute. repeat split. Qed.

(** The same for every parser: it is not called on such a token. *)
Lemma GetVRPs_two_hyphens (IPNet : Type) (ParseCIDR : string -> option IPNet) :
  fst (GetVRPs IPNet ParseCIDR {| SocketPath := "/run/bird.ctl" |} 64496
         (scriptedWorld vrpsTwoHyphens))
  = ([], None).
Proof. vm_compute. reflexivity. Qed.

Lemma GetVRPs_parse_error_aborts_witness :
  exists e,
    GetVRPs (string * Z) slashCIDR {| SocketPath := "/run/bird.ctl" |} 64496
      (scriptedWorld vrpsBadLength)
    = (([], Some e),
       {| endpoints := endpoints (scriptedWorld vrpsBadLength); dials := 1 |}).
Proof.
  refine (proj1 (GetVRPs_parse_error_aborts (string * Z) slashCIDR
                   {| SocketPath := "/run/bird.ctl" |} 64496
                   (scriptedWorld vrpsBadLength))
            ("Table roa_v4:" +:+ LF
             +:+ "192.0.2.0/24-24 AS64496  [rpki1 2025-11-19] * (100)" +:+ LF
             +:+ "198.51.100.0/24-x AS64496  [rpki1 2025-11-19] * (100)")
            {| endpoints := endpoints (scriptedWorld vrpsBadLength); dials := 1 |}
            _ _).
  - vm_compute. reflexivity.
  - match goal with
    | |- Exists _ ?l =>
        replace l
          with ["Table roa_v4:";
                "192.0.2.0/24-24 AS64496  [rpki1 2025-11-19] * (100)";
                "198.51.100.0/24-x AS64496  [rpki1 2025-11-19] * (100)"]
          by (vm_compute; reflexivity)
    end.
    apply Exists_cons_tl, Exists_cons_tl, Exists_cons_hd.
    exists "198.51.100.0/24", "x", ["AS64496"; "[rpki1"; "2025-11-19]"; "*"; "(100)"].
    split; [vm_compute; reflexivity|].
    split; [vm_compute; reflexivity|].
    split; [vm_compute; reflexivity|]. right. vm_compute. reflexivity.
Defined.

(** ** An error in a decoder of several queries *)

Definition invalidsThenError : list (string * string) :=
  [("show route primary table master4 where roa_check(roa_v4) = ROA_INVALID",
    wire ["1007-192.0.2.0/24 via 198.51.100.1 on eth0 [AS64496i]";
          "0000 "])].

Definition roaCountThenError : list (string * string) :=
  [("show route primary table master4 where roa_check(roa_v4) = ROA_VALID count",
    wire ["1007-42 of 42 routes for 42 networks in table master4"; "0000 "])].

(** When the second query meets a daemon error, [GetInvalids] returns,
    with the error, the map holding the prefix the first query listed, and
    [GetROAs] the count the first query gave. *)
Lemma partial_result_with_error :
  (snd (fst (GetInvalids {| SocketPath := "/run/bird.ctl" |}
               (scriptedWorld invalidsThenError)))
   = Some (ErrBird "9001 syntax error")
   /\ fst (fst (GetInvalids {| SocketPath := "/run/bird.ctl" |}
                  (scriptedWorld invalidsThenError))) !! "64496"
      = Some ["192.0.2.0/24"])
  /\ fst (GetROAs {| SocketPath := "/run/bird.ctl" |}
            (scriptedWorld roaCountThenError))
     = ({| V4v := 42; V4i := 0; V4u := 0; V6v := 0; V6i := 0; V6u := 0 |},
        Some (ErrBird "9001 syntax error")).
Proof. vm_compute. repeat split. Qed.

(** The six commands of [GetROAs], in the order it sends them. *)
Definition roaCommands : list string :=
  ["show route primary table master4 where roa_check(roa_v4) = ROA_VALID count";
   "show route primary table master4 where roa_check(roa_v4) = ROA_INVALID count";
   "show route primary table master4 where roa_check(roa_v4) = ROA_UNKNOWN count";
   "show route primary table master6 where roa_check(roa_v6) = ROA_VALID count";
   "show route primary table master6 where roa_check(roa_v6) = ROA_INVALID count";
   "show route primary table master6 where roa_check(roa_v6) = ROA_UNKNOWN count"].

(** The counts of the commands answered before the first error, that error,
    and the world left: no query is sent after an error. *)
Fixpoint countsUntilError (b : BirdClient) (commands : list string) (w : World)
  : (list Z * option error) * World :=
  match commands with
  | [] => (([], None), w)
  | command :: commands' =>
      let '((out, err), w1) := query b command w in
      match err with
      | Some e => (([], Some e), w1)
      | None =>
          let '((counts, err'), w2) := countsUntilError b commands' w1 in
          ((extractRouteCount out :: counts, err'), w2)
      end
  end.

(** The result with the counts at hand, zero for the ones that are not. *)
Definition roasOf (counts : list Z) : Roas :=
  {| V4v := nth 0 counts 0; V4i := nth 1 counts 0; V4u := nth 2 counts 0;
     V6v := nth 3 counts 0; V6i := nth 4 counts 0; V6u := nth 5 counts 0 |}.

Lemma GetROAs_countsUntilError (b : BirdClient) (w : World) :
  GetROAs b w
  = let '((counts, err), w') := countsUntilError b roaCommands w in
    ((roasOf counts, err), w').
Proof.
  unfold GetROAs, roaCommands. cbn [countsUntilError].
  repeat match goal with
         | |- context [query b ?c ?w] =>
             destruct (query b c w) as [[? [?|]] ?]; [reflexivity|]
         end.
  reflexivity.
Qed.

(** X2: when a query of [GetInvalids] or of [GetROAs] returns an
    error, a daemon error included, the decoder sends no further query and
    returns that error; the value that comes with the error is the result
    as built so far: empty or zero when the first query fails, and holding
    what the earlier queries gave otherwise. *)
Theorem decoder_error_stops_queries (b : BirdClient) (w : World) :
  (forall out e w1,
     query b "show route primary table master4 where roa_check(roa_v4) = ROA_INVALID" w
     = ((out, Some e), w1) ->
     GetInvalids b w = ((∅, Some e), w1))
  /\ (forall out4 w1 out e w2,
        query b "show route primary table master4 where roa_check(roa_v4) = ROA_INVALID" w
        = ((out4, None), w1) ->
        query b "show route primary table master6 where roa_check(roa_v6) = ROA_INVALID" w1
        = ((out, Some e), w2) ->
        GetInvalids b w
        = ((fold_left invalidsLine (strings.Split out4 nl) ∅, Some e), w2))
  /\ GetROAs b w
     = (let '((counts, err), w') := countsUntilError b roaCommands w in
        ((roasOf counts, err), w')).
Proof.
  split; [|split].
  - intros out e w1 H. unfold GetInvalids. now rewrite H.
  - intros out4 w1 out e w2 H4 H6. unfold GetInvalids. now rewrite H4, H6.
  - apply GetROAs_countsUntilError.
Qed.

Lemma decoder_error_stops_queries_witness :
  exists w2,
    GetInvalids {| SocketPath := "/run/bird.ctl" |} (scriptedWorld invalidsThenError)
    = ((fold_left invalidsLine
          (strings.Split "192.0.2.0/24 via 198.51.100.1 on eth0 [AS64496i]" nl)
          ∅,
        Some (ErrBird "9001 syntax error")), w2).
Proof.
  eexists.
  refine (proj1 (proj2 (decoder_error_stops_queries {| SocketPath := "/run/bird.ctl" |}
                          (scriptedWorld invalidsThenError)))
            _ _ EmptyString _ _ eq_refl eq_refl).
Defined.

(** ** Numbers that do not parse *)

Fixpoint hasNonDigit (s : string) : bool :=
  match s with
  | EmptyString => false
  | String c s' => negb (isDigit c) || hasNonDigit s'
  end.

(** The number a run of decimal digits writes, after [acc]. *)
Fixpoint valueFrom (acc : Z) (s : string) : Z :=
  match s with
  | EmptyString => acc
  | String c s' => valueFrom (10 * acc + (Z.of_nat (nat_of_ascii c) - 48)) s'
  end.

Definition decimalValue (s : string) : Z := valueFrom 0 s.


(** The text below holds a byte that is not a digit, the space in front,
    and [stringToUint32] returns 12 for it, as the white space is trimmed
    first. *)
Lemma padded_number_is_read :
  hasNonDigit " 12" = true /\ stringToUint32 " 12" = 12 /\ stringToUint32 " 12" <> 0.
Proof. vm_compute. repeat split. discriminate. Qed.

Lemma digits_valueFrom (s : string) (acc : Z) :
  strconv.digits acc s = if hasNonDigit s then None else Some (valueFrom acc s).
Proof.
  revert acc. induction s as [|c s IH]; intros acc; [reflexivity|].
  simpl. destruct (isDigit c); [apply IH|reflexivity].
Qed.


Lemma isDigit_value (c : ascii) :
  isDigit c = true -> 0 <= Z.of_nat (nat_of_ascii c) - 48 <= 9.
Proof.
  unfold isDigit, byte_le. intros H. apply andb_prop in H as [H1 H2].
  apply Nat.leb_le in H1, H2.
  change (nat_of_ascii "0") with 48%nat in H1.
  change (nat_of_ascii "9") with 57%nat in H2. lia.
Qed.

Lemma valueFrom_nonneg (s : string) (acc : Z) :
  hasNonDigit s = false -> 0 <= acc -> 0 <= valueFrom acc s.
Proof.
  revert acc. induction s as [|c s IH]; intros acc H Hacc; [exact Hacc|].
  simpl in H. apply orb_false_elim in H as [Hc Hs].
  apply negb_false_iff in Hc. apply isDigit_value in Hc.
  simpl. apply IH; [exact Hs|lia].
Qed.

(** Every other token is read as the number it writes. *)
Lemma stringToUint32_value (s : string) :
  strings.TrimSpace s <> EmptyString ->
  hasNonDigit (strings.TrimSpace s) = false ->
  decimalValue (strings.TrimSpace s) <= 4294967295 ->
  stringToUint32 s = decimalValue (strings.TrimSpace s).
Proof.
  unfold stringToUint32, strconv.ParseUint32, decimalValue.
  destruct (strings.TrimSpace s) as [|c t]; [contradiction|].
  intros _ Hd Hv. rewrite digits_valueFrom, Hd.
  pose proof (valueFrom_nonneg _ 0 Hd (Z.le_refl 0)) as H0.
  apply Z.leb_le in Hv as Hv'. rewrite Hv'.
  unfold uint32. apply Z.mod_small. lia.
Qed.



Definition overflowCount : list (string * string) :=
  [("show route count",
    wire ["1007-4294967296 of 4294967296 routes for 1038207 networks in table master4";
          "0000 "])].


(** The overflowing count through the whole exchange: no error, and 0. *)
Lemma GetBGPTotal_overflow :
  fst (GetBGPTotal {| SocketPath := "/run/bird.ctl" |} (scriptedWorld overflowCount))
  = ({| V4Rib := 0; V4Fib := 1038207; V6Rib := 0; V6Fib := 0 |}, None).
Proof. vm_compute. reflexivity. Qed.

(** * The other decoders of [BirdClient] (part_002) *)

(** [GetVersion] has an error of its own beside the one of its query. *)
Inductive statusError : Type :=
| StatusQuery (e : error)
| EmptyStatusOutput.                (* [fmt.Errorf("empty status output")] *)

(** [GetVersion] (part_002, l. 27) *)
Definition GetVersion (b : BirdClient) (w : World)
  : (string * option statusError) * World :=
  let '((out, err), w) := query b "show status" w in
  match err with
  | Some e => ((EmptyString, Some (StatusQuery e)), w)
  | None =>
      let lines := strings.Split out nl in
      if (0 <? length lines)%nat then ((index lines 0, None), w)
      else ((EmptyString, Some EmptyStatusOutput), w)
  end.

Record Peers : Type := { V4c : Z; V4e : Z; V6c : Z; V6e : Z }.

(** [n++] on a [uint32] *)
Definition inc32 (n : Z) : Z := uint32 (n + 1).

(** The body of the loop of [GetPeers]; the four counters are the fields of
    the record. *)
Definition peersLine (p : Peers) (line : string) : Peers :=
  let fields := strings.Fields line in
  if (length fields <? 6)%nat then p
  else
    let protocolName := index fields 0 in
    let status := index fields 5 in
    if negb (strings.Contains protocolName "_v4")
       && negb (strings.Contains protocolName "_v6") then p
    else if strings.Contains line "device1" || strings.Contains line "kernel1" then p
    else if strings.Contains protocolName "_v4" then
      {| V4c := inc32 (V4c p);
         V4e := if String.eqb status "Established" then inc32 (V4e p) else V4e p;
         V6c := V6c p; V6e := V6e p |}
    else if strings.Contains protocolName "_v6" then
      {| V4c := V4c p; V4e := V4e p;
         V6c := inc32 (V6c p);
         V6e := if String.eqb status "Established" then inc32 (V6e p) else V6e p |}
    else p.

(** [GetPeers] (part_002, l. 81) *)
Definition GetPeers (b : BirdClient) (w : World) : (Peers * option error) * World :=
  let p := {| V4c := 0; V4e := 0; V6c := 0; V6e := 0 |} in
  let '((out, err), w) := query b "show protocols" w in
  match err with
  | Some e => ((p, Some e), w)
  | None => ((fold_left peersLine (strings.Split out nl) p, None), w)
  end.

(** The body of the two loops of [GetMasks]: [v[parts[1]]++] on a
    [map[string]uint32]. *)
Definition masksLine (v : gmap string Z) (line : string) : gmap string Z :=
  let fields := strings.Fields line in
  if (0 <? length fields)%nat && strings.Contains (index fields 0) "/" then
    let parts := strings.Split (index fields 0) "/" in
    if (length parts =? 2)%nat
    then <[index parts 1 := inc32 (default 0 (v !! index parts 1))]> v
    else v
  else v.

(** [GetMasks] (part_002, l. 314) *)
Definition GetMasks (b : BirdClient) (w : World)
  : (list (gmap string Z) * option error) * World :=
  let '((out4, err), w) := query b "show route primary table master4" w in
  match err with
  | Some e => (([], Some e), w)
  | None =>
      let v4 := fold_left masksLine (strings.Split out4 nl) ∅ in
      let '((out6, err), w) := query b "show route primary table master6" w in
      match err with
      | Some e => (([], Some e), w)
      | None =>
          let v6 := fold_left masksLine (strings.Split out6 nl) ∅ in
          (([v4; v6], None), w)
      end
  end.

(** [RUnknown], [RValid], [RInvalid] (part_000, l. 106) *)
Definition RUnknown : Z := 0.
Definition RValid : Z := 1.
Definition RInvalid : Z := 2.

(** The map literal of [GetROA]. *)
Definition statuses : gmap string Z :=
  <["0" := RUnknown]> (<["1" := RValid]> (<["2" := RInvalid]> ∅)).

(** [GetROA] (part_002, l. 535); [prefix] is the text [prefix.String()]
    gives. *)
Definition GetROA (b : BirdClient) (prefix : string) (asn : Z) (w : World)
  : (Z * bool * option error) * World :=
  let table := if strings.Contains prefix ":" then "roa_v6" else "roa_v4" in
  let cmd := "eval roa_check(" +:+ table +:+ ", " +:+ prefix +:+ ", "
               +:+ decimal asn +:+ ")" in
  let '((out, err), w) := query b cmd w in
  match err with
  | Some e => ((0, false, Some e), w)
  | None =>
      if (0 <? strings.len out)%nat then
        let val := strings.from (strings.len out - 1) out in
        match statuses !! val with
        | Some status => ((status, true, None), w)
        | None => ((0, false, None), w)
        end
      else ((0, false, None), w)
  end.

(** [countRouteLines] (part_002, l. 377) *)
Definition countRouteLines (output : string) : Z :=
  if String.eqb output EmptyString then 0
  else
    fold_left
      (fun count line =>
         if (0 <? strings.len line)%nat
            && match strings.at_ line 0 with
               | Some c => isDigit c || Ascii.eqb c ":"
               | None => false
               end
         then count + 1 else count)
      (strings.Split (strings.TrimSpace output) nl) 0.

(** [GetLargeCommunities] (part_002, l. 356); the pair is the record
    [Large]. *)
Definition GetLargeCommunities (b : BirdClient) (w : World)
  : ((Z * Z) * option error) * World :=
  let '((out4, err), w) :=
    query b "show route primary table master4 where bgp_large_community ~ [(*,*,*)]" w in
  match err with
  | Some e => (((0, 0), Some e), w)
  | None =>
      let v4 := uint32 (countRouteLines out4) in
      let '((out6, err), w) :=
        query b "show route primary table master6 where bgp_large_community ~ [(*,*,*)]" w in
      match err with
      | Some e => (((v4, 0), Some e), w)
      | None => (((v4, uint32 (countRouteLines out6)), None), w)
      end
  end.

Section Routes.

(** [*net.IPNet] and [net.ParseCIDR], as for [GetVRPs]. *)
Variable IPNet : Type.
Variable ParseCIDR : string -> option IPNet.

(** The loop of [extractPrefixes] (part_002, l. 415): [ips] is the slice
    built so far. *)
Fixpoint extractPrefixesFrom (lines : list string) (ips : list IPNet) : list IPNet :=
  match lines with
  | [] => ips
  | line :: rest =>
      let fields := strings.Fields line in
      if (0 <? length fields)%nat && strings.Contains (index fields 0) "/" then
        match ParseCIDR (index fields 0) with
        | Some ipNet => extractPrefixesFrom rest (ips ++ [ipNet])
        | None => extractPrefixesFrom rest ips
        end
      else extractPrefixesFrom rest ips
  end.

Definition extractPrefixes (output : string) : list IPNet :=
  extractPrefixesFrom (strings.Split output nl) [].

(** [GetIPv4FromSource] (part_002, l. 393) *)
Definition GetIPv4FromSource (b : BirdClient) (asn : Z) (w : World)
  : (list IPNet * option error) * World :=
  let cmd := "show route primary table master4 where bgp_path ~ [= * "
               +:+ decimal asn +:+ " =]" in
  let '((out, err), w) := query b cmd w in
  match err with
  | Some e => (([], Some e), w)
  | None => ((extractPrefixes out, None), w)
  end.

(** [GetIPv6FromSource] (part_002, l. 404) *)
Definition GetIPv6FromSource (b : BirdClient) (asn : Z) (w : World)
  : (list IPNet * option error) * World :=
  let cmd := "show route primary table master6 where bgp_path ~ [= * "
               +:+ decimal asn +:+ " =]" in
  let '((out, err), w) := query b cmd w in
  match err with
  | Some e => (([], Some e), w)
  | None => ((extractPrefixes out, None), w)
  end.

(** The loop of [GetRoute] over the lines. *)
Fixpoint firstRoute (lines : list string) : option IPNet :=
  match lines with
  | [] => None
  | line :: rest =>
      let fields := strings.Fields line in
      if (0 <? length fields)%nat && strings.Contains (index fields 0) "/" then
        match ParseCIDR (index fields 0) with
        | Some ipNet => Some ipNet
        | None => firstRoute rest
        end
      else firstRoute rest
  end.

(** [GetRoute] (part_002, l. 466); [ip] is the text [ip.String()] gives,
    [None] is the [nil] network. *)
Definition GetRoute (b : BirdClient) (ip : string) (w : World)
  : (option IPNet * bool * option error) * World :=
  let cmd := "show route primary for " +:+ ip in
  let '((out, err), w) := query b cmd w in
  match err with
  | Some e => ((None, false, Some e), w)
  | None =>
      if String.eqb out EmptyString then ((None, false, None), w)
      else
        match firstRoute (strings.Split out nl) with
        | Some ipNet => ((Some ipNet, true, None), w)
        | None => ((None, false, None), w)
        end
  end.

End Routes.

(** * More properties *)

(** ** The session before and without a final line *)

Lemma ReadString_none (s : string) : oneLine s = true -> ReadString s = None.
Proof.
  induction s as [|c s IH]; intros H; [reflexivity|].
  simpl in H. apply andb_prop in H as [Hc Hs]. simpl.
  destruct (Ascii.eqb c nl); [discriminate Hc|]. now rewrite (IH Hs).
Qed.

Lemma readLines_none (s cur : string) : oneLine s = true -> readLines cur s = [].
Proof.
  revert cur. induction s as [|c s IH]; intros cur H; [reflexivity|].
  simpl in H. apply andb_prop in H as [Hc Hs]. simpl.
  destruct (Ascii.eqb c nl); [discriminate Hc|]. now apply IH.
Qed.

Lemma HasPrefix_app_LF (s prefix : string) :
  oneLine prefix = true ->
  strings.HasPrefix s prefix = false ->
  strings.HasPrefix (s +:+ LF) prefix = false.
Proof.
  revert s. induction prefix as [|p prefix IH]; intros s Hp H; [discriminate H|].
  simpl in Hp. apply andb_prop in Hp as [Hp0 Hp].
  destruct s as [|c s].
  - rewrite app_empty_l. unfold LF. simpl.
    destruct (Ascii.eqb p nl); [discriminate Hp0|reflexivity].
  - rewrite app_cons. simpl in *.
    destruct (Ascii.eqb p c); [|reflexivity]. simpl in *. now apply IH.
Qed.

(** X4: the failures of [querySocket] before the response.  A refused dial
    gives the connection error naming the socket path; a banner with no
    complete line gives the error of reading the greeting; a greeting that
    does not start with [0001] gives the greeting error, which carries the
    greeting with its line feed, whatever the daemon would have answered;
    a failed write gives the send error.  The payload is empty each time. *)
Theorem querySocket_handshake_errors (socketPath command : string) (w : World) :
  (forall cause,
     endpoints w socketPath (dials w) = Refuse cause ->
     fst (querySocket socketPath command w)
     = (EmptyString, Some (ErrConnect socketPath cause)))
  /\ (forall conn,
        endpoints w socketPath (dials w) = Accept conn ->
        oneLine (banner conn) = true ->
        fst (querySocket socketPath command w)
        = (EmptyString, Some (ErrReadGreeting (read_err conn))))
  /\ (forall conn greeting early,
        endpoints w socketPath (dials w) = Accept conn ->
        banner conn = greeting +:+ LF +:+ early ->
        oneLine greeting = true ->
        strings.HasPrefix greeting "0001" = false ->
        fst (querySocket socketPath command w)
        = (EmptyString, Some (ErrGreeting (greeting +:+ LF))))
  /\ (forall conn greeting early cause,
        endpoints w socketPath (dials w) = Accept conn ->
        banner conn = greeting +:+ LF +:+ early ->
        oneLine greeting = true ->
        strings.HasPrefix greeting "0001" = true ->
        write_err conn = Some cause ->
        fst (querySocket socketPath command w)
        = (EmptyString, Some (ErrSend cause))).
Proof.
  unfold querySocket. repeat split.
  - intros cause ->. reflexivity.
  - intros conn -> Hb. now rewrite (ReadString_none _ Hb).
  - intros conn greeting early -> -> Hg Hp.
    rewrite (ReadString_line _ _ Hg).
    now rewrite (HasPrefix_app_LF greeting "0001" eq_refl Hp).
  - intros conn greeting early cause -> -> Hg Hp ->.
    rewrite (ReadString_line _ _ Hg).
    now rewrite (HasPrefix_app _ _ LF Hp).
Qed.

(** A daemon that greets with another code than [0001]. *)
Definition busySession : Session :=
  {| banner := "0002 busy" +:+ LF +:+ "0000 " +:+ LF;
     reply := fun _ => "0000 ok" +:+ LF;
     write_err := None; read_err := "EOF" |}.

Definition busyWorld : World :=
  {| endpoints := fun _ _ => Accept busySession; dials := 0 |}.

Lemma querySocket_handshake_errors_witness :
  fst (querySocket "/run/bird.ctl" "show status" busyWorld)
  = (EmptyString, Some (ErrGreeting ("0002 busy" +:+ LF))).
Proof.
  refine (proj1 (proj2 (proj2 (querySocket_handshake_errors "/run/bird.ctl"
                                 "show status" busyWorld)))
            busySession "0002 busy" ("0000 " +:+ LF)
            eq_refl eq_refl eq_refl eq_refl).
Defined.

(** X5: a response that stops before a final line is a read error: when
    the handshake succeeds and every complete line of the response keeps the
    loop reading, [querySocket] returns the read error and the empty
    payload, whatever the lines had put in the buffer; an unfinished last
    line [tail] is not looked at, even one that starts with [0000]. *)
Theorem querySocket_truncated (socketPath command : string) (w : World)
    (conn : Session) (greeting : string) (pre : list string) (tail : string) :
  endpoints w socketPath (dials w) = Accept conn ->
  banner conn = greeting +:+ LF ->
  oneLine greeting = true ->
  strings.HasPrefix greeting "0001" = true ->
  write_err conn = None ->
  reply conn (command +:+ CRLF) = wire pre +:+ tail ->
  Forall (fun l => oneLine l = true /\ final l = false) pre ->
  oneLine tail = true ->
  fst (querySocket socketPath command w)
  = (EmptyString, Some (ErrRead (read_err conn))).
Proof.
  intros He Hb Hg Hp Hw Hr Hpre Ht.
  rewrite (querySocket_handshake _ _ _ _ _ He Hb Hg Hp Hw), Hr.
  rewrite readLines_wire
    by (eapply Forall_impl; [exact Hpre|]; simpl; intros ? [? _]; assumption).
  rewrite (readLines_none _ _ Ht).
  destruct (readResponse_skip (read_err conn) pre Hpre [] EmptyString) as [o' ->].
  reflexivity.
Qed.

Lemma querySocket_truncated_witness :
  fst (querySocket "/run/bird.ctl" "show route"
         (fixedWorld (wire ["1007-10.0.0.0/8 unicast"; " via 192.0.2.1"] +:+ "0000 ")))
  = (EmptyString, Some (ErrRead "EOF")).
Proof.
  refine (querySocket_truncated "/run/bird.ctl" "show route"
            (fixedWorld (wire ["1007-10.0.0.0/8 unicast"; " via 192.0.2.1"] +:+ "0000 "))
            (fixedSession (wire ["1007-10.0.0.0/8 unicast"; " via 192.0.2.1"] +:+ "0000 "))
            "0001 BIRD 2.0.8 ready."
            ["1007-10.0.0.0/8 unicast"; " via 192.0.2.1"] "0000 "
            eq_refl eq_refl eq_refl eq_refl eq_refl eq_refl _ eq_refl).
  repeat constructor.
Defined.

(** ** The slice helpers *)

(** X6: [stringSliceToSet] keeps every element of the slice, once each;
    [stringSliceDifference] keeps the elements of the first slice that the
    second lacks and [stringSliceIntersection] those it has, and the two
    split the first slice: their lengths add up to its length. *)
Theorem stringSlice_sets (first second : list string) :
  (NoDup (stringSliceToSet first)
   /\ forall x, x ∈ stringSliceToSet first <-> x ∈ first)
  /\ (forall x, x ∈ stringSliceDifference first second <-> x ∈ first /\ x ∉ second)
  /\ (forall x, x ∈ stringSliceIntersection first second <-> x ∈ first /\ x ∈ second)
  /\ (length (stringSliceDifference first second)
      + length (stringSliceIntersection first second) = length first)%nat.
Proof.
  split; [split|split; [|split]].
  - apply NoDup_rangeKeys.
  - apply elem_of_stringSliceToSet.
  - apply elem_of_difference.
  - apply elem_of_intersection.
  - apply difference_intersection_length.
Qed.

(** ** [GetVersion] *)

Lemma Split_head (s : string) :
  exists h t tail,
    strings.Split s nl = h :: t /\ oneLine h = true
    /\ s = h +:+ tail /\ (tail = EmptyString \/ exists r, tail = String nl r).
Proof.
  induction s as [|c s (h & t & tail & Hs & Hh & Heq & Htail)].
  - exists EmptyString, [], EmptyString. repeat split. now left.
  - simpl. destruct (Ascii.eqb_spec c nl) as [->|Hc].
    + exists EmptyString, (strings.Split s nl), (String nl s).
      repeat split. right. now exists s.
    + rewrite Hs. exists (String c h), t, tail. repeat split.
      * simpl. apply Ascii.eqb_neq in Hc. now rewrite Hc, Hh.
      * now rewrite app_cons, <- Heq.
      * exact Htail.
Qed.

(** X7: the error [empty status output] of [GetVersion] never occurs, as
    [strings.Split] gives at least one piece; when the query succeeds,
    [GetVersion] returns with no error the output up to its first line feed,
    the whole output when it has none and the empty text when it is
    empty. *)
Theorem GetVersion_first_line (b : BirdClient) (w : World) :
  snd (fst (GetVersion b w)) <> Some EmptyStatusOutput
  /\ (forall out w1,
        query b "show status" w = ((out, None), w1) ->
        exists version tail,
          GetVersion b w = ((version, None), w1)
          /\ out = version +:+ tail /\ oneLine version = true
          /\ (tail = EmptyString \/ exists r, tail = String nl r)).
Proof.
  unfold GetVersion.
  destruct (query b "show status" w) as [[out [e|]] w1]; [split; [discriminate|]|].
  - intros ? ? [=].
  - destruct (Split_head out) as (h & t & tail & Hs & Hh & Heq & Htail).
    rewrite Hs. cbn [length Nat.ltb Nat.leb index nth]. split; [discriminate|].
    intros out' w1' [= <- <-]. exists h, tail. repeat split; assumption.
Qed.

Definition statusWorld : World :=
  fixedWorld (wire ["1000-BIRD 2.0.8 ready."; "1011-Router ID is 192.0.2.1";
                    "0013 Daemon is up and running"]).

Lemma GetVersion_first_line_witness :
  exists version tail,
    GetVersion {| SocketPath := "/run/bird.ctl" |} statusWorld
    = ((version, None), {| endpoints := endpoints statusWorld; dials := 1 |})
    /\ "BIRD 2.0.8 ready." +:+ LF +:+ "Router ID is 192.0.2.1" +:+ LF
         +:+ "Daemon is up and running"
       = version +:+ tail
    /\ oneLine version = true
    /\ (tail = EmptyString \/ exists r, tail = String nl r).
Proof.
  refine (proj2 (GetVersion_first_line {| SocketPath := "/run/bird.ctl" |}
                   statusWorld)
            _ _ _).
  vm_compute. reflexivity.
Defined.

(** ** [GetPeers] *)

(** The counters after [k] lines: the established sessions of a family are
    among its configured ones, and each configured one is a line. *)
Definition peersWithin (p : Peers) (k : Z) : Prop :=
  0 <= V4e p <= V4c p /\ 0 <= V6e p <= V6c p /\ V4c p + V6c p <= k.

Lemma inc32_small (n : Z) : 0 <= n -> n + 1 < 4294967296 -> inc32 n = n + 1.
Proof. intros H0 H1. unfold inc32, uint32. apply Z.mod_small. lia. Qed.

Lemma peersLine_within (p : Peers) (k : Z) (line : string) :
  peersWithin p k -> k + 1 < 4294967296 -> peersWithin (peersLine p line) (k + 1).
Proof.
  unfold peersWithin. intros (H4 & H6 & Hk) Hb. unfold peersLine.
  repeat match goal with
         | |- context [if ?c then _ else _] => destruct c
         end;
    cbn [V4c V4e V6c V6e]; rewrite ?inc32_small by lia; lia.
Qed.

Lemma fold_peersLine_within (lines : list string) (p : Peers) (k : Z) :
  peersWithin p k -> k + Z.of_nat (length lines) < 4294967296 ->
  peersWithin (fold_left peersLine lines p) (k + Z.of_nat (length lines)).
Proof.
  revert p k. induction lines as [|line lines IH]; intros p k Hp Hb.
  - simpl. now rewrite Z.add_0_r.
  - cbn [fold_left length] in *. rewrite Nat2Z.inj_succ in *.
    replace (k + Z.succ (Z.of_nat (length lines)))
      with ((k + 1) + Z.of_nat (length lines)) by lia.
    apply IH; [apply peersLine_within; [exact Hp|lia]|lia].
Qed.

(** X8: when [show protocols] answers with fewer than [2^32] lines, the
    counts of [GetPeers] satisfy, for each family, established at most
    configured, and the configured sessions of the two families together
    are at most the lines of the output. *)
Theorem GetPeers_established_le_configured (b : BirdClient) (w : World)
    (out : string) (w1 : World) :
  query b "show protocols" w = ((out, None), w1) ->
  Z.of_nat (length (strings.Split out nl)) < 4294967296 ->
  let p := fst (fst (GetPeers b w)) in
  0 <= V4e p <= V4c p /\ 0 <= V6e p <= V6c p
  /\ V4c p + V6c p <= Z.of_nat (length (strings.Split out nl)).
Proof.
  intros Hq Hb. unfold GetPeers. rewrite Hq. cbn [fst].
  apply (fold_peersLine_within _ {| V4c := 0; V4e := 0; V6c := 0; V6e := 0 |} 0);
    [unfold peersWithin; cbn; lia|lia].
Qed.

Definition protocols : string :=
  wire ["2002-Name       Proto      Table      State  Since         Info";
        "1002-bgp1_v4    BGP        ---        up     10:00:00      Established";
        " bgp2_v4    BGP        ---        start  10:00:00      Connect";
        " bgp3_v6    BGP        ---        up     10:00:00      Established";
        " device1    Device     ---        up     10:00:00      ";
        "0000 "].

Lemma GetPeers_established_le_configured_witness :
  fst (GetPeers {| SocketPath := "/run/bird.ctl" |} (fixedWorld protocols))
  = ({| V4c := 2; V4e := 1; V6c := 1; V6e := 1 |}, None)
  /\ (0 <= 1 <= 2 /\ 0 <= 1 <= 1 /\ 2 + 1 <= 5).
Proof.
  split; [vm_compute; reflexivity|].
  refine (GetPeers_established_le_configured {| SocketPath := "/run/bird.ctl" |}
            (fixedWorld protocols)
            ("Name       Proto      Table      State  Since         Info" +:+ LF
             +:+ "bgp1_v4    BGP        ---        up     10:00:00      Established" +:+ LF
             +:+ "bgp2_v4    BGP        ---        start  10:00:00      Connect" +:+ LF
             +:+ "bgp3_v6    BGP        ---        up     10:00:00      Established" +:+ LF
             +:+ "device1    Device     ---        up     10:00:00")
            {| endpoints := endpoints (fixedWorld protocols); dials := 1 |}
            _ _).
  - vm_compute. reflexivity.
  - vm_compute. reflexivity.
Defined.

(** ** [GetROA] *)

Lemma from_len_app (a b : string) : strings.from (strings.len a) (a +:+ b) = b.
Proof. induction a as [|c a IH]; [reflexivity|]. rewrite app_cons. exact IH. Qed.

(** What the last byte of the response says. *)
Definition roaStatus (c : ascii) : Z * bool :=
  if Ascii.eqb c "0" then (RUnknown, true)
  else if Ascii.eqb c "1" then (RValid, true)
  else if Ascii.eqb c "2" then (RInvalid, true)
  else (0, false).

Lemma statuses_lookup (c : ascii) :
  statuses !! String c EmptyString
  = if snd (roaStatus c) then Some (fst (roaStatus c)) else None.
Proof.
  unfold roaStatus, statuses.
  destruct (Ascii.eqb_spec c "0") as [->|H0]; [reflexivity|].
  destruct (Ascii.eqb_spec c "1") as [->|H1]; [reflexivity|].
  destruct (Ascii.eqb_spec c "2") as [->|H2]; [reflexivity|].
  rewrite !lookup_insert_ne by congruence. apply lookup_empty.
Qed.

(** X9: [GetROA] asks about the table [roa_v6] when the prefix holds a
    colon and [roa_v4] otherwise, and reads the verdict off the last byte of
    the answer alone: [0] is unknown, [1] valid, [2] invalid, each found;
    any other last byte, and the empty answer, is not found, with no
    error. *)
Theorem GetROA_last_byte (b : BirdClient) (prefix : string) (asn : Z) (w : World) :
  let cmd := "eval roa_check("
               +:+ (if strings.Contains prefix ":" then "roa_v6" else "roa_v4")
               +:+ ", " +:+ prefix +:+ ", " +:+ decimal asn +:+ ")" in
  (forall body c w1,
     query b cmd w = ((body +:+ String c EmptyString, None), w1) ->
     GetROA b prefix asn w = ((roaStatus c, None), w1))
  /\ (forall w1,
        query b cmd w = ((EmptyString, None), w1) ->
        GetROA b prefix asn w = ((0, false, None), w1)).
Proof.
  intros cmd. unfold GetROA. fold cmd. split.
  - intros body c w1 ->.
    assert (Hlen : strings.len (body +:+ String c EmptyString)
                   = S (strings.len body)).
    { rewrite len_app. unfold strings.len. simpl. lia. }
    rewrite Hlen. cbn [Nat.ltb Nat.leb]. rewrite Nat.sub_succ, Nat.sub_0_r.
    rewrite from_len_app, statuses_lookup.
    unfold roaStatus.
    repeat match goal with
           | |- context [Ascii.eqb c ?d] => destruct (Ascii.eqb c d)
           end; reflexivity.
  - intros w1 ->. reflexivity.
Qed.

Lemma GetROA_last_byte_witness :
  GetROA {| SocketPath := "/run/bird.ctl" |} "2001:db8::/32" 64496
    (scriptedWorld [("eval roa_check(roa_v6, 2001:db8::/32, 64496)",
                     wire ["0023 (enum 35)2"])])
  = ((RInvalid, true, None),
     {| endpoints :=
          endpoints (scriptedWorld [("eval roa_check(roa_v6, 2001:db8::/32, 64496)",
                                     wire ["0023 (enum 35)2"])]);
        dials := 1 |}).
Proof.
  refine (proj1 (GetROA_last_byte {| SocketPath := "/run/bird.ctl" |}
                   "2001:db8::/32" 64496 _)
            "(enum 35)" "2"%char _ _).
  vm_compute. reflexivity.
Defined.

(** ** [GetMasks] *)

(** The mask a line adds to the histogram, if any: the second of the two
    parts its first token splits into at the slash. *)
Definition maskOf (line : string) : option string :=
  let fields := strings.Fields line in
  if (0 <? length fields)%nat && strings.Contains (index fields 0) "/" then
    let parts := strings.Split (index fields 0) "/" in
    if (length parts =? 2)%nat then Some (index parts 1) else None
  else None.

(** The number of lines that add the mask [k]. *)
Fixpoint countMask (k : string) (lines : list string) : Z :=
  match lines with
  | [] => 0
  | line :: rest =>
      (if decide (maskOf line = Some k) then 1 else 0) + countMask k rest
  end.

(** The entry of the histogram for [k] after the lines. *)
Definition histogram (lines : list string) (k : string) : option Z :=
  if countMask k lines =? 0 then None else Some (uint32 (countMask k lines)).

Lemma masksLine_maskOf (v : gmap string Z) (line : string) :
  masksLine v line
  = match maskOf line with
    | Some k => <[k := inc32 (default 0 (v !! k))]> v
    | None => v
    end.
Proof.
  unfold masksLine, maskOf.
  destruct (_ && _); [|reflexivity]. now destruct (_ =? 2)%nat.
Qed.

Lemma countMask_nonneg (k : string) (lines : list string) : 0 <= countMask k lines.
Proof.
  induction lines as [|line lines IH]; simpl; [lia|].
  destruct (decide (maskOf line = Some k)); lia.
Qed.

Lemma fold_masksLine_lookup (lines : list string) (v : gmap string Z) (k : string) :
  fold_left masksLine lines v !! k
  = if countMask k lines =? 0 then v !! k
    else Some (uint32 (default 0 (v !! k) + countMask k lines)).
Proof.
  revert v. induction lines as [|line lines IH]; intros v; [reflexivity|].
  cbn [fold_left countMask]. rewrite IH, masksLine_maskOf.
  pose proof (countMask_nonneg k lines) as Hn.
  destruct (decide (maskOf line = Some k)) as [Hm|Hm].
  - rewrite Hm, lookup_insert_eq. cbn [from_option id].
    destruct (Z.eqb_spec (countMask k lines) 0) as [->|Hc].
    + reflexivity.
    + destruct (Z.eqb_spec (1 + countMask k lines) 0); [lia|].
      unfold inc32, uint32. rewrite Zplus_mod_idemp_l.
      do 2 f_equal. lia.
  - replace (0 + countMask k lines) with (countMask k lines) by lia.
    destruct (maskOf line) as [k'|]; [|reflexivity].
    rewrite lookup_insert_ne by congruence. reflexivity.
Qed.

Lemma maskOf_one_slash (line a k : string) (others : list string) :
  strings.Fields line = (a +:+ "/" +:+ k) :: others ->
  hasByte "/" a = false -> hasByte "/" k = false ->
  maskOf line = Some k.
Proof.
  intros Hf Ha Hk. unfold maskOf. rewrite Hf. cbn [length Nat.ltb Nat.leb index nth andb].
  change (a +:+ "/" +:+ k) with (a +:+ String "/" k).
  rewrite Contains_byte, (Split_one _ _ _ Ha Hk). reflexivity.
Qed.

(** X10: when both queries succeed, [GetMasks] returns the histogram of
    [master4] and then that of [master6]; the entry of a mask in a
    histogram is the number of lines of the output that add it, as a
    [uint32], and a mask no line adds has no entry.  A line adds the mask
    [k] when its first token is [a/k] with no other slash. *)
Theorem GetMasks_histogram (b : BirdClient) (w : World) :
  (forall out4 w1 out6 w2,
     query b "show route primary table master4" w = ((out4, None), w1) ->
     query b "show route primary table master6" w1 = ((out6, None), w2) ->
     exists v4 v6,
       GetMasks b w = (([v4; v6], None), w2)
       /\ (forall k, v4 !! k = histogram (strings.Split out4 nl) k)
       /\ (forall k, v6 !! k = histogram (strings.Split out6 nl) k))
  /\ (forall line a k others,
        strings.Fields line = (a +:+ "/" +:+ k) :: others ->
        hasByte "/" a = false -> hasByte "/" k = false ->
        maskOf line = Some k).
Proof.
  split; [|exact maskOf_one_slash].
  intros out4 w1 out6 w2 H4 H6. unfold GetMasks. rewrite H4, H6.
  eexists _, _. split; [reflexivity|].
  split; intros k; rewrite fold_masksLine_lookup, lookup_empty; reflexivity.
Qed.

Lemma GetMasks_histogram_witness :
  (exists v4 v6,
     GetMasks {| SocketPath := "/run/bird.ctl" |} (scriptedWorld listings)
     = (([v4; v6], None),
        {| endpoints := endpoints (scriptedWorld listings); dials := 2 |})
     /\ v4 !! "24" = Some 3 /\ v4 !! "22" = Some 1 /\ v6 !! "32" = Some 3)
  /\ maskOf "8.8.8.0/24 unicast" = Some "24".
Proof.
  split.
  - destruct (proj1 (GetMasks_histogram {| SocketPath := "/run/bird.ctl" |}
                       (scriptedWorld listings))
                (strings.TrimSpace
                   (wire ["1.0.0.0/24 unicast [bgp1 10:00:00] * (100) [AS13335i]";
                          "1.0.4.0/22 unicast [bgp1 10:00:00] * (100) [AS38803i]";
                          "8.8.8.0/24 unicast [bgp1 10:00:00] * (100) [AS15169i]";
                          "8.8.4.0/24 unicast [bgp1 10:00:00] * (100) [AS15169i]"]))
                {| endpoints := endpoints (scriptedWorld listings); dials := 1 |}
                (strings.TrimSpace
                   (wire ["2001:4860::/32 unicast [bgp2 10:00:00] * (100) [AS15169i]";
                          "2400:cb00::/32 unicast [bgp2 10:00:00] * (100) [AS13335i]";
                          "2001:db8::/32 unicast [bgp2 10:00:00] * (100) [AS64496e]"]))
                {| endpoints := endpoints (scriptedWorld listings); dials := 2 |})
      as (v4 & v6 & Hg & H4 & H6); [vm_compute; reflexivity..|].
    exists v4, v6. split; [exact Hg|].
    rewrite !H4, H6. vm_compute. repeat split.
  - refine (proj2 (GetMasks_histogram {| SocketPath := "/run/bird.ctl" |}
                     (scriptedWorld listings))
              "8.8.8.0/24 unicast" "8.8.8.0" "24" ["unicast"] _ _ _);
      vm_compute; reflexivity.
Defined.

(** ** [GetRoute], [GetIPv4FromSource], [GetIPv6FromSource] *)

Lemma Contains_hasByte (c : ascii) (s : string) :
  strings.Contains s (String c EmptyString) = hasByte c s.
Proof.
  induction s as [|d s IH]; [reflexivity|].
  simpl. now rewrite IH, andb_true_r, (Ascii.eqb_sym c d).
Qed.

Lemma fieldsFrom_hasByte (c : ascii) (s : string) :
  hasByte c s = false -> forall skip cur, hasByte c cur = false ->
  Forall (fun tok => hasByte c tok = false) (strings.fieldsFrom skip cur s).
Proof.
  assert (Hflush : forall cur, hasByte c cur = false ->
                     Forall (fun tok => hasByte c tok = false) (strings.flush cur)).
  { intros [|d cur] H; simpl; [constructor|]. constructor; [exact H|constructor]. }
  induction s as [|x s IH]; intros Hs skip cur Hcur; [now apply Hflush|].
  simpl in Hs. apply orb_false_elim in Hs as [Hx Hs].
  change (strings.fieldsFrom skip cur (String x s))
    with (match skip with
          | S k => strings.fieldsFrom k cur s
          | O => match strings.spaceWidth (String x s) with
                 | O => strings.fieldsFrom O (cur +:+ String x EmptyString) s
                 | S w => strings.flush cur ++ strings.fieldsFrom w EmptyString s
                 end
          end).
  destruct skip as [|k]; [|now apply IH].
  destruct (strings.spaceWidth (String x s)) as [|w].
  - apply IH; [exact Hs|]. rewrite hasByte_app, Hcur. simpl. now rewrite Hx.
  - apply Forall_app. split; [now apply Hflush|]. now apply IH.
Qed.

Lemma Split_hasByte (c sep : ascii) (s : string) :
  hasByte c s = false ->
  Forall (fun line => hasByte c line = false) (strings.Split s sep).
Proof.
  induction s as [|d s IH]; intros H; [repeat constructor|].
  simpl in H. apply orb_false_elim in H as [Hd Hs]. specialize (IH Hs). simpl.
  destruct (Ascii.eqb d sep); [now constructor|].
  destruct (strings.Split s sep) as [|p ps]; [repeat constructor; simpl; now rewrite Hd|].
  apply Forall_cons in IH as [Hp Hps]. constructor; [|exact Hps].
  simpl. now rewrite Hd, Hp.
Qed.

(** A line of which no token holds the byte [c] has no first token that
    contains it. *)
Lemma first_token_lacks (c : ascii) (line : string) :
  hasByte c line = false ->
  (0 <? length (strings.Fields line))%nat
  && strings.Contains (index (strings.Fields line) 0) (String c EmptyString) = false.
Proof.
  intros H. pose proof (fieldsFrom_hasByte c line H 0%nat EmptyString eq_refl) as Hf.
  fold (strings.Fields line) in Hf.
  destruct (strings.Fields line) as [|tok toks]; [reflexivity|].
  apply Forall_cons in Hf as [Htok _].
  cbn [length Nat.ltb Nat.leb index nth andb]. now rewrite Contains_hasByte.
Qed.

Section RouteLines.

Variable IPNet : Type.
Variable ParseCIDR : string -> option IPNet.

(** The network [n] is what [net.ParseCIDR] makes of the first token of one
    of the lines, a token with a slash. *)
Definition parsedFrom (lines : list string) (n : IPNet) : Prop :=
  exists line tok others,
    line ∈ lines /\ strings.Fields line = tok :: others
    /\ strings.Contains tok "/" = true /\ ParseCIDR tok = Some n.

Lemma parsedFrom_cons (line : string) (lines : list string) (n : IPNet) :
  parsedFrom lines n -> parsedFrom (line :: lines) n.
Proof.
  intros (l & tok & others & Hin & H). exists l, tok, others.
  split; [now right|exact H].
Qed.

Lemma firstRoute_none (lines : list string) :
  Forall (fun line => hasByte "/" line = false) lines ->
  firstRoute IPNet ParseCIDR lines = None.
Proof.
  induction 1 as [|line lines Hl _ IH]; [reflexivity|].
  cbn [firstRoute]. now rewrite (first_token_lacks "/" line Hl).
Qed.

Lemma firstRoute_some (lines : list string) (n : IPNet) :
  firstRoute IPNet ParseCIDR lines = Some n -> parsedFrom lines n.
Proof.
  induction lines as [|line lines IH]; [discriminate|].
  cbn [firstRoute].
  destruct (strings.Fields line) as [|tok others] eqn:Hf;
    [intros H; apply parsedFrom_cons, IH, H|].
  cbn [length Nat.ltb Nat.leb index nth andb].
  destruct (strings.Contains tok "/") eqn:Hc;
    [|intros H; apply parsedFrom_cons, IH, H].
  destruct (ParseCIDR tok) as [m|] eqn:Hp;
    [|intros H; apply parsedFrom_cons, IH, H].
  intros [= ->]. exists line, tok, others. split; [now left|]. now repeat split.
Qed.

(** X11: an answer with no slash in it, such as [Network not in table], is
    for [GetRoute] a route not found and no error; and a network it does
    return is what [net.ParseCIDR] makes of the first token of a line of the
    answer. *)
Theorem GetRoute_found_or_not (b : BirdClient) (ip : string) (w : World)
    (out : string) (w1 : World) :
  query b ("show route primary for " +:+ ip) w = ((out, None), w1) ->
  (hasByte "/" out = false ->
   GetRoute IPNet ParseCIDR b ip w = ((None, false, None), w1))
  /\ (forall n,
        GetRoute IPNet ParseCIDR b ip w = ((Some n, true, None), w1) ->
        parsedFrom (strings.Split out nl) n).
Proof.
  intros Hq. unfold GetRoute. rewrite Hq. split.
  - intros Hs. destruct (String.eqb out EmptyString); [reflexivity|].
    now rewrite (firstRoute_none _ (Split_hasByte "/" nl out Hs)).
  - intros n. destruct (String.eqb out EmptyString); [discriminate|].
    destruct (firstRoute IPNet ParseCIDR (strings.Split out nl)) as [m|] eqn:Hf;
      [|discriminate].
    intros [= ->]. now apply firstRoute_some.
Qed.

Lemma extractPrefixesFrom_sound (lines : list string) (ips : list IPNet) :
  (length (extractPrefixesFrom IPNet ParseCIDR lines ips)
   <= length ips + length lines)%nat
  /\ forall n, n ∈ extractPrefixesFrom IPNet ParseCIDR lines ips ->
               n ∈ ips \/ parsedFrom lines n.
Proof.
  revert ips. induction lines as [|line lines IH]; intros ips.
  - simpl. split; [lia|]. intros n H. now left.
  - cbn [extractPrefixesFrom length].
    assert (Hskip : (length (extractPrefixesFrom IPNet ParseCIDR lines ips)
                     <= length ips + S (length lines))%nat
                    /\ forall n, n ∈ extractPrefixesFrom IPNet ParseCIDR lines ips ->
                                 n ∈ ips \/ parsedFrom (line :: lines) n).
    { destruct (IH ips) as [Hl Hin]. split; [lia|].
      intros n H. destruct (Hin n H) as [?|?]; [now left|right].
      now apply parsedFrom_cons. }
    destruct (strings.Fields line) as [|tok others] eqn:Hf; [exact Hskip|].
    cbn [length Nat.ltb Nat.leb index nth andb].
    destruct (strings.Contains tok "/") eqn:Hc; [|exact Hskip].
    destruct (ParseCIDR tok) as [m|] eqn:Hp; [|exact Hskip].
    destruct (IH (ips ++ [m])) as [Hl Hin]. rewrite length_app in Hl. simpl in Hl.
    split; [lia|].
    intros n H. destruct (Hin n H) as [Hn|Hn].
    + apply elem_of_app in Hn as [Hn|Hn]; [now left|right].
      apply list_elem_of_singleton in Hn as ->.
      exists line, tok, others. split; [now left|]. now repeat split.
    + right. now apply parsedFrom_cons.
Qed.

(** X12: when its query succeeds, [GetIPv4FromSource] returns no error and
    a list of networks no longer than the output has lines, each of which is
    what [net.ParseCIDR] makes of the first token of a line; a line whose
    first token does not parse is passed over.  The same holds for
    [GetIPv6FromSource]. *)
Theorem GetIPFromSource_prefixes (b : BirdClient) (asn : Z) (w : World) :
  (forall out w1,
     query b ("show route primary table master4 where bgp_path ~ [= * "
                +:+ decimal asn +:+ " =]") w = ((out, None), w1) ->
     exists nets,
       GetIPv4FromSource IPNet ParseCIDR b asn w = ((nets, None), w1)
       /\ (length nets <= length (strings.Split out nl))%nat
       /\ forall n, n ∈ nets -> parsedFrom (strings.Split out nl) n)
  /\ (forall out w1,
        query b ("show route primary table master6 where bgp_path ~ [= * "
                   +:+ decimal asn +:+ " =]") w = ((out, None), w1) ->
        exists nets,
          GetIPv6FromSource IPNet ParseCIDR b asn w = ((nets, None), w1)
          /\ (length nets <= length (strings.Split out nl))%nat
          /\ forall n, n ∈ nets -> parsedFrom (strings.Split out nl) n).
Proof.
  split; intros out w1 Hq;
    [unfold GetIPv4FromSource|unfold GetIPv6FromSource]; rewrite Hq;
    (eexists; split; [reflexivity|]);
    destruct (extractPrefixesFrom_sound (strings.Split out nl) []) as [Hl Hin];
    (split; [exact Hl|]);
    intros n Hn; (destruct (Hin n Hn) as [H|H]; [inversion H|exact H]).
Qed.

End RouteLines.

Definition notInTable : World := fixedWorld (wire ["0000 Network not in table"]).

Lemma GetRoute_found_or_not_witness :
  GetRoute (string * Z) slashCIDR {| SocketPath := "/run/bird.ctl" |} "192.0.2.1"
    notInTable
  = ((None, false, None), {| endpoints := endpoints notInTable; dials := 1 |}).
Proof.
  refine (proj1 (GetRoute_found_or_not (string * Z) slashCIDR
                   {| SocketPath := "/run/bird.ctl" |} "192.0.2.1" notInTable
                   "Network not in table"
                   {| endpoints := endpoints notInTable; dials := 1 |} _) _);
    vm_compute; reflexivity.
Defined.

Definition fromGoogle : World :=
  scriptedWorld
    [("show route primary table master4 where bgp_path ~ [= * 15169 =]",
      wire ["1007-Table master4:";
            " 8.8.8.0/24 unicast [bgp1 10:00:00] * (100) [AS15169i]";
            " 8.8.4.0/x unicast [bgp1 10:00:00] * (100) [AS15169i]";
            "0000 "])].

Lemma GetIPFromSource_prefixes_witness :
  exists nets,
    GetIPv4FromSource (string * Z) slashCIDR {| SocketPath := "/run/bird.ctl" |}
      15169 fromGoogle
    = ((nets, None), {| endpoints := endpoints fromGoogle; dials := 1 |})
    /\ (length nets <= 3)%nat.
Proof.
  destruct (proj1 (GetIPFromSource_prefixes (string * Z) slashCIDR
                     {| SocketPath := "/run/bird.ctl" |} 15169 fromGoogle)
              ("Table master4:" +:+ LF
               +:+ "8.8.8.0/24 unicast [bgp1 10:00:00] * (100) [AS15169i]" +:+ LF
               +:+ "8.8.4.0/x unicast [bgp1 10:00:00] * (100) [AS15169i]")
              {| endpoints := endpoints fromGoogle; dials := 1 |})
    as (nets & Hg & Hl & _); [vm_compute; reflexivity|].
  exists nets. split; [exact Hg|].
  replace 3%nat
    with (length (strings.Split
                    ("Table master4:" +:+ LF
                     +:+ "8.8.8.0/24 unicast [bgp1 10:00:00] * (100) [AS15169i]" +:+ LF
                     +:+ "8.8.4.0/x unicast [bgp1 10:00:00] * (100) [AS15169i]") nl))
    by (vm_compute; reflexivity).
  exact Hl.
Defined.

(** ** Decimal numbers, written and read back *)

Lemma rev_app_rev_app (s t u : string) :
  String.rev_app (String.rev_app s t) u = String.rev_app t (s +:+ u).
Proof.
  revert t u. induction s as [|c s IH]; intros t u; [reflexivity|].
  simpl. rewrite IH. reflexivity.
Qed.

Lemma rev_rev (s : string) : String.rev (String.rev s) = s.
Proof. unfold String.rev. rewrite rev_app_rev_app. simpl. apply app_empty_r. Qed.

Lemma rev_app_app (a b t : string) :
  String.rev_app (a +:+ b) t = String.rev_app b (String.rev_app a t).
Proof.
  revert t. induction a as [|c a IH]; intros t; [reflexivity|].
  rewrite app_cons. simpl. apply IH.
Qed.

Lemma rev_app_tail (s t : string) : String.rev_app s t = String.rev s +:+ t.
Proof.
  unfold String.rev. revert t. induction s as [|c s IH]; intros t; [reflexivity|].
  simpl. rewrite (IH (String c t)), (IH (String c EmptyString)).
  now rewrite app_assoc_s.
Qed.

Lemma rev_append (a b : string) :
  String.rev (a +:+ b) = String.rev b +:+ String.rev a.
Proof.
  unfold String.rev at 1. rewrite rev_app_app. apply rev_app_tail.
Qed.

(** A digit is no white space and no byte of a white-space rune. *)
Lemma digit_plain (c : ascii) :
  isDigit c = true ->
  strings.asciiSpace c = false
  /\ (forall d, strings.space2 c d = false)
  /\ (forall d, strings.space2 d c = false)
  /\ (forall d e, strings.space3 c d e = false)
  /\ (forall d e, strings.space3 e d c = false).
Proof.
  intros H.
  destruct c as [[] [] [] [] [] [] [] []]; try discriminate H;
    (split; [reflexivity|]); repeat split; intros;
    unfold strings.space2, strings.space3; simpl;
    rewrite ?andb_false_r, ?orb_false_r; reflexivity.
Qed.

Lemma rev_app_digits (s t : string) :
  hasNonDigit s = false -> s <> EmptyString ->
  exists c r, String.rev_app s t = String c r /\ isDigit c = true.
Proof.
  revert t. induction s as [|c s IH]; intros t H Hne; [contradiction|].
  simpl in H. apply orb_false_elim in H as [Hc Hs]. apply negb_false_iff in Hc.
  destruct s as [|d s'].
  - exists c, t. now split.
  - simpl. apply (IH (String c t) Hs). discriminate.
Qed.

(** [strings.TrimSpace] leaves a run of digits as it is. *)
Lemma TrimSpace_digits (s : string) :
  hasNonDigit s = false -> strings.TrimSpace s = s.
Proof.
  intros H. destruct s as [|c s]; [reflexivity|].
  assert (Hc : isDigit c = true).
  { simpl in H. apply orb_false_elim in H as [Hc _]. now apply negb_false_iff in Hc. }
  unfold strings.TrimSpace.
  assert (Hl : strings.trimLeftSpace 0 (String c s) = String c s).
  { destruct (digit_plain c Hc) as (Ha & H2 & _ & H3 & _).
    cbn [strings.trimLeftSpace strings.spaceWidth]. rewrite Ha.
    destruct s as [|d [|e s']]; [reflexivity|now rewrite H2|now rewrite H2, H3]. }
  rewrite Hl.
  destruct (rev_app_digits (String c s) EmptyString H) as (x & r & Hr & Hx);
    [discriminate|].
  fold (String.rev (String c s)) in Hr.
  assert (Hrt : strings.trimLeftSpaceRev 0 (String x r) = String x r).
  { destruct (digit_plain x Hx) as (Ha & _ & H2 & _ & H3).
    cbn [strings.trimLeftSpaceRev strings.spaceWidthRev]. rewrite Ha.
    destruct r as [|d [|e r']]; [reflexivity|now rewrite H2|now rewrite H2, H3]. }
  rewrite Hr, Hrt, <- Hr. apply rev_rev.
Qed.

Lemma string_of_uint_digits (d : Decimal.uint) :
  hasNonDigit (NilEmpty.string_of_uint d) = false.
Proof. induction d; simpl; try exact IHd; reflexivity. Qed.

Lemma valueFrom_of_uint_acc (d : Decimal.uint) (acc : positive) :
  valueFrom (Z.pos acc) (NilEmpty.string_of_uint d) = Z.pos (Pos.of_uint_acc d acc).
Proof.
  revert acc. induction d; intros acc; cbn [NilEmpty.string_of_uint valueFrom Pos.of_uint_acc];
    [reflexivity|..]; rewrite <- IHd; f_equal;
    match goal with
    | |- context [nat_of_ascii ?c] =>
        let v := eval vm_compute in (nat_of_ascii c) in
        change (nat_of_ascii c) with v
    end; lia.
Qed.

Lemma valueFrom_of_uint (d : Decimal.uint) :
  valueFrom 0 (NilEmpty.string_of_uint d) = Z.of_N (Pos.of_uint d).
Proof.
  induction d; cbn [NilEmpty.string_of_uint valueFrom Pos.of_uint];
    [reflexivity|exact IHd|..];
    cbn [Z.of_N]; rewrite <- valueFrom_of_uint_acc; reflexivity.
Qed.

Lemma decimal_NilEmpty (n : Z) :
  decimal n = NilEmpty.string_of_uint (N.to_uint (Z.to_N n)).
Proof.
  unfold decimal, NilZero.string_of_uint.
  destruct (Z.to_N n) as [|p]; [reflexivity|].
  simpl. pose proof (DecimalPos.Unsigned.to_uint_nonnil p) as Hp.
  now destruct (Pos.to_uint p).
Qed.

Lemma decimal_digits (n : Z) : hasNonDigit (decimal n) = false.
Proof. rewrite decimal_NilEmpty. apply string_of_uint_digits. Qed.

Lemma decimal_not_empty (n : Z) : decimal n <> EmptyString.
Proof.
  rewrite decimal_NilEmpty. destruct (Z.to_N n) as [|p]; [discriminate|].
  simpl. pose proof (DecimalPos.Unsigned.to_uint_nonnil p) as Hp.
  destruct (Pos.to_uint p); try discriminate. contradiction.
Qed.

Lemma decimalValue_decimal (n : Z) : 0 <= n -> decimalValue (decimal n) = n.
Proof.
  intros Hn. unfold decimalValue. rewrite decimal_NilEmpty, valueFrom_of_uint.
  change (Pos.of_uint (N.to_uint (Z.to_N n))) with (N.of_uint (N.to_uint (Z.to_N n))).
  rewrite DecimalN.Unsigned.of_to. lia.
Qed.

(** A count below [2^32] in decimal is read back as it was written. *)
Lemma stringToUint32_written (n : Z) :
  0 <= n < 4294967296 -> stringToUint32 (decimal n) = n.
Proof.
  intros Hn. rewrite stringToUint32_value; rewrite TrimSpace_digits by apply decimal_digits.
  - apply decimalValue_decimal. lia.
  - apply decimal_not_empty.
  - apply decimal_digits.
  - rewrite decimalValue_decimal; lia.
Qed.

(** [strconv.Atoi] reads it too. *)
Lemma Atoi_written (n : Z) :
  0 <= n < 4294967296 -> strconv.Atoi (decimal n) = Some n.
Proof.
  intros Hn. unfold strconv.Atoi.
  pose proof (decimal_digits n) as Hd. pose proof (decimal_not_empty n) as Hne.
  pose proof (decimalValue_decimal n (proj1 Hn)) as Hv. unfold decimalValue in Hv.
  destruct (decimal n) as [|c s] eqn:E; [contradiction|].
  assert (Hc : isDigit c = true).
  { simpl in Hd. apply orb_false_elim in Hd as [Hc _]. now apply negb_false_iff in Hc. }
  assert (Hsign : c <> "-"%char /\ c <> "+"%char).
  { split; intros ->; discriminate Hc. }
  destruct Hsign as [Hm Hp].
  assert (Hbody : (let '(neg, body) :=
                     match String c s with
                     | String "-" s' => (true, s')
                     | String "+" s' => (false, s')
                     | _ => (false, String c s)
                     end in (neg, body)) = (false, String c s)).
  { destruct c as [[] [] [] [] [] [] [] []]; try reflexivity; congruence. }
  destruct c as [[] [] [] [] [] [] [] []]; try discriminate Hc;
    rewrite digits_valueFrom, Hd, Hv;
    (destruct (Z.leb_spec (-9223372036854775808) n); [|lia]);
    (destruct (Z.leb_spec n 9223372036854775807); [|lia]); reflexivity.
Qed.

(** X13: a [uint32] written in decimal, as [fmt.Sprintf("%d")] writes the
    ASN of a command and as the daemon writes its counts, is read back by
    [stringToUint32] as the same number, and [strconv.Atoi] reads it too. *)
Theorem stringToUint32_decimal (n : Z) :
  0 <= n < 4294967296 ->
  stringToUint32 (decimal n) = n /\ strconv.Atoi (decimal n) = Some n.
Proof.
  intros Hn. split; [now apply stringToUint32_written|now apply Atoi_written].
Qed.

Lemma stringToUint32_decimal_witness :
  stringToUint32 (decimal 2076414) = 2076414
  /\ strconv.Atoi (decimal 2076414) = Some 2076414.
Proof. apply (stringToUint32_decimal 2076414). lia. Defined.

(** ** The pattern of the totals on the text the daemon prints *)

Fixpoint allBytes (p : ascii -> bool) (s : string) : bool :=
  match s with
  | EmptyString => true
  | String c s' => p c && allBytes p s'
  end.

(** The text does not go on with a byte of the class. *)
Definition stopsClass (p : ascii -> bool) (s : string) : bool :=
  match s with
  | EmptyString => true
  | String c _ => negb (p c)
  end.

Lemma run_Plus_cons {A : Type} (p : ascii -> bool) (c : ascii) (s : string)
    (caps : list string) (k : string -> list string -> option A) :
  regexp.run (regexp.Plus p) (String c s) caps k
  = if p c then
      match regexp.run (regexp.Plus p) s caps k with
      | Some x => Some x
      | None => k s caps
      end
    else None.
Proof. reflexivity. Qed.

Lemma run_Plus_stop {A : Type} (p : ascii -> bool) (s : string)
    (caps : list string) (k : string -> list string -> option A) :
  stopsClass p s = true -> regexp.run (regexp.Plus p) s caps k = None.
Proof.
  destruct s as [|c s]; [reflexivity|]. simpl. intros H.
  apply negb_true_iff in H. now rewrite H.
Qed.

(** The greedy [c+] takes the whole run when the rest of the pattern
    matches behind it. *)
Lemma run_Plus_all {A : Type} (p : ascii -> bool) (n rest : string)
    (caps : list string) (k : string -> list string -> option A) (x : A) :
  allBytes p n = true -> n <> EmptyString -> stopsClass p rest = true ->
  k rest caps = Some x ->
  regexp.run (regexp.Plus p) (n +:+ rest) caps k = Some x.
Proof.
  intros Hn Hne Hr Hk. induction n as [|c n IH]; [contradiction|].
  simpl in Hn. apply andb_prop in Hn as [Hc Hn].
  rewrite app_cons, run_Plus_cons, Hc.
  destruct n as [|d n'].
  - rewrite app_empty_l, (run_Plus_stop p rest caps k Hr). exact Hk.
  - rewrite IH; [reflexivity|exact Hn|discriminate].
Qed.

Lemma run_lit {A : Type} (word s : string) (caps : list string)
    (k : string -> list string -> option A) :
  regexp.run (regexp.lit word) (word +:+ s) caps k = k s caps.
Proof.
  induction word as [|c word IH]; [reflexivity|].
  rewrite app_cons. cbn [regexp.lit regexp.run]. now rewrite Ascii.eqb_refl.
Qed.

Lemma consumed_app (n rest : string) : regexp.consumed (n +:+ rest) rest = n.
Proof.
  unfold regexp.consumed. rewrite len_app.
  replace (strings.len n + strings.len rest - strings.len rest)%nat
    with (strings.len n) by lia.
  induction n as [|c n IH]; [now destruct rest|].
  rewrite app_cons. unfold strings.len in *. simpl. now rewrite IH.
Qed.

Lemma allBytes_digits (n : string) :
  hasNonDigit n = false -> allBytes regexp.d n = true.
Proof.
  induction n as [|c n IH]; [reflexivity|]. simpl. intros H.
  apply orb_false_elim in H as [Hc Hn]. apply negb_false_iff in Hc.
  change (regexp.d c) with (isDigit c). now rewrite Hc, IH.
Qed.

Lemma stopsClass_digits (n rest : string) :
  hasNonDigit n = false -> n <> EmptyString ->
  stopsClass regexp.s (n +:+ rest) = true.
Proof.
  intros H Hne. destruct n as [|c n]; [contradiction|].
  simpl in H. apply orb_false_elim in H as [Hc _]. apply negb_false_iff in Hc.
  rewrite app_cons. simpl.
  destruct c as [[] [] [] [] [] [] [] []]; try discriminate Hc; reflexivity.
Qed.

Lemma FindStringSubmatch_here (r : regexp.re) (s : string) (m : list string) :
  regexp.run r s [] (fun rest caps => Some (regexp.consumed s rest :: caps)) = Some m ->
  regexp.FindStringSubmatch r s = m.
Proof. intros H. destruct s; simpl; now rewrite H. Qed.

Section Segments.

Context {A : Type}.
Implicit Types (r : regexp.re) (k : string -> list string -> option A) (x : A).

Lemma seg_group_digits r (n rest : string) (caps : list string) k x :
  hasNonDigit n = false -> n <> EmptyString -> stopsClass regexp.d rest = true ->
  regexp.run r rest (caps ++ [n]) k = Some x ->
  regexp.run (regexp.Cat (regexp.Group (regexp.Plus regexp.d)) r)
    (n +:+ rest) caps k = Some x.
Proof.
  intros Hn Hne Hs Hk. cbn [regexp.run].
  change ((fix many (s : string) : option A := _) (n +:+ rest))
    with (regexp.run (regexp.Plus regexp.d) (n +:+ rest) caps
            (fun s1 caps1 =>
               regexp.run r s1 (caps1 ++ [regexp.consumed (n +:+ rest) s1]) k)).
  apply run_Plus_all; [now apply allBytes_digits|exact Hne|exact Hs|].
  now rewrite consumed_app.
Qed.

Lemma seg_digits r (n rest : string) (caps : list string) k x :
  hasNonDigit n = false -> n <> EmptyString -> stopsClass regexp.d rest = true ->
  regexp.run r rest caps k = Some x ->
  regexp.run (regexp.Cat (regexp.Plus regexp.d) r) (n +:+ rest) caps k = Some x.
Proof.
  intros Hn Hne Hs Hk. cbn [regexp.run].
  change ((fix many (s : string) : option A := _) (n +:+ rest))
    with (regexp.run (regexp.Plus regexp.d) (n +:+ rest) caps
            (fun s1 caps1 => regexp.run r s1 caps1 k)).
  apply run_Plus_all; [now apply allBytes_digits|exact Hne|exact Hs|exact Hk].
Qed.

Lemma seg_space r (rest : string) (caps : list string) k x :
  stopsClass regexp.s rest = true ->
  regexp.run r rest caps k = Some x ->
  regexp.run (regexp.Cat (regexp.Plus regexp.s) r) (" " +:+ rest) caps k = Some x.
Proof.
  intros Hs Hk. cbn [regexp.run].
  change ((fix many (s : string) : option A := _) (" " +:+ rest))
    with (regexp.run (regexp.Plus regexp.s) (" " +:+ rest) caps
            (fun s1 caps1 => regexp.run r s1 caps1 k)).
  apply run_Plus_all; [reflexivity|discriminate|exact Hs|exact Hk].
Qed.

Lemma seg_lit r (word rest : string) (caps : list string) k x :
  regexp.run r rest caps k = Some x ->
  regexp.run (regexp.Cat (regexp.lit word) r) (word +:+ rest) caps k = Some x.
Proof.
  intros Hk. cbn [regexp.run].
  change (regexp.run (regexp.lit word) (word +:+ rest) caps
            (fun s1 caps1 => regexp.run r s1 caps1 k) = Some x).
  now rewrite run_lit.
Qed.

End Segments.

(** A line of [show route count], as the daemon prints it for a table. *)
Definition countText (a b c : Z) (table : string) : string :=
  decimal a +:+ " of " +:+ decimal b +:+ " routes for " +:+ decimal c
    +:+ " networks in table " +:+ table.

Lemma totalsRe_countText (a b c : Z) (table : string) :
  exists whole,
    regexp.FindStringSubmatch totalsRe (countText a b c table)
    = [whole; decimal a; decimal c].
Proof.
  eexists. apply FindStringSubmatch_here. unfold totalsRe, countText.
  cbn [regexp.seq].
  change (" of " +:+ decimal b +:+ " routes for " +:+ decimal c
            +:+ " networks in table " +:+ table)
    with (" " +:+ "of" +:+ " " +:+ decimal b +:+ " " +:+ "routes" +:+ " "
            +:+ "for" +:+ " " +:+ decimal c +:+ " " +:+ "networks"
            +:+ " in table " +:+ table).
  apply seg_group_digits;
    [apply decimal_digits|apply decimal_not_empty|reflexivity|].
  apply seg_space; [reflexivity|]. apply seg_lit.
  apply seg_space; [apply stopsClass_digits;
                    [apply decimal_digits|apply decimal_not_empty]|].
  apply seg_digits; [apply decimal_digits|apply decimal_not_empty|reflexivity|].
  apply seg_space; [reflexivity|]. apply seg_lit.
  apply seg_space; [reflexivity|]. apply seg_lit.
  apply seg_space; [apply stopsClass_digits;
                    [apply decimal_digits|apply decimal_not_empty]|].
  apply seg_group_digits;
    [apply decimal_digits|apply decimal_not_empty|reflexivity|].
  apply seg_space; [reflexivity|]. apply seg_lit.
  cbn [regexp.run app]. reflexivity.
Qed.

Lemma Contains_skip (c m : ascii) (rest sub : string) :
  Ascii.eqb m c = false ->
  strings.Contains (String c rest) (String m sub) = strings.Contains rest (String m sub).
Proof. intros H. simpl. now rewrite H. Qed.

Lemma Contains_digits (n rest : string) (m : ascii) (sub : string) :
  hasNonDigit n = false -> isDigit m = false ->
  strings.Contains (n +:+ rest) (String m sub) = strings.Contains rest (String m sub).
Proof.
  intros Hn Hm. induction n as [|c n IH]; [reflexivity|].
  simpl in Hn. apply orb_false_elim in Hn as [Hc Hn]. apply negb_false_iff in Hc.
  rewrite app_cons, Contains_skip; [now apply IH|].
  destruct (Ascii.eqb_spec m c) as [->|]; [congruence|reflexivity].
Qed.

Lemma hasByte_digits (n : string) (c : ascii) :
  hasNonDigit n = false -> isDigit c = false -> hasByte c n = false.
Proof.
  intros Hn Hc. induction n as [|d n IH]; [reflexivity|].
  simpl in Hn. apply orb_false_elim in Hn as [Hd Hn]. apply negb_false_iff in Hd.
  simpl. rewrite (IH Hn), orb_false_r.
  destruct (Ascii.eqb_spec d c) as [->|]; [congruence|reflexivity].
Qed.

(** Which table a printed line names. *)
Lemma countText_table (a b c : Z) (table sub : string) :
  strings.Contains (countText a b c table) (String "m" sub)
  = strings.Contains table (String "m" sub).
Proof.
  unfold countText.
  rewrite (Contains_digits _ _ "m" sub (decimal_digits a) eq_refl).
  rewrite ?app_cons, ?app_empty_l, ?Contains_skip by reflexivity.
  rewrite (Contains_digits _ _ "m" sub (decimal_digits b) eq_refl).
  rewrite ?app_cons, ?app_empty_l, ?Contains_skip by reflexivity.
  rewrite (Contains_digits _ _ "m" sub (decimal_digits c) eq_refl).
  rewrite ?app_cons, ?app_empty_l, ?Contains_skip by reflexivity.
  reflexivity.
Qed.

Lemma countText_oneLine (a b c : Z) (table : string) :
  hasByte nl table = false -> hasByte nl (countText a b c table) = false.
Proof.
  intros Ht. unfold countText.
  rewrite !hasByte_app, Ht,
    !(hasByte_digits _ nl (decimal_digits _) eq_refl).
  reflexivity.
Qed.

Lemma totalsLine_countText (t : Totals) (a b c : Z) :
  0 <= a < 4294967296 -> 0 <= c < 4294967296 ->
  totalsLine t (countText a b c "master4")
  = {| V4Rib := a; V4Fib := c; V6Rib := V6Rib t; V6Fib := V6Fib t |}
  /\ totalsLine t (countText a b c "master6")
     = {| V4Rib := V4Rib t; V4Fib := V4Fib t; V6Rib := a; V6Fib := c |}.
Proof.
  intros Ha Hc.
  pose proof (stringToUint32_written a Ha) as Hra.
  pose proof (stringToUint32_written c Hc) as Hrc.
  split.
  - destruct (totalsRe_countText a b c "master4") as [whole Hre].
    rewrite (totalsLine_match _ _ _ _ _ Hre), countText_table, Hra, Hrc.
    reflexivity.
  - destruct (totalsRe_countText a b c "master6") as [whole Hre].
    rewrite (totalsLine_match _ _ _ _ _ Hre), !countText_table, Hra, Hrc.
    reflexivity.
Qed.

(** X14: the totals the daemon prints are the totals [GetBGPTotal]
    returns.  When [show route count] answers with the line of [master4]
    and the line of [master6], each of the shape
    [<a> of <b> routes for <c> networks in table <name>] with numbers
    written in decimal, the result holds for each family the first number
    as RIB size and the third as FIB size, for all numbers below [2^32]. *)
Theorem GetBGPTotal_reads_counts (b : BirdClient) (w w1 : World)
    (a4 b4 c4 a6 b6 c6 : Z) :
  0 <= a4 < 4294967296 -> 0 <= c4 < 4294967296 ->
  0 <= a6 < 4294967296 -> 0 <= c6 < 4294967296 ->
  query b "show route count" w
  = ((countText a4 b4 c4 "master4" +:+ LF +:+ countText a6 b6 c6 "master6", None),
     w1) ->
  GetBGPTotal b w
  = (({| V4Rib := a4; V4Fib := c4; V6Rib := a6; V6Fib := c6 |}, None), w1).
Proof.
  intros Ha4 Hc4 Ha6 Hc6 Hq. unfold GetBGPTotal. rewrite Hq.
  change (countText a4 b4 c4 "master4" +:+ LF +:+ countText a6 b6 c6 "master6")
    with (countText a4 b4 c4 "master4"
            +:+ String nl (countText a6 b6 c6 "master6")).
  rewrite Split_one by (apply countText_oneLine; reflexivity).
  cbn [fold_left].
  rewrite (proj1 (totalsLine_countText _ a4 b4 c4 Ha4 Hc4)).
  rewrite (proj2 (totalsLine_countText _ a6 b6 c6 Ha6 Hc6)).
  reflexivity.
Qed.

Lemma GetBGPTotal_reads_counts_witness :
  GetBGPTotal {| SocketPath := "/run/bird.ctl" |}
    (fixedWorld (wire [countLine4; countLine6 false; "0000 "]))
  = (({| V4Rib := 2076414; V4Fib := 1038207; V6Rib := 471160; V6Fib := 235580 |},
      None),
     {| endpoints := endpoints (fixedWorld (wire [countLine4; countLine6 false; "0000 "]));
        dials := 1 |}).
Proof.
  refine (GetBGPTotal_reads_counts {| SocketPath := "/run/bird.ctl" |}
            (fixedWorld (wire [countLine4; countLine6 false; "0000 "])) _
            2076414 2076414 1038207 471160 471160 235580 _ _ _ _ _);
    try lia.
  vm_compute. reflexivity.
Defined.

(** ** C7: the totals of [show route count] *)

(** A line of a table, whatever the name of the table holds: the pattern
    captures the first and the third number, and the name decides the
    family. *)
Lemma totalsLine_table (t : Totals) (a b c : Z) (table : string) :
  0 <= a < 4294967296 -> 0 <= c < 4294967296 ->
  totalsLine t (countText a b c table)
  = if strings.Contains table "master4" then
      {| V4Rib := a; V4Fib := c; V6Rib := V6Rib t; V6Fib := V6Fib t |}
    else if strings.Contains table "master6" then
      {| V4Rib := V4Rib t; V4Fib := V4Fib t; V6Rib := a; V6Fib := c |}
    else t.
Proof.
  intros Ha Hc. destruct (totalsRe_countText a b c table) as [whole Hre].
  rewrite (totalsLine_match _ _ _ _ _ Hre), !countText_table.
  now rewrite (stringToUint32_written a Ha), (stringToUint32_written c Hc).
Qed.

(** A text that starts with a digit and ends with one, as a line of a
    table does. *)
Definition digitEnds (s : string) : Prop :=
  exists c tail front z,
    s = String c tail /\ s = front +:+ String z EmptyString
    /\ isDigit c = true /\ isDigit z = true.

Lemma countText_digitEnds (a b c : Z) (table : string) (z : ascii) :
  isDigit z = true ->
  digitEnds (countText a b c (table +:+ String z EmptyString)).
Proof.
  intros Hz. pose proof (decimal_digits a) as Hd.
  pose proof (decimal_not_empty a) as Hne.
  unfold digitEnds, countText.
  destruct (decimal a) as [|x n]; [contradiction|].
  simpl in Hd. apply orb_false_elim in Hd as [Hx _]. apply negb_false_iff in Hx.
  exists x, (n +:+ " of " +:+ decimal b +:+ " routes for " +:+ decimal c
               +:+ " networks in table " +:+ table +:+ String z EmptyString),
    (String x n +:+ " of " +:+ decimal b +:+ " routes for " +:+ decimal c
       +:+ " networks in table " +:+ table), z.
  split; [reflexivity|]. split; [|now split].
  now rewrite !app_assoc_s.
Qed.

Lemma digitEnds_join (x y : string) :
  digitEnds x -> digitEnds y -> digitEnds (x +:+ LF +:+ y).
Proof.
  intros (c & tail & _ & _ & -> & _ & Hc & _) (_ & _ & front & z & _ & -> & _ & Hz).
  exists c, (tail +:+ LF +:+ front +:+ String z EmptyString),
    (String c tail +:+ LF +:+ front), z.
  split; [reflexivity|]. split; [|now split].
  now rewrite !app_assoc_s.
Qed.

(** [strings.TrimSpace] takes the line feed off the end of such a text and
    nothing else. *)
Lemma TrimSpace_digitEnds (s : string) :
  digitEnds s -> strings.TrimSpace (s +:+ LF) = s.
Proof.
  intros (c & tail & front & z & Hs & Hf & Hc & Hz).
  unfold strings.TrimSpace.
  assert (Hl : strings.trimLeftSpace 0 (s +:+ LF) = s +:+ LF).
  { rewrite Hs, app_cons.
    destruct (digit_plain c Hc) as (Ha & H2 & _ & H3 & _).
    cbn [strings.trimLeftSpace strings.spaceWidth]. rewrite Ha.
    destruct (tail +:+ LF) as [|d [|e s']];
      [reflexivity|now rewrite H2|now rewrite H2, H3]. }
  rewrite Hl, rev_append.
  assert (Hr : String.rev s = String z (String.rev front)).
  { rewrite Hf at 1. now rewrite rev_append. }
  rewrite Hr.
  change (String.rev LF +:+ String z (String.rev front))
    with (String nl (String z (String.rev front))).
  assert (Ht : strings.trimLeftSpaceRev 0 (String nl (String z (String.rev front)))
               = String z (String.rev front)).
  { destruct (digit_plain z Hz) as (Ha & _ & H2 & _ & H3).
    cbn [strings.trimLeftSpaceRev strings.spaceWidthRev strings.asciiSpace nl].
    cbn [strings.trimLeftSpaceRev strings.spaceWidthRev]. rewrite Ha.
    destruct (String.rev front) as [|d [|e r']];
      [reflexivity|now rewrite H2|now rewrite H2, H3]. }
  rewrite Ht, <- Hr. apply rev_rev.
Qed.

Lemma oneLine_hasByte (s : string) : hasByte nl s = false -> oneLine s = true.
Proof.
  induction s as [|c s IH]; [reflexivity|]. simpl. intros H.
  apply orb_false_elim in H as [-> Hs]. now rewrite (IH Hs).
Qed.

(** The response loop on a data line with the code [1007]. *)
Lemma lineStep_1007 (text output : string) :
  oneLine text = true -> text <> EmptyString ->
  lineStep ("1007-" +:+ text +:+ LF) output = Next (output +:+ text +:+ LF).
Proof.
  intros Ht Hne. unfold lineStep.
  rewrite <- app_assoc_s, TrimRight_LF by exact Ht.
  destruct text as [|x text]; [contradiction|]. reflexivity.
Qed.

Lemma lineStep_continuation (text output : string) :
  oneLine text = true ->
  lineStep (" " +:+ text +:+ LF) output = Next (output +:+ text +:+ LF).
Proof.
  intros Ht. unfold lineStep.
  rewrite <- app_assoc_s, TrimRight_LF by exact Ht. reflexivity.
Qed.

(** The lines of the two tables on the wire. The first comes with the code
    [1007]; the second as a continuation line or with a code of its own;
    the table of IPv6 may come first. *)
Definition countLines (first6 coded2 : bool) (l4 l6 : string) : list string :=
  ["1007-" +:+ (if first6 then l6 else l4);
   (if coded2 then "1007-" else " ") +:+ (if first6 then l4 else l6);
   "0000 "].

Lemma readResponse_countLines (cause : string) (first6 coded2 : bool)
    (l4 l6 : string) (rest : list string) :
  oneLine l4 = true -> oneLine l6 = true -> digitEnds l4 -> digitEnds l6 ->
  readResponse cause (map (fun l => l +:+ LF) (countLines first6 coded2 l4 l6) ++ rest)
    EmptyString
  = ((if first6 then l6 else l4) +:+ LF +:+ (if first6 then l4 else l6), None).
Proof.
  intros H4 H6 D4 D6.
  set (x := if first6 then l6 else l4). set (y := if first6 then l4 else l6).
  assert (Hx : oneLine x = true) by (unfold x; now destruct first6).
  assert (Hy : oneLine y = true) by (unfold y; now destruct first6).
  assert (Dx : digitEnds x) by (unfold x; now destruct first6).
  assert (Dy : digitEnds y) by (unfold y; now destruct first6).
  assert (Nx : x <> EmptyString).
  { destruct Dx as (c & tail & _ & _ & -> & _). discriminate. }
  assert (Ny : y <> EmptyString).
  { destruct Dy as (c & tail & _ & _ & -> & _). discriminate. }
  unfold countLines. fold x y. cbn [map app readResponse].
  rewrite app_assoc_s, (lineStep_1007 x _ Hx Nx).
  assert (H2 : forall o, lineStep (((if coded2 then "1007-" else " ") +:+ y) +:+ LF) o
                         = Next (o +:+ y +:+ LF)).
  { intros o. rewrite app_assoc_s. destruct coded2;
      [now apply lineStep_1007|now apply lineStep_continuation]. }
  rewrite H2.
  change (lineStep ("0000 " +:+ LF) ?o) with (Break o).
  cbv iota beta. rewrite app_empty_l, !app_assoc_s.
  assert (E : x +:+ LF +:+ y +:+ LF = (x +:+ LF +:+ y) +:+ LF)
    by now rewrite !app_assoc_s.
  now rewrite E, (TrimSpace_digitEnds _ (digitEnds_join x y Dx Dy)).
Qed.

(** C7: the totals of [show route count].  When the handshake succeeds and
    the daemon answers with the coded line
    [1007-<a4> of <b4> routes for <c4> networks in table master4], the line
    of [master6] of the same shape and a final status line, [GetBGPTotal]
    returns [a4], [c4], [a6], [c6] with no error, for all counts below
    [2^32], whichever table comes first and whether the second line has a
    code of its own or is a continuation line.  On every line of that shape
    the first number is the RIB size and the third the FIB size, of the
    family the name of the table selects; the totals of the other family
    stay.  The lines of the specification are the lines of that shape with
    the counts 2076414, 1038207, 471160 and 235580. *)
Theorem C7_totals :
  (forall (b : BirdClient) (w : World) (conn : Session) (greeting more : string)
          (first6 coded2 : bool) (a4 b4 c4 a6 b6 c6 : Z),
      endpoints w (SocketPath b) (dials w) = Accept conn ->
      banner conn = greeting +:+ LF ->
      oneLine greeting = true ->
      strings.HasPrefix greeting "0001" = true ->
      write_err conn = None ->
      0 <= a4 < 4294967296 -> 0 <= c4 < 4294967296 ->
      0 <= a6 < 4294967296 -> 0 <= c6 < 4294967296 ->
      reply conn ("show route count" +:+ CRLF)
      = wire (countLines first6 coded2 (countText a4 b4 c4 "master4")
                (countText a6 b6 c6 "master6")) +:+ more ->
      fst (GetBGPTotal b w)
      = ({| V4Rib := a4; V4Fib := c4; V6Rib := a6; V6Fib := c6 |}, None))
  /\ (forall (t : Totals) (a b c : Z) (table : string),
         0 <= a < 4294967296 -> 0 <= c < 4294967296 ->
         totalsLine t (countText a b c table)
         = if strings.Contains table "master4" then
             {| V4Rib := a; V4Fib := c; V6Rib := V6Rib t; V6Fib := V6Fib t |}
           else if strings.Contains table "master6" then
             {| V4Rib := V4Rib t; V4Fib := V4Fib t; V6Rib := a; V6Fib := c |}
           else t)
  /\ (forall coded6 : bool,
         [countLine4; countLine6 coded6; "0000 "]
         = countLines false coded6 (countText 2076414 2076414 1038207 "master4")
             (countText 471160 471160 235580 "master6")).
Proof.
  split; [|split; [exact totalsLine_table|intros []; vm_compute; reflexivity]].
  intros b w conn greeting more first6 coded2 a4 b4 c4 a6 b6 c6
    He Hb Hg Hp Hw Ha4 Hc4 Ha6 Hc6 Hr.
  pose proof (querySocket_handshake _ "show route count" _ _ _ He Hb Hg Hp Hw) as Hq.
  unfold GetBGPTotal, query.
  destruct (querySocket (SocketPath b) "show route count" w) as [[out err] w1].
  cbn [fst] in Hq. rewrite Hr in Hq.
  assert (N4 : hasByte nl (countText a4 b4 c4 "master4") = false)
    by (apply countText_oneLine; reflexivity).
  assert (N6 : hasByte nl (countText a6 b6 c6 "master6") = false)
    by (apply countText_oneLine; reflexivity).
  pose proof (oneLine_hasByte _ N4) as O4. pose proof (oneLine_hasByte _ N6) as O6.
  rewrite readLines_wire in Hq.
  2:{ unfold countLines. repeat constructor.
      - destruct first6; [exact O6|exact O4].
      - destruct coded2, first6; [exact O4|exact O6|exact O4|exact O6]. }
  rewrite readResponse_countLines in Hq;
    [|exact O4|exact O6
     |exact (countText_digitEnds a4 b4 c4 "master" "4" eq_refl)
     |exact (countText_digitEnds a6 b6 c6 "master" "6" eq_refl)].
  injection Hq as -> ->. cbn [fst].
  change (?x +:+ LF +:+ ?y) with (x +:+ String nl y).
  rewrite Split_one by (destruct first6; assumption).
  cbn [fold_left].
  destruct first6; rewrite !totalsLine_table by assumption; reflexivity.
Qed.

Lemma C7_totals_witness :
  fst (GetBGPTotal {| SocketPath := "/run/bird.ctl" |}
         (fixedWorld (wire [countLine4; countLine6 true; "0000 "])))
  = ({| V4Rib := 2076414; V4Fib := 1038207; V6Rib := 471160; V6Fib := 235580 |},
     None).
Proof.
  refine (proj1 C7_totals {| SocketPath := "/run/bird.ctl" |}
            (fixedWorld (wire [countLine4; countLine6 true; "0000 "]))
            (fixedSession (wire [countLine4; countLine6 true; "0000 "]))
            "0001 BIRD 2.0.8 ready." EmptyString false true
            2076414 2076414 1038207 471160 471160 235580
            eq_refl eq_refl eq_refl eq_refl eq_refl _ _ _ _ _);
    try lia.
  vm_compute. reflexivity.
Defined.

(** ** [GetASPathFromIP] *)

Lemma HasPrefix_self_app (p rest : string) : strings.HasPrefix (p +:+ rest) p = true.
Proof.
  induction p as [|c p IH]; [reflexivity|].
  rewrite app_cons. simpl. now rewrite Ascii.eqb_refl.
Qed.

Lemma Contains_app_r (a s sub : string) :
  strings.Contains s sub = true -> strings.Contains (a +:+ s) sub = true.
Proof.
  intros H. induction a as [|c a IH]; [exact H|].
  rewrite app_cons. simpl. rewrite IH. apply orb_true_r.
Qed.

Lemma Contains_here (s sub : string) :
  strings.HasPrefix s sub = true -> strings.Contains s sub = true.
Proof. intros H. destruct s; simpl; now rewrite H. Qed.

(** [strings.Index] finds the text behind a part that lacks its first
    byte. *)
Lemma Index_first (m : ascii) (pre sub rest : string) :
  hasByte m pre = false ->
  strings.Index (pre +:+ String m sub +:+ rest) (String m sub)
  = Some (strings.len pre).
Proof.
  intros H. induction pre as [|c pre IH].
  - rewrite app_empty_l.
    pose proof (HasPrefix_self_app (String m sub) rest) as Hp.
    destruct (String m sub +:+ rest); simpl in *;
      [discriminate Hp|now rewrite Hp].
  - simpl in H. apply orb_false_elim in H as [Hc Hp].
    rewrite app_cons. simpl. rewrite (Ascii.eqb_sym m c), Hc. simpl.
    now rewrite (IH Hp).
Qed.

Lemma upto_len_app (a b : string) : strings.upto (strings.len a) (a +:+ b) = a.
Proof.
  induction a as [|c a IH]; [now destruct b|].
  rewrite app_cons. unfold strings.len in *. simpl. now rewrite IH.
Qed.

Lemma from_add_app (a b c : string) :
  strings.from (strings.len a + strings.len b) (a +:+ b +:+ c) = c.
Proof.
  induction a as [|x a IH]; [exact (from_len_app b c)|].
  rewrite app_cons. exact IH.
Qed.

Lemma Contains_Split_nl (sub s line : string) :
  line ∈ strings.Split s nl ->
  strings.Contains line sub = true -> strings.Contains s sub = true.
Proof.
  revert line. induction s as [|d s IH]; intros line Hin Hc.
  - simpl in Hin. apply list_elem_of_singleton in Hin as ->. exact Hc.
  - simpl in Hin. destruct (Ascii.eqb d nl).
    + apply elem_of_cons in Hin as [->|Hin].
      * destruct sub; [reflexivity|discriminate Hc].
      * simpl. rewrite (IH _ Hin Hc). apply orb_true_r.
    + destruct (Split_head s) as (h & t & tail & Hs & _ & Heq & _).
      rewrite Hs in Hin, IH.
      apply elem_of_cons in Hin as [->|Hin].
      * simpl in Hc. apply orb_prop in Hc as [Hc|Hc].
        -- apply Contains_here. rewrite Heq, <- app_cons.
           now apply HasPrefix_app.
        -- simpl. rewrite (IH h); [apply orb_true_r|now left|exact Hc].
      * simpl. rewrite (IH line); [apply orb_true_r|now right|exact Hc].
Qed.

Lemma findASPath_skip (before rest : list string) :
  Forall (fun l => strings.Contains l "BGP.as_path:" = false) before ->
  findASPath (before ++ rest) = findASPath rest.
Proof.
  induction 1 as [|l ls Hl _ IH]; [reflexivity|]. simpl. now rewrite Hl.
Qed.

(** X15: when its query succeeds, [GetASPathFromIP] reports not found,
    with no error, for an answer without the label [BGP.as_path:]; and
    for the first line that holds the label, behind an indentation without
    the letter [B], it reports found with the path and the set that
    [decodeASPaths] reads in the text after the label, white space around it
    trimmed; the lines after that one are not looked at. *)
Theorem GetASPathFromIP_label (b : BirdClient) (ip : string) (w : World)
    (out : string) (w1 : World) :
  query b ("show route primary all for " +:+ ip) w = ((out, None), w1) ->
  (strings.Contains out "BGP.as_path:" = false ->
   GetASPathFromIP b ip w = (({| Path := []; Set_ := [] |}, false, None), w1))
  /\ (forall before indent text after,
        strings.Split out nl
        = before ++ (indent +:+ "BGP.as_path:" +:+ text) :: after ->
        Forall (fun l => strings.Contains l "BGP.as_path:" = false) before ->
        hasByte "B" indent = false ->
        GetASPathFromIP b ip w
        = (({| Path := fst (decodeASPaths (strings.TrimSpace text));
               Set_ := snd (decodeASPaths (strings.TrimSpace text)) |},
            true, None), w1)).
Proof.
  intros Hq. unfold GetASPathFromIP. rewrite Hq. split.
  - intros ->. now rewrite orb_true_r.
  - intros before indent text after Hs Hbefore Hindent.
    assert (Hline : strings.Contains (indent +:+ "BGP.as_path:" +:+ text)
                      "BGP.as_path:" = true).
    { apply Contains_app_r, Contains_here, HasPrefix_self_app. }
    assert (Hout : strings.Contains out "BGP.as_path:" = true).
    { apply (Contains_Split_nl _ _ (indent +:+ "BGP.as_path:" +:+ text));
        [|exact Hline].
      rewrite Hs. apply elem_of_app. right. now left. }
    assert (Hne : String.eqb out EmptyString = false).
    { destruct out; [discriminate Hout|reflexivity]. }
    rewrite Hne, Hout. cbn [negb orb].
    rewrite Hs, (findASPath_skip _ _ Hbefore). cbn [findASPath]. rewrite Hline.
    unfold SplitN2.
    change (indent +:+ "BGP.as_path:" +:+ text)
      with (indent +:+ String "B" "GP.as_path:" +:+ text).
    rewrite (Index_first "B" indent "GP.as_path:" text Hindent).
    rewrite (from_add_app indent (String "B" "GP.as_path:") text).
    now destruct (decodeASPaths (strings.TrimSpace text)).
Qed.

Definition routeAll : World :=
  scriptedWorld
    [("show route primary all for 8.8.8.8",
      wire ["1007-Table master4:";
            " 8.8.8.0/24 unicast [bgp1 10:00:00] * (100) [AS15169i]";
            "1008-	Type: BGP univ";
            "1012-	BGP.origin: IGP";
            " 	BGP.as_path: 3356 15169 {64496 64497}";
            " 	BGP.next_hop: 192.0.2.1";
            "0000 "])].

Lemma GetASPathFromIP_label_witness :
  GetASPathFromIP {| SocketPath := "/run/bird.ctl" |} "8.8.8.8" routeAll
  = (({| Path := fst (decodeASPaths (strings.TrimSpace " 3356 15169 {64496 64497}"));
         Set_ := snd (decodeASPaths (strings.TrimSpace " 3356 15169 {64496 64497}")) |},
      true, None),
     {| endpoints := endpoints routeAll; dials := 1 |}).
Proof.
  refine (proj2 (GetASPathFromIP_label {| SocketPath := "/run/bird.ctl" |}
                   "8.8.8.8" routeAll
                   (strings.TrimSpace
                      (wire ["Table master4:";
                             "8.8.8.0/24 unicast [bgp1 10:00:00] * (100) [AS15169i]";
                             "	Type: BGP univ";
                             "	BGP.origin: IGP";
                             "	BGP.as_path: 3356 15169 {64496 64497}";
                             "	BGP.next_hop: 192.0.2.1"]))
                   {| endpoints := endpoints routeAll; dials := 1 |} _)
            ["Table master4:";
             "8.8.8.0/24 unicast [bgp1 10:00:00] * (100) [AS15169i]";
             "	Type: BGP univ"; "	BGP.origin: IGP"]
            (String "009" EmptyString) " 3356 15169 {64496 64497}"
            ["	BGP.next_hop: 192.0.2.1"] _ _ _).
  - vm_compute. reflexivity.
  - vm_compute. reflexivity.
  - repeat constructor.
  - reflexivity.
Defined.

(** ** [GetInvalids] *)

(** What a line adds to the inventory, if anything: the ASN and the
    prefix [parseInvalidLine] reads, when the ASN is not empty. *)
Definition invalidOf (line : string) : option (string * string) :=
  let '(prefix, asn) := parseInvalidLine line numRe in
  match asn with
  | EmptyString => None
  | _ => Some (asn, prefix)
  end.

(** The prefixes the lines add for [asn], in the order of the lines. *)
Fixpoint prefixesOf (asn : string) (lines : list string) : list string :=
  match lines with
  | [] => []
  | line :: rest =>
      match invalidOf line with
      | Some (asn', prefix) =>
          if String.eqb asn' asn then prefix :: prefixesOf asn rest
          else prefixesOf asn rest
      | None => prefixesOf asn rest
      end
  end.

Lemma invalidsLine_invalidOf (inv : gmap string (list string)) (line : string) :
  invalidsLine inv line
  = match invalidOf line with
    | Some (asn, prefix) => <[asn := default [] (inv !! asn) ++ [prefix]]> inv
    | None => inv
    end.
Proof.
  unfold invalidsLine, invalidOf.
  destruct (parseInvalidLine line numRe) as [prefix [|c asn]]; reflexivity.
Qed.

Lemma fold_invalidsLine_lookup (lines : list string)
    (inv : gmap string (list string)) (asn : string) :
  fold_left invalidsLine lines inv !! asn
  = match prefixesOf asn lines with
    | [] => inv !! asn
    | ps => Some (default [] (inv !! asn) ++ ps)
    end.
Proof.
  revert inv. induction lines as [|line lines IH]; intros inv; [reflexivity|].
  cbn [fold_left prefixesOf]. rewrite IH, invalidsLine_invalidOf.
  destruct (invalidOf line) as [[asn' prefix]|]; [|reflexivity].
  destruct (String.eqb_spec asn' asn) as [->|Hne].
  - rewrite lookup_insert_eq. cbn [from_option id].
    destruct (prefixesOf asn lines); [reflexivity|].
    now rewrite <- app_assoc.
  - now rewrite lookup_insert_ne by exact Hne.
Qed.

Lemma prefixesOf_app (asn : string) (l1 l2 : list string) :
  prefixesOf asn (l1 ++ l2) = prefixesOf asn l1 ++ prefixesOf asn l2.
Proof.
  induction l1 as [|line l1 IH]; [reflexivity|]. simpl.
  destruct (invalidOf line) as [[asn' prefix]|]; [|exact IH].
  destruct (String.eqb asn' asn); [|exact IH]. simpl. now rewrite IH.
Qed.

(** The pattern [[\d]+] finds the first run of digits. *)
Lemma FindString_numRe (nd n rest : string) :
  allBytes (fun c => negb (isDigit c)) nd = true ->
  hasNonDigit n = false -> n <> EmptyString ->
  stopsClass regexp.d rest = true ->
  regexp.FindString numRe (nd +:+ n +:+ rest) = n.
Proof.
  intros Hnd Hn Hne Hr. unfold regexp.FindString.
  induction nd as [|c nd IH].
  - rewrite app_empty_l.
    rewrite (FindStringSubmatch_here numRe (n +:+ rest) [n]); [reflexivity|].
    unfold numRe. apply run_Plus_all;
      [now apply allBytes_digits|exact Hne|exact Hr|].
    now rewrite consumed_app.
  - simpl in Hnd. apply andb_prop in Hnd as [Hc Hnd].
    rewrite app_cons. cbn [regexp.FindStringSubmatch].
    unfold numRe at 1. rewrite run_Plus_cons.
    apply negb_true_iff in Hc. change (regexp.d c) with (isDigit c).
    rewrite Hc. now apply IH.
Qed.

(** X16: the inventory of [GetInvalids].  When both queries succeed, the
    map it returns holds for an ASN the prefixes of the lines that name it,
    those of [master4] before those of [master6] and each in the order of
    the output, and has no entry for an ASN that no line names.  A line
    names the ASN written by the first run of digits behind its first
    opening bracket, and its prefix is its first token, provided it has two
    tokens at least. *)
Theorem GetInvalids_inventory (b : BirdClient) (w : World) :
  (forall out4 w1 out6 w2,
     query b "show route primary table master4 where roa_check(roa_v4) = ROA_INVALID" w
     = ((out4, None), w1) ->
     query b "show route primary table master6 where roa_check(roa_v6) = ROA_INVALID" w1
     = ((out6, None), w2) ->
     exists inv,
       GetInvalids b w = ((inv, None), w2)
       /\ forall asn,
            inv !! asn
            = match prefixesOf asn (strings.Split out4 nl)
                    ++ prefixesOf asn (strings.Split out6 nl) with
              | [] => None
              | ps => Some ps
              end)
  /\ (forall line prefix second others before nd n rest,
        strings.Fields line = prefix :: second :: others ->
        line = before +:+ "[" +:+ nd +:+ n +:+ rest ->
        hasByte "[" before = false ->
        allBytes (fun c => negb (isDigit c)) nd = true ->
        hasNonDigit n = false -> n <> EmptyString ->
        stopsClass regexp.d rest = true ->
        invalidOf line = Some (n, prefix)).
Proof.
  split.
  - intros out4 w1 out6 w2 H4 H6. unfold GetInvalids. rewrite H4, H6.
    eexists. split; [reflexivity|]. intros asn.
    rewrite <- fold_left_app, fold_invalidsLine_lookup, prefixesOf_app, lookup_empty.
    reflexivity.
  - intros line prefix second others before nd n rest Hf -> Hb Hnd Hn Hne Hr.
    unfold invalidOf, parseInvalidLine. rewrite Hf.
    cbn [length Nat.ltb Nat.leb index nth].
    change (before +:+ "[" +:+ nd +:+ n +:+ rest)
      with (before +:+ String "[" EmptyString +:+ (nd +:+ n +:+ rest)).
    rewrite (Index_first "[" before EmptyString _ Hb).
    rewrite from_len_app.
    change (String "[" EmptyString +:+ nd +:+ n +:+ rest)
      with (String "[" nd +:+ n +:+ rest).
    rewrite (FindString_numRe (String "[" nd) n rest); [|now simpl|exact Hn|exact Hne|exact Hr].
    destruct n; [contradiction|reflexivity].
Qed.

Definition invalidsBoth : list (string * string) :=
  [("show route primary table master4 where roa_check(roa_v4) = ROA_INVALID",
    wire ["1007-192.0.2.0/24 via 198.51.100.1 on eth0 [AS64496i]";
          " 198.51.100.0/24 via 198.51.100.1 on eth0 [AS64497i]";
          " 203.0.113.0/24 via 198.51.100.1 on eth0 [AS64496i]";
          "0000 "]);
   ("show route primary table master6 where roa_check(roa_v6) = ROA_INVALID",
    wire ["1007-2001:db8::/32 via fe80::1 on eth0 [AS64496i]"; "0000 "])].

Lemma GetInvalids_inventory_witness :
  (exists inv,
     GetInvalids {| SocketPath := "/run/bird.ctl" |} (scriptedWorld invalidsBoth)
     = ((inv, None),
        {| endpoints := endpoints (scriptedWorld invalidsBoth); dials := 2 |})
     /\ inv !! "64496" = Some ["192.0.2.0/24"; "203.0.113.0/24"; "2001:db8::/32"]
     /\ inv !! "64499" = None)
  /\ invalidOf "192.0.2.0/24 via 198.51.100.1 on eth0 [AS64496i]"
     = Some ("64496", "192.0.2.0/24").
Proof.
  split.
  - destruct (proj1 (GetInvalids_inventory {| SocketPath := "/run/bird.ctl" |}
                       (scriptedWorld invalidsBoth))
                (strings.TrimSpace
                   (wire ["192.0.2.0/24 via 198.51.100.1 on eth0 [AS64496i]";
                          "198.51.100.0/24 via 198.51.100.1 on eth0 [AS64497i]";
                          "203.0.113.0/24 via 198.51.100.1 on eth0 [AS64496i]"]))
                {| endpoints := endpoints (scriptedWorld invalidsBoth); dials := 1 |}
                "2001:db8::/32 via fe80::1 on eth0 [AS64496i]"
                {| endpoints := endpoints (scriptedWorld invalidsBoth); dials := 2 |})
      as (inv & Hg & Hinv); [vm_compute; reflexivity..|].
    exists inv. split; [exact Hg|]. rewrite !Hinv. vm_compute. split; reflexivity.
  - refine (proj2 (GetInvalids_inventory {| SocketPath := "/run/bird.ctl" |}
                     (scriptedWorld invalidsBoth))
              _ "192.0.2.0/24" "via" ["198.51.100.1"; "on"; "eth0"; "[AS64496i]"]
              "192.0.2.0/24 via 198.51.100.1 on eth0 " "AS" "64496" "i]"
              _ _ _ _ _ _ _); try reflexivity. discriminate.
Defined.

(** ** [GetOriginFromIP] *)

(** [regexp.MustCompile(`\{[^}]*\}`).ReplaceAllString(s, "")]: every
    opening brace that has a closing brace somewhere behind it is removed
    with all that follows up to the first closing brace; a match starts at
    the leftmost such brace and the next one is looked for behind it.
    [inside] tells that the bytes read are those of a match. *)
Fixpoint removeSets (inside : bool) (s : string) : string :=
  match s with
  | EmptyString => EmptyString
  | String c s' =>
      if inside then
        if Ascii.eqb c "}" then removeSets false s' else removeSets true s'
      else if Ascii.eqb c "{" && hasByte "}" s' then removeSets true s'
      else String c (removeSets false s')
  end.

(** The loop of [GetOriginFromIP] (part_002, l. 506-529) over the lines. *)
Fixpoint findOrigin (lines : list string) : Z * bool * option error :=
  match lines with
  | [] => (0, false, None)
  | line :: rest =>
      if strings.Contains line "BGP.as_path:" then
        match SplitN2 line "BGP.as_path:" with
        | [_; after] =>
            let pathStr := strings.TrimSpace after in
            let pathStr := removeSets false pathStr in
            let fields := strings.Fields pathStr in
            if (0 <? length fields)%nat then
              let lastASN := index fields (length fields - 1) in
              let o := regexp.FindString (regexp.Plus isDigit) lastASN in
              if negb (String.eqb o EmptyString) then
                match strconv.Atoi o with
                | None => (0, true, Some (ErrAtoi o))
                | Some source => (uint32 source, true, None)
                end
              else findOrigin rest
            else findOrigin rest
        | _ => findOrigin rest
        end
      else findOrigin rest
  end.

(** [GetOriginFromIP] (part_002, l. 493) *)
Definition GetOriginFromIP (b : BirdClient) (ip : string) (w : World)
  : (Z * bool * option error) * World :=
  let cmd := "show route primary all for " +:+ ip in
  let '((out, err), w) := query b cmd w in
  match err with
  | Some e => ((0, false, Some e), w)
  | None =>
      if String.eqb out EmptyString then ((0, false, None), w)
      else (findOrigin (strings.Split out nl), w)
  end.

Lemma removeSets_free (s t : string) :
  hasByte "{" s = false ->
  removeSets false (s +:+ t) = s +:+ removeSets false t.
Proof.
  induction s as [|c s IH]; intros H; [reflexivity|].
  simpl in H. apply orb_false_elim in H as [Hc Hs].
  rewrite !app_cons. cbn [removeSets]. rewrite Hc. cbn [andb].
  now rewrite (IH Hs).
Qed.

Lemma removeSets_inside (mid t : string) :
  hasByte "}" mid = false ->
  removeSets true (mid +:+ String "}" t) = removeSets false t.
Proof.
  induction mid as [|c mid IH]; intros H; [reflexivity|].
  simpl in H. apply orb_false_elim in H as [Hc Hm].
  rewrite app_cons. cbn [removeSets]. rewrite Hc. now apply IH.
Qed.

Lemma spaceWidth_digit (c : ascii) (s : string) :
  isDigit c = true -> strings.spaceWidth (String c s) = 0%nat.
Proof.
  intros H. destruct (digit_plain c H) as (Ha & H2 & _ & H3 & _).
  cbn [strings.spaceWidth]. rewrite Ha.
  destruct s as [|d [|e s']]; [reflexivity|now rewrite H2|now rewrite H2, H3].
Qed.

Lemma fieldsFrom_digits (n cur : string) :
  hasNonDigit n = false ->
  strings.fieldsFrom 0 cur n = strings.flush (cur +:+ n).
Proof.
  revert cur. induction n as [|c n IH]; intros cur H.
  - now rewrite app_empty_r.
  - simpl in H. apply orb_false_elim in H as [Hc Hn]. apply negb_false_iff in Hc.
    change (strings.fieldsFrom 0 cur (String c n))
      with (match strings.spaceWidth (String c n) with
            | O => strings.fieldsFrom O (cur +:+ String c EmptyString) n
            | S w => strings.flush cur ++ strings.fieldsFrom w EmptyString n
            end).
    rewrite (spaceWidth_digit c n Hc), (IH _ Hn), app_assoc_s. reflexivity.
Qed.

Lemma Fields_digits (n : string) :
  hasNonDigit n = false -> n <> EmptyString -> strings.Fields n = [n].
Proof.
  intros H Hne. unfold strings.Fields. rewrite (fieldsFrom_digits n _ H).
  rewrite app_empty_l. now destruct n.
Qed.

Lemma index_last (toks : list string) (x : string) :
  index (toks ++ [x]) (length (toks ++ [x]) - 1) = x.
Proof.
  unfold index. rewrite length_app. simpl.
  replace (length toks + 1 - 1)%nat with (length toks) by lia.
  induction toks as [|t toks IH]; [reflexivity|exact IH].
Qed.

(** The text of a path that ends in the number [n], with an AS-SET behind
    it or not: what [findOrigin] makes of it. *)
Lemma origin_of_path (path set : string) (n : Z) :
  blockStart path -> hasByte "{" path = false ->
  (set = EmptyString
   \/ exists mid, set = " {" +:+ mid +:+ "}" /\ hasByte "}" mid = false) ->
  exists toks,
    strings.Fields (removeSets false (path +:+ decimal n +:+ set))
    = toks ++ [decimal n].
Proof.
  intros Hstart Hpath Hset.
  assert (Hrem : exists tail,
             removeSets false (path +:+ decimal n +:+ set)
             = path +:+ decimal n +:+ tail
             /\ strings.Fields (decimal n +:+ tail) = [decimal n]).
  { rewrite (removeSets_free _ _ Hpath).
    rewrite (removeSets_free (decimal n))
      by (apply hasByte_digits; [apply decimal_digits|reflexivity]).
    destruct Hset as [->|(mid & -> & Hmid)].
    - exists EmptyString. split; [reflexivity|]. rewrite app_empty_r.
      apply Fields_digits; [apply decimal_digits|apply decimal_not_empty].
    - exists " ". split.
      + change (" {" +:+ mid +:+ "}") with (String " " (String "{" (mid +:+ "}"))).
        cbn [removeSets]. change (Ascii.eqb " " "{") with false. cbn [andb].
        change (Ascii.eqb "{" "{") with true.
        rewrite hasByte_app, Hmid. cbn [orb andb hasByte].
        change (Ascii.eqb "}" "}") with true. cbn [orb].
        now rewrite (removeSets_inside mid EmptyString Hmid).
      + change (decimal n +:+ " ") with (decimal n +:+ String " " EmptyString).
        rewrite (Fields_app_space " ") by reflexivity.
        rewrite Fields_digits; [reflexivity|apply decimal_digits|apply decimal_not_empty]. }
  destruct Hrem as (tail & -> & Hf).
  destruct Hstart as [->|(p & c & -> & Hc)].
  - exists []. exact Hf.
  - exists (strings.Fields p).
    rewrite app_assoc_s, app_cons, app_empty_l.
    rewrite (Fields_app_space c) by exact Hc. now rewrite Hf.
Qed.

Lemma findOrigin_skip (before rest : list string) :
  Forall (fun l => strings.Contains l "BGP.as_path:" = false) before ->
  findOrigin (before ++ rest) = findOrigin rest.
Proof.
  induction 1 as [|l ls Hl _ IH]; [reflexivity|]. simpl. now rewrite Hl.
Qed.

(** X17: the origin [GetOriginFromIP] returns.  When the query succeeds
    and, on the first line that holds the label [BGP.as_path:], the trimmed
    text after the label ends in the decimal number [n] below [2^32],
    alone or behind other tokens, with or without one AS-SET in braces after
    it, the result is [n], found, with no error: the AS-SET is dropped and
    the last token left is the origin. *)
Theorem GetOriginFromIP_last_token (b : BirdClient) (ip : string) (w w1 : World)
    (out : string) (before after : list string) (indent text path set : string)
    (n : Z) :
  query b ("show route primary all for " +:+ ip) w = ((out, None), w1) ->
  strings.Split out nl = before ++ (indent +:+ "BGP.as_path:" +:+ text) :: after ->
  Forall (fun l => strings.Contains l "BGP.as_path:" = false) before ->
  hasByte "B" indent = false ->
  strings.TrimSpace text = path +:+ decimal n +:+ set ->
  blockStart path -> hasByte "{" path = false ->
  (set = EmptyString
   \/ exists mid, set = " {" +:+ mid +:+ "}" /\ hasByte "}" mid = false) ->
  0 <= n < 4294967296 ->
  GetOriginFromIP b ip w = ((n, true, None), w1).
Proof.
  intros Hq Hs Hbefore Hindent Htext Hstart Hpath Hset Hn.
  unfold GetOriginFromIP. rewrite Hq.
  assert (Hline : strings.Contains (indent +:+ "BGP.as_path:" +:+ text)
                    "BGP.as_path:" = true).
  { apply Contains_app_r, Contains_here, HasPrefix_self_app. }
  assert (Hout : strings.Contains out "BGP.as_path:" = true).
  { apply (Contains_Split_nl _ _ (indent +:+ "BGP.as_path:" +:+ text));
      [|exact Hline].
    rewrite Hs. apply elem_of_app. right. now left. }
  assert (Hne : String.eqb out EmptyString = false).
  { destruct out; [discriminate Hout|reflexivity]. }
  rewrite Hne, Hs, (findOrigin_skip _ _ Hbefore). cbn [findOrigin]. rewrite Hline.
  unfold SplitN2.
  change (indent +:+ "BGP.as_path:" +:+ text)
    with (indent +:+ String "B" "GP.as_path:" +:+ text).
  rewrite (Index_first "B" indent "GP.as_path:" text Hindent).
  rewrite (from_add_app indent (String "B" "GP.as_path:") text).
  rewrite Htext.
  destruct (origin_of_path path set n Hstart Hpath Hset) as [toks ->].
  assert (Hlen : (0 <? length (toks ++ [decimal n]))%nat = true).
  { rewrite length_app. simpl. apply Nat.ltb_lt. lia. }
  rewrite Hlen, index_last.
  assert (Hfind : regexp.FindString (regexp.Plus isDigit) (decimal n) = decimal n).
  { pose proof (FindString_numRe EmptyString (decimal n) EmptyString eq_refl
                  (decimal_digits n) (decimal_not_empty n) eq_refl) as H.
    now rewrite app_empty_l, app_empty_r in H. }
  rewrite Hfind.
  pose proof (decimal_not_empty n) as Hd. apply String.eqb_neq in Hd. rewrite Hd.
  cbn [negb]. rewrite (Atoi_written n Hn).
  unfold uint32. rewrite Z.mod_small by lia. reflexivity.
Qed.

Lemma GetOriginFromIP_last_token_witness :
  GetOriginFromIP {| SocketPath := "/run/bird.ctl" |} "8.8.8.8" routeAll
  = ((15169, true, None), {| endpoints := endpoints routeAll; dials := 1 |}).
Proof.
  refine (GetOriginFromIP_last_token {| SocketPath := "/run/bird.ctl" |}
            "8.8.8.8" routeAll {| endpoints := endpoints routeAll; dials := 1 |}
            (strings.TrimSpace
               (wire ["Table master4:";
                      "8.8.8.0/24 unicast [bgp1 10:00:00] * (100) [AS15169i]";
                      "	Type: BGP univ";
                      "	BGP.origin: IGP";
                      "	BGP.as_path: 3356 15169 {64496 64497}";
                      "	BGP.next_hop: 192.0.2.1"]))
            ["Table master4:";
             "8.8.8.0/24 unicast [bgp1 10:00:00] * (100) [AS15169i]";
             "	Type: BGP univ"; "	BGP.origin: IGP"]
            ["	BGP.next_hop: 192.0.2.1"]
            (String "009" EmptyString) " 3356 15169 {64496 64497}"
            "3356 " " {64496 64497}" 15169 _ _ _ _ _ _ _ _ _).
  - vm_compute. reflexivity.
  - vm_compute. reflexivity.
  - repeat constructor.
  - reflexivity.
  - vm_compute. reflexivity.
  - right. exists "3356", " "%char. split; reflexivity.
  - reflexivity.
  - right. exists "64496 64497". split; reflexivity.
  - lia.
Defined.

(** ** Data lines and continuation lines *)

Lemma digit_not_nl (x : ascii) : isDigit x = true -> Ascii.eqb x nl = false.
Proof.
  intros H. destruct x as [[] [] [] [] [] [] [] []]; try discriminate H; reflexivity.
Qed.

Lemma lead_digit (a : ascii) :
  byte_le "1" a && byte_le a "7" = true ->
  isDigit a = true
  /\ Ascii.eqb a "0" = false /\ Ascii.eqb a "8" = false /\ Ascii.eqb a "9" = false
  /\ Ascii.eqb a " " = false /\ byte_le "1" a && byte_le a "9" = true.
Proof.
  intros H. destruct a as [[] [] [] [] [] [] [] []]; try discriminate H;
    repeat split.
Qed.

(** X18: what the response loop keeps of the lines that carry data.  Of a
    continuation line it keeps the text behind the leading space; of a line
    with a code led by [1] to [7], a separator [-] or space and a text that
    is not empty, it keeps the text; of such a code alone, or followed by
    another byte than a separator, it keeps nothing.  Reading goes on in
    each case. *)
Theorem lineStep_data (output text : string) (a b c d : ascii) :
  oneLine text = true ->
  byte_le "1" a && byte_le a "7" = true ->
  isDigit b && isDigit c && isDigit d = true ->
  let code := String a (String b (String c (String d EmptyString))) in
  lineStep (" " +:+ text +:+ LF) output = Next (output +:+ text +:+ LF)
  /\ (text <> EmptyString ->
      lineStep (code +:+ "-" +:+ text +:+ LF) output = Next (output +:+ text +:+ LF)
      /\ lineStep (code +:+ " " +:+ text +:+ LF) output
         = Next (output +:+ text +:+ LF))
  /\ lineStep (code +:+ LF) output = Next output
  /\ (forall x, Ascii.eqb x "-" || Ascii.eqb x " " || Ascii.eqb x nl = false ->
                lineStep (code +:+ String x text +:+ LF) output = Next output).
Proof.
  intros Ht Ha Hbcd code.
  apply andb_prop in Hbcd as [Hbc Hd]. apply andb_prop in Hbc as [Hb Hc].
  destruct (lead_digit a Ha) as (Hda & H0 & H8 & H9 & Hsp & H19).
  assert (Hnum : isNumeric code = true).
  { unfold code. cbn [isNumeric]. now rewrite Hda, Hb, Hc, Hd. }
  change (byteIs code 0 "0" = false) in H0.
  change (byteIs code 0 "8" = false) in H8.
  change (byteIs code 0 "9" = false) in H9.
  change (byteIs code 0 " " = false) in Hsp.
  assert (Hcoded : forall rest,
             oneLine rest = true ->
             lineStep ((code +:+ rest) +:+ LF) output
             = if (5 <? strings.len (code +:+ rest))%nat
               then if byteIs (code +:+ rest) 4 "-" || byteIs (code +:+ rest) 4 " "
                    then Next (output +:+ strings.from 5 (code +:+ rest) +:+ LF)
                    else Next output
               else Next output).
  { intros rest Hr. unfold lineStep.
    rewrite TrimRight_LF
      by (unfold code; rewrite !app_cons, app_empty_l; cbn [oneLine];
          rewrite Hr, (digit_not_nl a Hda), (digit_not_nl b Hb),
            (digit_not_nl c Hc), (digit_not_nl d Hd); reflexivity).
    assert (Hup : strings.upto 4 (code +:+ rest) = code) by reflexivity.
    assert (Hb0 : forall x, byteIs (code +:+ rest) 0 x = byteIs code 0 x) by reflexivity.
    rewrite Hup, Hnum, Hb0, Hsp, andb_false_r, H0, H8, H9.
    assert (Hlen : (4 <=? strings.len (code +:+ rest))%nat = true) by reflexivity.
    rewrite Hlen. cbn [orb].
    change (strings.at_ code 0) with (Some a). cbv iota beta. rewrite H19.
    reflexivity.
  }
  split; [|split; [|split]].
  - unfold lineStep.
    rewrite <- app_assoc_s, TrimRight_LF by (rewrite app_cons, app_empty_l; exact Ht).
    reflexivity.
  - intros Hne. destruct text as [|t text]; [contradiction|].
    split.
    + rewrite <- (app_assoc_s "-"), <- app_assoc_s, Hcoded by exact Ht. reflexivity.
    + rewrite <- (app_assoc_s " "), <- app_assoc_s, Hcoded by exact Ht. reflexivity.
  - rewrite <- (app_empty_r code) at 1. rewrite Hcoded by reflexivity. reflexivity.
  - intros x Hx. apply orb_false_elim in Hx as [Hx Hnl].
    apply orb_false_elim in Hx as [Hm Hs].
    rewrite <- app_assoc_s, Hcoded
      by (cbn [oneLine]; rewrite Hnl; exact Ht).
    assert (H4m : byteIs (code +:+ String x text) 4 "-" = false) by exact Hm.
    assert (H4s : byteIs (code +:+ String x text) 4 " " = false) by exact Hs.
    rewrite H4m, H4s. now destruct (5 <? _)%nat.
Qed.

Lemma lineStep_data_witness :
  lineStep (" " +:+ "via 192.0.2.1" +:+ LF) "x" = Next ("x" +:+ "via 192.0.2.1" +:+ LF)
  /\ lineStep ("1007" +:+ "-" +:+ "via 192.0.2.1" +:+ LF) "x"
     = Next ("x" +:+ "via 192.0.2.1" +:+ LF)
  /\ lineStep ("1007" +:+ LF) "x" = Next "x".
Proof.
  destruct (lineStep_data "x" "via 192.0.2.1" "1" "0" "0" "7" eq_refl eq_refl eq_refl)
    as (Hc & Hd & He & _).
  split; [exact Hc|]. split; [|exact He].
  apply Hd. discriminate.
Defined.

(** ** [extractSourceASNs] *)

(** The ASN a line gives to [extractSourceASNs], if any. *)
Definition sourceOf (line : string) : option string :=
  let matches := regexp.FindStringSubmatch sourceASNRe line in
  if (2 <=? length matches)%nat then Some (index matches 1) else None.

Lemma fold_sourceOf (lines : list string) (m : gmap string bool) (k : string) :
  is_Some (fold_left
             (fun (asnMap : gmap string bool) line =>
                let matches := regexp.FindStringSubmatch sourceASNRe line in
                if (2 <=? length matches)%nat then setTrue asnMap (index matches 1)
                else asnMap)
             lines m !! k)
  <-> is_Some (m !! k) \/ exists line, line ∈ lines /\ sourceOf line = Some k.
Proof.
  revert m. induction lines as [|line lines IH]; intros m.
  - simpl. split; [now left|]. intros [H|(l & Hl & _)]; [exact H|inversion Hl].
  - cbn [fold_left]. rewrite IH. unfold sourceOf at 2.
    destruct (2 <=? length (regexp.FindStringSubmatch sourceASNRe line))%nat eqn:E.
    + unfold setTrue.
      destruct (decide (index (regexp.FindStringSubmatch sourceASNRe line) 1 = k))
        as [Hk|Hk].
      * split; intros _.
        -- right. exists line. split; [now left|]. unfold sourceOf. now rewrite E, Hk.
        -- left. rewrite Hk, lookup_insert_eq. eauto.
      * rewrite lookup_insert_ne by exact Hk. split.
        -- intros [H|(l & Hl & Hs)]; [now left|right].
           exists l. split; [now right|exact Hs].
        -- intros [H|(l & Hl & Hs)]; [now left|].
           apply elem_of_cons in Hl as [->|Hl].
           ++ unfold sourceOf in Hs. rewrite E in Hs. congruence.
           ++ right. exists l. split; [exact Hl|exact Hs].
    + split.
      * intros [H|(l & Hl & Hs)]; [now left|right].
        exists l. split; [now right|exact Hs].
      * intros [H|(l & Hl & Hs)]; [now left|].
        apply elem_of_cons in Hl as [->|Hl].
        -- unfold sourceOf in Hs. rewrite E in Hs. discriminate Hs.
        -- right. exists l. split; [exact Hl|exact Hs].
Qed.

(** The pattern of the source ASN does not match before the first opening
    bracket. *)
Lemma sourceASNRe_skip (pre s : string) :
  hasByte "[" pre = false ->
  regexp.FindStringSubmatch sourceASNRe (pre +:+ String "[" s)
  = regexp.FindStringSubmatch sourceASNRe (String "[" s).
Proof.
  induction pre as [|c pre IH]; intros H; [reflexivity|].
  simpl in H. apply orb_false_elim in H as [Hc Hp].
  rewrite app_cons. rewrite <- (IH Hp).
  cbn [regexp.FindStringSubmatch].
  assert (Hrun : forall k : string -> list string -> option (list string),
             regexp.run sourceASNRe (String c (pre +:+ String "[" s)) [] k = None).
  { intros k. unfold sourceASNRe. cbn [regexp.seq regexp.lit regexp.run].
    now rewrite (Ascii.eqb_sym "[" c), Hc. }
  now rewrite Hrun.
Qed.

Lemma sourceASNRe_annotation (n flag post : string) :
  hasNonDigit n = false -> n <> EmptyString ->
  flag = EmptyString \/ flag = "i" \/ flag = "e" ->
  exists whole,
    regexp.FindStringSubmatch sourceASNRe ("[AS" +:+ n +:+ flag +:+ "]" +:+ post)
    = [whole; n].
Proof.
  intros Hn Hne Hflag.
  destruct Hflag as [->|[->| ->]]; eexists; apply FindStringSubmatch_here;
    unfold sourceASNRe; cbn [regexp.seq]; apply seg_lit;
    (apply seg_group_digits; [exact Hn|exact Hne|reflexivity|]);
    lazy; reflexivity.
Qed.

(** X19: the ASNs of [extractSourceASNs].  The slice it returns has no
    repetition, and a text is in it exactly when the pattern of the source
    ASN captures it on some line of the output.  On a line that has no
    opening bracket before the annotation [[AS<n>]], [[AS<n>i]] or
    [[AS<n>e]], with [n] a run of digits, the pattern captures [n]. *)
Theorem extractSourceASNs_members (output : string) :
  NoDup (extractSourceASNs output)
  /\ (forall k, k ∈ extractSourceASNs output
                <-> exists line, line ∈ strings.Split output nl /\ sourceOf line = Some k)
  /\ (forall pre n flag post,
        hasByte "[" pre = false ->
        hasNonDigit n = false -> n <> EmptyString ->
        flag = EmptyString \/ flag = "i" \/ flag = "e" ->
        sourceOf (pre +:+ "[AS" +:+ n +:+ flag +:+ "]" +:+ post) = Some n).
Proof.
  split; [apply NoDup_extractSourceASNs|]. split.
  - intros k. unfold extractSourceASNs. rewrite elem_of_rangeKeys, fold_sourceOf.
    rewrite lookup_empty. split.
    + intros [H|H]; [now destruct H|exact H].
    + intros H. now right.
  - intros pre n flag post Hpre Hn Hne Hflag. unfold sourceOf.
    change (pre +:+ "[AS" +:+ n +:+ flag +:+ "]" +:+ post)
      with (pre +:+ String "[" ("AS" +:+ n +:+ flag +:+ "]" +:+ post)).
    rewrite (sourceASNRe_skip _ _ Hpre).
    destruct (sourceASNRe_annotation n flag post Hn Hne Hflag) as [whole Hre].
    change ("[AS" +:+ n +:+ flag +:+ "]" +:+ post)
      with (String "[" ("AS" +:+ n +:+ flag +:+ "]" +:+ post)) in Hre.
    now rewrite Hre.
Qed.

Lemma extractSourceASNs_members_witness :
  sourceOf ("8.8.8.0/24 unicast " +:+ "[AS" +:+ "15169" +:+ "i" +:+ "]" +:+ EmptyString)
  = Some "15169".
Proof.
  refine (proj2 (proj2 (extractSourceASNs_members EmptyString))
            "8.8.8.0/24 unicast " "15169" "i" EmptyString _ _ _ _);
    try reflexivity; [discriminate|right; left; reflexivity].
Defined.

(** ** The payload is trimmed *)

Lemma trimLeftSpace_start (s : string) (skip : nat) :
  strings.trimLeftSpace skip s = EmptyString
  \/ strings.spaceWidth (strings.trimLeftSpace skip s) = 0%nat.
Proof.
  revert skip. induction s as [|c s IH]; intros skip; [now left|].
  change (strings.trimLeftSpace skip (String c s))
    with (match skip with
          | S k => strings.trimLeftSpace k s
          | O => match strings.spaceWidth (String c s) with
                 | O => String c s
                 | S w => strings.trimLeftSpace w s
                 end
          end).
  destruct skip as [|k]; [|apply IH].
  destruct (strings.spaceWidth (String c s)) eqn:E; [now right|apply IH].
Qed.

Lemma trimLeftSpaceRev_start (r : string) (skip : nat) :
  strings.trimLeftSpaceRev skip r = EmptyString
  \/ strings.spaceWidthRev (strings.trimLeftSpaceRev skip r) = 0%nat.
Proof.
  revert skip. induction r as [|c r IH]; intros skip; [now left|].
  change (strings.trimLeftSpaceRev skip (String c r))
    with (match skip with
          | S k => strings.trimLeftSpaceRev k r
          | O => match strings.spaceWidthRev (String c r) with
                 | O => String c r
                 | S w => strings.trimLeftSpaceRev w r
                 end
          end).
  destruct skip as [|k]; [|apply IH].
  destruct (strings.spaceWidthRev (String c r)) eqn:E; [now right|apply IH].
Qed.

Lemma trimLeftSpaceRev_suffix (r : string) (skip : nat) :
  exists pre, r = pre +:+ strings.trimLeftSpaceRev skip r.
Proof.
  revert skip. induction r as [|c r IH]; intros skip; [now exists EmptyString|].
  change (strings.trimLeftSpaceRev skip (String c r))
    with (match skip with
          | S k => strings.trimLeftSpaceRev k r
          | O => match strings.spaceWidthRev (String c r) with
                 | O => String c r
                 | S w => strings.trimLeftSpaceRev w r
                 end
          end).
  assert (Hdrop : forall k, exists pre,
             String c r = pre +:+ strings.trimLeftSpaceRev k r).
  { intros k. destruct (IH k) as [pre Hpre]. exists (String c pre).
    now rewrite app_cons, <- Hpre. }
  destruct skip as [|k]; [|apply Hdrop].
  destruct (strings.spaceWidthRev (String c r)); [now exists EmptyString|apply Hdrop].
Qed.

Lemma spaceWidth_prefix (p q : string) :
  strings.spaceWidth (p +:+ q) = 0%nat -> strings.spaceWidth p = 0%nat.
Proof.
  destruct p as [|c [|d [|e p]]]; rewrite ?app_cons, ?app_empty_l; simpl;
    [reflexivity | | |exact (fun H => H)].
  - destruct (strings.asciiSpace c); [discriminate|reflexivity].
  - destruct (strings.asciiSpace c); [discriminate|].
    destruct (strings.space2 c d); [discriminate|reflexivity].
Qed.

Lemma TrimSpace_ends (s : string) :
  strings.spaceWidth (strings.TrimSpace s) = 0%nat
  /\ strings.spaceWidthRev (String.rev (strings.TrimSpace s)) = 0%nat.
Proof.
  unfold strings.TrimSpace.
  set (r := strings.trimLeftSpace 0 s).
  set (r' := strings.trimLeftSpaceRev 0 (String.rev r)).
  split.
  - destruct (trimLeftSpaceRev_suffix (String.rev r) 0) as [pre Hpre].
    fold r' in Hpre.
    assert (Hr : r = String.rev r' +:+ String.rev pre).
    { rewrite <- (rev_rev r), Hpre. apply rev_append. }
    destruct (trimLeftSpace_start s 0) as [H|H]; fold r in H.
    + rewrite H in Hr. destruct (String.rev r'); [reflexivity|discriminate Hr].
    + rewrite Hr in H. now apply spaceWidth_prefix in H.
  - rewrite rev_rev.
    destruct (trimLeftSpaceRev_start (String.rev r) 0) as [H|H]; fold r' in H;
      [now rewrite H|exact H].
Qed.

Lemma TrimSpace_fixed (t : string) :
  strings.spaceWidth t = 0%nat -> strings.spaceWidthRev (String.rev t) = 0%nat ->
  strings.TrimSpace t = t.
Proof.
  intros Hs He. unfold strings.TrimSpace.
  assert (Hl : strings.trimLeftSpace 0 t = t).
  { destruct t as [|c t]; [reflexivity|].
    cbn [strings.trimLeftSpace]. now rewrite Hs. }
  rewrite Hl.
  assert (Hr : strings.trimLeftSpaceRev 0 (String.rev t) = String.rev t).
  { destruct (String.rev t) as [|c r]; [reflexivity|].
    cbn [strings.trimLeftSpaceRev]. now rewrite He. }
  rewrite Hr. apply rev_rev.
Qed.

Lemma readResponse_trimmed (cause : string) (lines : list string)
    (output payload : string) :
  readResponse cause lines output = (payload, None) ->
  exists o, payload = strings.TrimSpace o.
Proof.
  revert output. induction lines as [|raw lines IH]; intros output; [discriminate|].
  cbn [readResponse]. destruct (lineStep raw output) as [o|o|e].
  - apply IH.
  - intros [= <-]. now exists o.
  - discriminate.
Qed.

(** X20: a payload [querySocket] returns with no error does not start
    with a white-space rune and does not end with one, in the sense of
    [unicode.IsSpace]; trimming it again, as [countRouteLines] does, changes
    nothing. *)
Theorem querySocket_payload_trimmed (socketPath command : string) (w : World)
    (payload : string) :
  fst (querySocket socketPath command w) = (payload, None) ->
  strings.spaceWidth payload = 0%nat
  /\ strings.spaceWidthRev (String.rev payload) = 0%nat
  /\ strings.TrimSpace payload = payload.
Proof.
  unfold querySocket.
  destruct (endpoints w socketPath (dials w)) as [cause|conn]; [discriminate|].
  destruct (ReadString (banner conn)) as [[greeting buffered]|]; [|discriminate].
  destruct (negb (strings.HasPrefix greeting "0001")); [discriminate|].
  destruct (write_err conn); [discriminate|].
  cbn [fst]. intros H.
  destruct (readResponse (read_err conn) _ EmptyString) as [p e] eqn:E in H.
  injection H as -> ->.
  destruct (readResponse_trimmed _ _ _ _ E) as [o ->].
  destruct (TrimSpace_ends o) as [Hs He].
  split; [exact Hs|]. split; [exact He|]. now apply TrimSpace_fixed.
Qed.

Lemma querySocket_payload_trimmed_witness :
  strings.spaceWidth "ok" = 0%nat
  /\ strings.spaceWidthRev (String.rev "ok") = 0%nat
  /\ strings.TrimSpace "ok" = "ok".
Proof.
  apply (querySocket_payload_trimmed "/run/bird.ctl" "show status"
           (fixedWorld ("0000   ok  " +:+ LF)) "ok").
  vm_compute. reflexivity.
Defined.
